(** * Payroll-System-Backend: payroll processing, mark-as-paid and reports

    A shallow embedding of the controllers of the payroll backend
    (the payroll controller, the PayrollService class, report.controller.ts,
    reports.controller.ts, the employee and dashboard controllers and the
    settings routes) over a list model of the relational store.

    Conventions of the embedding.
    - Money columns are DOUBLE PRECISION in the migration and JavaScript
      numbers in the controllers: both are IEEE 754 binary64, modelled by
      the primitive [float].  Every sum and difference is written with the
      grouping and in the order the code evaluates it, and every
      intermediate result is rounded as the code rounds it.
    - The month and year columns are INTEGER (32-bit, signed).  A row
      carries the proof that its month and year fit; the client refuses a
      value that does not fit, in a filter as in the data of a row, and
      throws.  The text of that error is the query engine's; the client
      puts the location of the call before it, which is not modelled.
    - Counts (of rows, of the members of a group) are modelled by [Z]: a
      JavaScript number counts exactly up to 2^53.
    - A table is the list of its rows in the order in which a query
      without [orderBy] reads them: [findMany] returns the rows in that
      order and an aggregate adds them up in that order.  A statement
      about one state of the store is made for every such order.
    - The bookkeeping columns createdAt and updatedAt, which only the
      persistence layer writes, and the columns no modelled handler reads
      (age, phone, email, joiningDate, avatar) are left out, and so are
      the role tables (Teacher, Officer, Staff) a nested include joins.
    - [new Date()] is an explicit argument [now] (milliseconds).
    - A handler is a function from the store to the new store and the
      response it sends.  What throws inside a handler is [inl] of the
      message; a failure of the persistence layer itself (a lost
      connection) is not modelled, so the catch-all 500 answers appear only
      where the modelled code can throw. *)

From Stdlib Require Import ZArith List String Bool Lia QArith DecimalString Recdef.
From Stdlib Require Import Permutation Sorted Floats Eqdep_dec.
Import ListNotations.
Local Open Scope Z_scope.
#[local] Set Warnings "-inexact-float".

(** ** Schema *)

(** The INTEGER columns: 32-bit signed integers. *)
Module Int4.

Definition min_value : Z := -2147483648.
Definition max_value : Z := 2147483647.

Definition fits (z : Z) : bool := (min_value <=? z) && (z <=? max_value).

Definition check (z : Z) : {fits z = true} + {fits z = false} :=
  match fits z as b return {b = true} + {b = false} with
  | true => left eq_refl
  | false => right eq_refl
  end.

End Int4.

Inductive EmployeeType := TEACHER | OFFICER | STAFF.
Inductive EmployeeStatus := ACTIVE | INACTIVE.
Inductive PayrollStatus := PAID | PENDING.

Definition EmployeeType_eqb (a b : EmployeeType) : bool :=
  match a, b with
  | TEACHER, TEACHER | OFFICER, OFFICER | STAFF, STAFF => true
  | _, _ => false
  end.

Definition EmployeeStatus_eqb (a b : EmployeeStatus) : bool :=
  match a, b with
  | ACTIVE, ACTIVE | INACTIVE, INACTIVE => true
  | _, _ => false
  end.

Definition PayrollStatus_eqb (a b : PayrollStatus) : bool :=
  match a, b with
  | PAID, PAID | PENDING, PENDING => true
  | _, _ => false
  end.

Module Employee.
Record t := mk {
  id : string;
  name : string;
  designation : string;
  employeeType : EmployeeType;
  basicSalary : float;
  status : EmployeeStatus;
  houseRent : float;
  medical : float;
  transport : float;
  education : float;
  special : float;
  tax : float;
  providentFund : float;
  insurance : float;
  loan : float;
  other : float
}.
End Employee.

Module Payroll.
Record t := mk {
  id : string;
  employeeId : string;
  month : Z;
  year : Z;
  basicSalary : float;
  houseRent : float;
  medical : float;
  transport : float;
  education : float;
  special : float;
  tax : float;
  providentFund : float;
  insurance : float;
  loan : float;
  other : float;
  grossSalary : float;
  netSalary : float;
  status : PayrollStatus;
  paidAt : option Z;
  month_fits : Int4.fits month = true;
  year_fits : Int4.fits year = true
}.
End Payroll.

(** The store: the Employee and Payroll tables. *)
Record Db := mkDb {
  employees : list Employee.t;
  payrolls : list Payroll.t
}.

(** A payroll row fetched with [include: { employee: ... }]. *)
Record PayrollWithEmployee := mkIncluded {
  payroll : Payroll.t;
  employee : option Employee.t
}.

(** ** The persistence collaborator (the Prisma client) *)

Module Prisma.

(** [where] objects of [prisma.employee]: an absent key is no condition. *)
Record EmployeeWhere := mkEmployeeWhere {
  ew_status : option EmployeeStatus;
  ew_id_in : option (list string)
}.

Definition employee_matches (w : EmployeeWhere) (e : Employee.t) : bool :=
  match ew_status w with
  | Some s => EmployeeStatus_eqb (Employee.status e) s
  | None => true
  end
  &&
  match ew_id_in w with
  | Some ids => existsb (String.eqb (Employee.id e)) ids
  | None => true
  end.

(** [where] objects of [prisma.payroll]. *)
Record PayrollWhere := mkPayrollWhere {
  pw_id_in : option (list string);
  pw_month : option Z;
  pw_year : option Z;
  pw_status : option PayrollStatus
}.

Definition payroll_matches (w : PayrollWhere) (p : Payroll.t) : bool :=
  match pw_id_in w with
  | Some ids => existsb (String.eqb (Payroll.id p)) ids
  | None => true
  end
  &&
  match pw_month w with
  | Some m => Payroll.month p =? m
  | None => true
  end
  &&
  match pw_year w with
  | Some y => Payroll.year p =? y
  | None => true
  end
  &&
  match pw_status w with
  | Some s => PayrollStatus_eqb (Payroll.status p) s
  | None => true
  end.

(** The [data] object of [prisma.payroll.create]; [status] and [paidAt]
    fall back to the column defaults ('PENDING' and NULL). *)
Record PayrollCreateInput := mkCreate {
  c_employeeId : string;
  c_month : Z;
  c_year : Z;
  c_basicSalary : float;
  c_houseRent : float;
  c_medical : float;
  c_transport : float;
  c_education : float;
  c_special : float;
  c_tax : float;
  c_providentFund : float;
  c_insurance : float;
  c_loan : float;
  c_other : float;
  c_grossSalary : float;
  c_netSalary : float;
  c_status : option PayrollStatus;
  c_paidAt : option Z
}.

(** The error of the query engine for a value that does not fit an
    INTEGER column or a filter on one. *)
Definition int4_overflow (v : Z) : string :=
  ("Unable to fit integer value '" ++ NilZero.string_of_int (Z.to_int v) ++
   "' into an INT4 (32-bit signed integer).")%string.

(** The values of a [where] or [data] object are validated before the
    query is run: the month, then the year. *)
Definition period_error (m y : option Z) : option string :=
  match m with
  | Some v => if Int4.fits v then
                match y with
                | Some v' => if Int4.fits v' then None else Some (int4_overflow v')
                | None => None
                end
              else Some (int4_overflow v)
  | None => match y with
            | Some v' => if Int4.fits v' then None else Some (int4_overflow v')
            | None => None
            end
  end.

Definition unique_violation : string :=
  "Unique constraint failed on the fields: (`employeeId`,`month`,`year`)"%string.
Definition foreign_key_violation : string :=
  "Foreign key constraint failed on the field: `Payroll_employeeId_fkey`"%string.

Definition same_period (eid : string) (m y : Z) (p : Payroll.t) : bool :=
  String.eqb (Payroll.employeeId p) eid
  && (Payroll.month p =? m) && (Payroll.year p =? y).

Section Client.
  (** The generator behind the [id] column default: the id given to a row
      inserted into the table. *)
Variable newId : list Payroll.t -> string.

Definition employee_findMany (db : Db) (w : EmployeeWhere) : list Employee.t :=
  filter (employee_matches w) (employees db).

Definition employee_findUnique (db : Db) (id : string) : option Employee.t :=
  find (fun e => String.eqb (Employee.id e) id) (employees db).

(** The rows a [where] object selects. *)
Definition payroll_rows (db : Db) (w : PayrollWhere) : list Payroll.t :=
  filter (payroll_matches w) (payrolls db).

(** [findMany] throws on a month or year filter that does not fit. *)
Definition payroll_findMany (db : Db) (w : PayrollWhere)
    : string + list Payroll.t :=
  match period_error (pw_month w) (pw_year w) with
  | Some err => inl err
  | None => inr (payroll_rows db w)
  end.

Definition payroll_findUnique (db : Db) (id : string) : option Payroll.t :=
  find (fun p => String.eqb (Payroll.id p) id) (payrolls db).

(** [findUnique({ where: { employeeId_month_year: ... } })]. *)
Definition payroll_findUnique_employeeId_month_year
    (db : Db) (eid : string) (m y : Z) : string + option Payroll.t :=
  match period_error (Some m) (Some y) with
  | Some err => inl err
  | None => inr (find (same_period eid m y) (payrolls db))
  end.

(** [findFirst({ where: { employeeId, month, year } })]. *)
Definition payroll_findFirst_employeeId_month_year
    (db : Db) (eid : string) (m y : Z) : string + option Payroll.t :=
  match period_error (Some m) (Some y) with
  | Some err => inl err
  | None => inr (find (same_period eid m y) (payrolls db))
  end.

Definition include_employee (db : Db) (p : Payroll.t) : PayrollWithEmployee :=
  {| payroll := p; employee := employee_findUnique db (Payroll.employeeId p) |}.

Definition new_row (db : Db) (d : PayrollCreateInput)
    (month_fits : Int4.fits (c_month d) = true)
    (year_fits : Int4.fits (c_year d) = true) : Payroll.t :=
  {| Payroll.id := newId (payrolls db);
     Payroll.employeeId := c_employeeId d;
     Payroll.month := c_month d;
     Payroll.year := c_year d;
     Payroll.basicSalary := c_basicSalary d;
     Payroll.houseRent := c_houseRent d;
     Payroll.medical := c_medical d;
     Payroll.transport := c_transport d;
     Payroll.education := c_education d;
     Payroll.special := c_special d;
     Payroll.tax := c_tax d;
     Payroll.providentFund := c_providentFund d;
     Payroll.insurance := c_insurance d;
     Payroll.loan := c_loan d;
     Payroll.other := c_other d;
     Payroll.grossSalary := c_grossSalary d;
     Payroll.netSalary := c_netSalary d;
     Payroll.status := match c_status d with Some s => s | None => PENDING end;
     Payroll.paidAt := c_paidAt d;
     Payroll.month_fits := month_fits;
     Payroll.year_fits := year_fits |}.

(** [create] throws ([inl], the error message) on a month or year that
    does not fit and on a violated constraint, and otherwise appends the
    row. *)
Definition payroll_create (db : Db) (d : PayrollCreateInput)
    : string + (Db * Payroll.t) :=
  match Int4.check (c_month d), Int4.check (c_year d) with
  | right _, _ => inl (int4_overflow (c_month d))
  | left _, right _ => inl (int4_overflow (c_year d))
  | left month_fits, left year_fits =>
      if existsb (same_period (c_employeeId d) (c_month d) (c_year d)) (payrolls db)
      then inl unique_violation
      else match employee_findUnique db (c_employeeId d) with
           | None => inl foreign_key_violation
           | Some _ =>
               let row := new_row db d month_fits year_fits in
               inr ({| employees := employees db;
                       payrolls := payrolls db ++ [row] |}, row)
           end
  end.
End Client.

(** [data: { status: 'PAID', paidAt: ... }] applied to one row. *)
Definition set_paid (paidAt : Z) (p : Payroll.t) : Payroll.t :=
  {| Payroll.id := Payroll.id p;
     Payroll.employeeId := Payroll.employeeId p;
     Payroll.month := Payroll.month p;
     Payroll.year := Payroll.year p;
     Payroll.basicSalary := Payroll.basicSalary p;
     Payroll.houseRent := Payroll.houseRent p;
     Payroll.medical := Payroll.medical p;
     Payroll.transport := Payroll.transport p;
     Payroll.education := Payroll.education p;
     Payroll.special := Payroll.special p;
     Payroll.tax := Payroll.tax p;
     Payroll.providentFund := Payroll.providentFund p;
     Payroll.insurance := Payroll.insurance p;
     Payroll.loan := Payroll.loan p;
     Payroll.other := Payroll.other p;
     Payroll.grossSalary := Payroll.grossSalary p;
     Payroll.netSalary := Payroll.netSalary p;
     Payroll.status := PAID;
     Payroll.paidAt := Some paidAt;
     Payroll.month_fits := Payroll.month_fits p;
     Payroll.year_fits := Payroll.year_fits p |}.

(** [updateMany({ where, data: { status: 'PAID', paidAt } })]: every
    matching row is rewritten, the result carries their number. *)
Definition payroll_updateMany_paid (db : Db) (w : PayrollWhere) (paidAt : Z)
    : Db * Z :=
  ({| employees := employees db;
      payrolls := map (fun p => if payroll_matches w p then set_paid paidAt p else p)
                      (payrolls db) |},
   Z.of_nat (List.length (filter (payroll_matches w) (payrolls db)))).

(** [update({ where: { id }, data: { status: 'PAID', paidAt } })]: throws
    when no row has the id. *)
Definition record_not_found : string :=
  "Record to update not found."%string.

Definition payroll_update_paid (db : Db) (id : string) (paidAt : Z)
    : string + (Db * Payroll.t) :=
  match find (fun p => String.eqb (Payroll.id p) id) (payrolls db) with
  | None => inl record_not_found
  | Some p =>
      inr ({| employees := employees db;
              payrolls := map (fun q => if String.eqb (Payroll.id q) id
                                        then set_paid paidAt q else q)
                              (payrolls db) |},
           set_paid paidAt p)
  end.

End Prisma.

(** ** HTTP responses

    [res.status(code).json({ success, message, data, error })]. *)

Record Response (A : Type) := mkResponse {
  statusCode : Z;
  success : bool;
  message : option string;
  data : option A;
  error : option string
}.
Arguments mkResponse {A}.
Arguments statusCode {A}.
Arguments success {A}.
Arguments message {A}.
Arguments data {A}.
Arguments error {A}.

Definition ok {A} (code : Z) (msg : option string) (d : A) : Response A :=
  mkResponse code true msg (Some d) None.
Definition failure {A} (code : Z) (msg : string) : Response A :=
  mkResponse code false (Some msg) None None.
Definition server_error {A} (msg err : string) : Response A :=
  mkResponse 500 false (Some msg) None (Some err).

(** Template literals print a count in decimal. *)
Definition show (n : Z) : string := NilZero.string_of_int (Z.to_int n).

(** [!v] for a JSON number of the request body: falsy when absent or zero. *)
Definition truthy (v : option Z) : bool :=
  match v with
  | Some n => negb (n =? 0)
  | None => false
  end.

(** ** The payroll controller *)

(** [req.body] of POST /api/payroll/process; [month] and [year] are JSON
    integers that a JavaScript number holds exactly (below 2^53 in absolute
    value), on which [parseInt] is the identity. *)
Module ProcessBody.
Record t := mk {
  month : option Z;
  year : option Z;
  employeeIds : option (list string)
}.
End ProcessBody.

Module ProcessError.
Record t := mk {
  employeeId : string;
  employeeName : string;
  message : string
}.
End ProcessError.

Module ProcessResult.
Record t := mk {
  processed : list PayrollWithEmployee;
  errors : list ProcessError.t
}.
End ProcessResult.

Module BulkResult.
Record t := mk { updatedCount : Z }.
End BulkResult.

Module PayrollController.

Definition already_processed : string :=
  "Payroll already processed for this period"%string.

(** What the loop of [processPayroll] carries: the store and the two
    arrays it pushes to. *)
Record LoopState := mkLoop {
  st_db : Db;
  payrollRecords : list PayrollWithEmployee;
  errors : list ProcessError.t
}.

Definition push_error (st : LoopState) (employee : Employee.t) (msg : string)
    : LoopState :=
  {| st_db := st_db st;
     payrollRecords := payrollRecords st;
     errors := errors st ++
       [ {| ProcessError.employeeId := Employee.id employee;
            ProcessError.employeeName := Employee.name employee;
            ProcessError.message := msg |} ] |}.

Section Handlers.
Variable newId : list Payroll.t -> string.

(** The body of [for (const employee of employees)], with its
    try/catch: what the lookup or the create throws becomes an entry of
    [errors]. *)
Definition processEmployee (month year : Z) (st : LoopState)
    (employee : Employee.t) : LoopState :=
  match Prisma.payroll_findUnique_employeeId_month_year
          (st_db st) (Employee.id employee) month year with
  | inl err => push_error st employee err
  | inr (Some _) => push_error st employee already_processed
  | inr None =>
      let totalAllowances :=
        (Employee.houseRent employee +
         Employee.medical employee +
         Employee.transport employee +
         Employee.education employee +
         Employee.special employee)%float in
      let totalDeductions :=
        (Employee.tax employee +
         Employee.providentFund employee +
         Employee.insurance employee +
         Employee.loan employee +
         Employee.other employee)%float in
      let grossSalary := (Employee.basicSalary employee + totalAllowances)%float in
      let netSalary := (grossSalary - totalDeductions)%float in
      match Prisma.payroll_create newId (st_db st)
              {| Prisma.c_employeeId := Employee.id employee;
                 Prisma.c_month := month;
                 Prisma.c_year := year;
                 Prisma.c_basicSalary := Employee.basicSalary employee;
                 Prisma.c_houseRent := Employee.houseRent employee;
                 Prisma.c_medical := Employee.medical employee;
                 Prisma.c_transport := Employee.transport employee;
                 Prisma.c_education := Employee.education employee;
                 Prisma.c_special := Employee.special employee;
                 Prisma.c_tax := Employee.tax employee;
                 Prisma.c_providentFund := Employee.providentFund employee;
                 Prisma.c_insurance := Employee.insurance employee;
                 Prisma.c_loan := Employee.loan employee;
                 Prisma.c_other := Employee.other employee;
                 Prisma.c_grossSalary := grossSalary;
                 Prisma.c_netSalary := netSalary;
                 Prisma.c_status := Some PENDING;
                 Prisma.c_paidAt := None |} with
      | inr (db', payroll) =>
          {| st_db := db';
             payrollRecords := payrollRecords st ++
                               [Prisma.include_employee db' payroll];
             errors := errors st |}
      | inl err => push_error st employee err
      end
  end.

(** The employees to process: [where = { status: 'ACTIVE' }], with
    [id: { in: employeeIds }] added only for a non-empty list. *)
Definition employees_where (employeeIds : option (list string))
    : Prisma.EmployeeWhere :=
  {| Prisma.ew_status := Some ACTIVE;
     Prisma.ew_id_in :=
       match employeeIds with
       | Some ids => if (0 <? Z.of_nat (List.length ids)) then Some ids else None
       | None => None
       end |}.

Definition processPayroll (db : Db) (body : ProcessBody.t)
    : Db * Response ProcessResult.t :=
  if negb (truthy (ProcessBody.month body)) || negb (truthy (ProcessBody.year body))
  then (db, failure 400 "Month and year are required")
  else
    match ProcessBody.month body, ProcessBody.year body with
    | Some month, Some year =>
        let employees :=
          Prisma.employee_findMany db
            (employees_where (ProcessBody.employeeIds body)) in
        if Z.of_nat (List.length employees) =? 0
        then (db, failure 404 "No active employees found")
        else
          let st := fold_left (processEmployee month year) employees
                      {| st_db := db; payrollRecords := []; errors := [] |} in
          (st_db st,
           ok 201
             (Some ("Payroll processed for " ++
                    show (Z.of_nat (List.length (payrollRecords st))) ++
                    " employees")%string)
             {| ProcessResult.processed := payrollRecords st;
                ProcessResult.errors := errors st |})
    | _, _ => (db, failure 400 "Month and year are required")
    end.
End Handlers.

Definition markPayrollAsPaid (now : Z) (db : Db) (id : string)
    : Db * Response PayrollWithEmployee :=
  match Prisma.payroll_findUnique db id with
  | None => (db, failure 404 "Payroll record not found")
  | Some payroll =>
      if PayrollStatus_eqb (Payroll.status payroll) PAID
      then (db, failure 400 "Payroll already marked as paid")
      else
        match Prisma.payroll_update_paid db id now with
        | inr (db', updatedPayroll) =>
            (db', ok 200 (Some "Payroll marked as paid"%string)
                    (Prisma.include_employee db' updatedPayroll))
        | inl err => (db, server_error "Failed to mark payroll as paid" err)
        end
  end.

Definition bulkMarkAsPaid (now : Z) (db : Db) (payrollIds : option (list string))
    : Db * Response BulkResult.t :=
  match payrollIds with
  | None => (db, failure 400 "Payroll IDs are required")
  | Some ids =>
      if Z.of_nat (List.length ids) =? 0
      then (db, failure 400 "Payroll IDs are required")
      else
        let (db', count) :=
          Prisma.payroll_updateMany_paid db
            {| Prisma.pw_id_in := Some ids;
               Prisma.pw_month := None;
               Prisma.pw_year := None;
               Prisma.pw_status := Some PENDING |} now in
        (db', ok 200 (Some (show count ++ " payroll records marked as paid")%string)
                {| BulkResult.updatedCount := count |})
  end.

End PayrollController.

(** ** The PayrollService class

    The class works on the same two tables through [this.model] (the
    payroll delegate) and [prisma.employee], but it is written against
    [any]-typed objects: it reads the properties [allowances] and
    [deductions] of an employee row and hands [create] an object with keys
    of its own. *)

Module PayrollService.

(** An object with numeric values: its own properties in insertion
    order. *)
Definition JsonObject := list (string * float).

(** [employee.allowances] and [employee.deductions] on a row fetched by
    [prisma.employee.findUnique] or [findMany] with the three role rows
    included.  The object has the columns of the Employee table and the
    properties teacher, officer and staff; [allowances] and [deductions]
    are none of them, so the read gives [undefined], here [None]. *)
Definition allowances (employee : Employee.t) : option JsonObject := None.
Definition deductions (employee : Employee.t) : option JsonObject := None.

(** The object handed to [this.create]. *)
Module CreateData.
Record t := mk {
  employeeId : string;
  employeeName : string;
  employeeType : EmployeeType;
  designation : string;
  month : Z;
  year : Z;
  basicSalary : float;
  allowances : JsonObject;
  deductions : JsonObject;
  grossSalary : float;
  netSalary : float;
  status : PayrollStatus;
  paidAt : option Z
}.
End CreateData.

Definition type_error : string :=
  "Cannot convert undefined or null to object"%string.

Definition unknown_argument : string :=
  "Unknown argument `employeeName`. Available options are marked with ?."%string.

(** [BaseService.create(data)], that is [this.model.create({ data })],
    on the object of [processPayroll]: its keys employeeName,
    employeeType, designation, allowances and deductions are no fields of
    the Payroll model, so the client refuses the object before any query
    is run. *)
Definition create (db : Db) (data : CreateData.t) : string + (Db * Payroll.t) :=
  inl unknown_argument.

(** [Object.values(o).reduce((sum, val) => sum + Number(val), 0)];
    [Object.values] throws a TypeError on [undefined]. *)
Definition sum_values (o : option JsonObject) : string + float :=
  match o with
  | None => inl type_error
  | Some props => inr (fold_left (fun sum val => (sum + val)%float) (map snd props) 0%float)
  end.

Definition calculateGrossSalary (employee : Employee.t) : string + float :=
  match sum_values (allowances employee) with
  | inl err => inl err
  | inr totalAllowances => inr (Employee.basicSalary employee + totalAllowances)%float
  end.

Definition calculateTotalDeductions (employee : Employee.t) : string + float :=
  sum_values (deductions employee).

(** [x || {}]. *)
Definition or_empty (o : option JsonObject) : JsonObject :=
  match o with Some props => props | None => [] end.

(** [processPayroll(data)]: [inl] is the message of the Error thrown,
    [inr] the record created. *)
Definition processPayroll (now : Z) (db : Db) (employeeId : string)
    (month year : Z) : Db * (string + Payroll.t) :=
  match Prisma.payroll_findFirst_employeeId_month_year db employeeId month year with
  | inl err => (db, inl err)
  | inr (Some _) => (db, inl "Payroll already processed for this period"%string)
  | inr None =>
      match Prisma.employee_findUnique db employeeId with
      | None => (db, inl "Employee not found"%string)
      | Some employee =>
          match calculateGrossSalary employee with
          | inl err => (db, inl err)
          | inr grossSalary =>
              match calculateTotalDeductions employee with
              | inl err => (db, inl err)
              | inr totalDeductions =>
                  let netSalary := (grossSalary - totalDeductions)%float in
                  match create db
                          {| CreateData.employeeId := employeeId;
                             CreateData.employeeName := Employee.name employee;
                             CreateData.employeeType := Employee.employeeType employee;
                             CreateData.designation := Employee.designation employee;
                             CreateData.month := month;
                             CreateData.year := year;
                             CreateData.basicSalary := Employee.basicSalary employee;
                             CreateData.allowances := or_empty (allowances employee);
                             CreateData.deductions := or_empty (deductions employee);
                             CreateData.grossSalary := grossSalary;
                             CreateData.netSalary := netSalary;
                             CreateData.status := PAID;
                             CreateData.paidAt := Some now |} with
                  | inl err => (db, inl err)
                  | inr (db', payroll) => (db', inr payroll)
                  end
              end
          end
      end
  end.

Module MonthlyError.
Record t := mk {
  employeeId : string;
  employeeName : string;
  error : string
}.
End MonthlyError.

Record MonthlyState := mkMonthly {
  m_db : Db;
  results : list Payroll.t;
  errors : list MonthlyError.t
}.

(** The body of the loop of [processMonthlyPayroll], with its try/catch. *)
Definition processMonthlyEmployee (now : Z) (month year : Z)
    (acc : MonthlyState) (employee : Employee.t) : MonthlyState :=
  match processPayroll now (m_db acc) (Employee.id employee) month year with
  | (db', inr payroll) =>
      {| m_db := db'; results := results acc ++ [payroll];
         errors := errors acc |}
  | (db', inl msg) =>
      {| m_db := db'; results := results acc;
         errors := errors acc ++
           [ {| MonthlyError.employeeId := Employee.id employee;
                MonthlyError.employeeName := Employee.name employee;
                MonthlyError.error := msg |} ] |}
  end.

(** [processMonthlyPayroll(month, year)]: every ACTIVE employee in turn. *)
Definition processMonthlyPayroll (now : Z) (db : Db) (month year : Z)
    : MonthlyState :=
  let employees :=
    Prisma.employee_findMany db
      {| Prisma.ew_status := Some ACTIVE; Prisma.ew_id_in := None |} in
  fold_left (processMonthlyEmployee now month year) employees
    {| m_db := db; results := []; errors := [] |}.

End PayrollService.

(** ** JavaScript's Map: keys in insertion order *)

Module JsMap.
Section WithKey.
Context {K V : Type} (eqb : K -> K -> bool).

Definition t := list (K * V).

Fixpoint has (m : t) (k : K) : bool :=
  match m with
  | [] => false
  | (k', _) :: rest => if eqb k' k then true else has rest k
  end.

Fixpoint get (m : t) (k : K) : option V :=
  match m with
  | [] => None
  | (k', v) :: rest => if eqb k' k then Some v else get rest k
  end.

(** [set] keeps the position of a key already present and appends a
    new one.  Mutating the object that [get] returned is a [set] of
    the changed object under the same key. *)
Fixpoint set (m : t) (k : K) (v : V) : t :=
  match m with
  | [] => [(k, v)]
  | (k', v') :: rest =>
      if eqb k' k then (k', v) :: rest else (k', v') :: set rest k v
  end.

Definition values (m : t) : list V := map snd m.
End WithKey.
Arguments t : clear implicits.
End JsMap.

(** [array.forEach(body)] where the body may throw: [inl] carries the
    message of the exception that ends the loop. *)
Fixpoint forEach {A S : Type} (body : S -> A -> string + S) (l : list A) (s : S)
    : string + S :=
  match l with
  | [] => inr s
  | a :: rest =>
      match body s a with
      | inl err => inl err
      | inr s' => forEach body rest s'
      end
  end.

(** The JavaScript number holding a count: the binary64 value nearest to
    it (the count itself up to 2^53). *)
Definition number_of_count (n : Z) : float :=
  SF2Prim (binary_normalize prec emax n 0 false).

(** The TypeError of reading a property of [null] or [undefined]. *)
Definition null_employee (property : string) : string :=
  ("Cannot read properties of null (reading '" ++ property ++ "')")%string.
Definition undefined_entry (property : string) : string :=
  ("Cannot read properties of undefined (reading '" ++ property ++ "')")%string.

(** A string query parameter holding a decimal integer that a JavaScript
    number holds exactly (below 2^53 in absolute value): [None] when the
    parameter is absent or empty (the only falsy strings), otherwise the
    value of [parseInt]. *)
Definition QueryInt := option Z.

(** ** report.controller.ts *)

Module ReportController.

Module TypeData.
Record t := mk {
  employeeType : EmployeeType;
  count : Z;
  totalBasicSalary : float;
  totalAllowances : float;
  totalDeductions : float;
  totalGrossSalary : float;
  totalNetSalary : float
}.
End TypeData.

Module DesigData.
Record t := mk {
  designation : string;
  count : Z;
  totalBasicSalary : float;
  totalGrossSalary : float;
  totalNetSalary : float;
  averageSalary : float
}.
End DesigData.

Module Report.
Record t (A : Type) := mk {
  period : Z * Z;
  report : list A
}.
Arguments mk {A}.
Arguments period {A}.
Arguments report {A}.
End Report.

Definition period_where (month year : Z) : Prisma.PayrollWhere :=
  {| Prisma.pw_id_in := None;
     Prisma.pw_month := Some month;
     Prisma.pw_year := Some year;
     Prisma.pw_status := None |}.

(** [findMany({ where, include: { employee: { select: ... } } })].  The
    callbacks read only [employeeType] and [designation] of the employee,
    which every [select] of this file includes, and no handler returns
    the joined rows. *)
Definition findMany_with_employee (db : Db) (w : Prisma.PayrollWhere)
    : string + list PayrollWithEmployee :=
  match Prisma.payroll_findMany db w with
  | inl err => inl err
  | inr payrolls => inr (map (Prisma.include_employee db) payrolls)
  end.

(** The object a new key of [typeMap] is set to. *)
Definition newTypeData (type : EmployeeType) : TypeData.t :=
  {| TypeData.employeeType := type;
     TypeData.count := 0;
     TypeData.totalBasicSalary := 0%float;
     TypeData.totalAllowances := 0%float;
     TypeData.totalDeductions := 0%float;
     TypeData.totalGrossSalary := 0%float;
     TypeData.totalNetSalary := 0%float |}.

(** [typeData.count++] and the five [+=] of the callback. *)
Definition addToTypeData (typeData : TypeData.t) (p : Payroll.t) : TypeData.t :=
  {| TypeData.employeeType := TypeData.employeeType typeData;
     TypeData.count := TypeData.count typeData + 1;
     TypeData.totalBasicSalary :=
       (TypeData.totalBasicSalary typeData + Payroll.basicSalary p)%float;
     TypeData.totalAllowances :=
       (TypeData.totalAllowances typeData +
        (Payroll.houseRent p + Payroll.medical p + Payroll.transport p +
         Payroll.education p + Payroll.special p))%float;
     TypeData.totalDeductions :=
       (TypeData.totalDeductions typeData +
        (Payroll.tax p + Payroll.providentFund p + Payroll.insurance p +
         Payroll.loan p + Payroll.other p))%float;
     TypeData.totalGrossSalary :=
       (TypeData.totalGrossSalary typeData + Payroll.grossSalary p)%float;
     TypeData.totalNetSalary :=
       (TypeData.totalNetSalary typeData + Payroll.netSalary p)%float |}.

(** The callback of [payrolls.forEach] in [getSalaryReportByType]. *)
Definition byType (typeMap : JsMap.t EmployeeType TypeData.t)
    (row : PayrollWithEmployee) : string + JsMap.t EmployeeType TypeData.t :=
  match employee row with
  | None => inl (null_employee "employeeType")
  | Some emp =>
      let type := Employee.employeeType emp in
      let typeMap :=
        if negb (JsMap.has EmployeeType_eqb typeMap type)
        then JsMap.set EmployeeType_eqb typeMap type (newTypeData type)
        else typeMap in
      match JsMap.get EmployeeType_eqb typeMap type with
      | None => inl (undefined_entry "count")
      | Some typeData =>
          inr (JsMap.set EmployeeType_eqb typeMap type
                 (addToTypeData typeData (payroll row)))
      end
  end.

Definition getSalaryReportByType (db : Db) (month year : QueryInt)
    : Response (Report.t TypeData.t) :=
  match month, year with
  | Some m, Some y =>
      match findMany_with_employee db (period_where m y) with
      | inl err => server_error "Failed to generate salary report" err
      | inr payrolls =>
          match forEach byType payrolls [] with
          | inr typeMap =>
              ok 200 None {| Report.period := (m, y);
                             Report.report := JsMap.values typeMap |}
          | inl err => server_error "Failed to generate salary report" err
          end
      end
  | _, _ => failure 400 "Month and year are required"
  end.

(** The object a new key of [desigMap] is set to. *)
Definition newDesigData (designation : string) : DesigData.t :=
  {| DesigData.designation := designation;
     DesigData.count := 0;
     DesigData.totalBasicSalary := 0%float;
     DesigData.totalGrossSalary := 0%float;
     DesigData.totalNetSalary := 0%float;
     DesigData.averageSalary := 0%float |}.

(** [desigData.count++] and the three [+=] of the callback. *)
Definition addToDesigData (desigData : DesigData.t) (p : Payroll.t) : DesigData.t :=
  {| DesigData.designation := DesigData.designation desigData;
     DesigData.count := DesigData.count desigData + 1;
     DesigData.totalBasicSalary :=
       (DesigData.totalBasicSalary desigData + Payroll.basicSalary p)%float;
     DesigData.totalGrossSalary :=
       (DesigData.totalGrossSalary desigData + Payroll.grossSalary p)%float;
     DesigData.totalNetSalary :=
       (DesigData.totalNetSalary desigData + Payroll.netSalary p)%float;
     DesigData.averageSalary := DesigData.averageSalary desigData |}.

(** The callback of [payrolls.forEach] in [getDesignationReport]. *)
Definition byDesignation (desigMap : JsMap.t string DesigData.t)
    (row : PayrollWithEmployee) : string + JsMap.t string DesigData.t :=
  match employee row with
  | None => inl (null_employee "designation")
  | Some emp =>
      let designation := Employee.designation emp in
      let desigMap :=
        if negb (JsMap.has String.eqb desigMap designation)
        then JsMap.set String.eqb desigMap designation (newDesigData designation)
        else desigMap in
      match JsMap.get String.eqb desigMap designation with
      | None => inl (undefined_entry "count")
      | Some desigData =>
          inr (JsMap.set String.eqb desigMap designation
                 (addToDesigData desigData (payroll row)))
      end
  end.

(** [item => ({ ...item, averageSalary: item.totalNetSalary / item.count })]. *)
Definition withAverage (item : DesigData.t) : DesigData.t :=
  {| DesigData.designation := DesigData.designation item;
     DesigData.count := DesigData.count item;
     DesigData.totalBasicSalary := DesigData.totalBasicSalary item;
     DesigData.totalGrossSalary := DesigData.totalGrossSalary item;
     DesigData.totalNetSalary := DesigData.totalNetSalary item;
     DesigData.averageSalary :=
       (DesigData.totalNetSalary item / number_of_count (DesigData.count item))%float |}.

Definition getDesignationReport (db : Db) (month year : QueryInt)
    : Response (Report.t DesigData.t) :=
  match month, year with
  | Some m, Some y =>
      match findMany_with_employee db (period_where m y) with
      | inl err => server_error "Failed to generate designation report" err
      | inr payrolls =>
          match forEach byDesignation payrolls [] with
          | inr desigMap =>
              let report := map withAverage (JsMap.values desigMap) in
              ok 200 None {| Report.period := (m, y); Report.report := report |}
          | inl err => server_error "Failed to generate designation report" err
          end
      end
  | _, _ => failure 400 "Month and year are required"
  end.

End ReportController.

(** ** reports.controller.ts *)

Module ReportsController.

Module MonthEntry.
Record t := mk {
  month : Z;
  totalEmployees : Z;
  totalBasic : float;
  totalGross : float;
  totalNet : float
}.
End MonthEntry.

(** One turn of the loop of [getMonthlySummary]: the object pushed for
    [month], unless the query throws. *)
Definition month_entry (db : Db) (year month : Z) : string + MonthEntry.t :=
  match Prisma.payroll_findMany db
          {| Prisma.pw_id_in := None;
             Prisma.pw_month := Some month;
             Prisma.pw_year := Some year;
             Prisma.pw_status := None |} with
  | inl err => inl err
  | inr payrolls =>
      inr {| MonthEntry.month := month;
             MonthEntry.totalEmployees := Z.of_nat (List.length payrolls);
             MonthEntry.totalBasic :=
               fold_left (fun sum p => (sum + Payroll.basicSalary p)%float) payrolls 0%float;
             MonthEntry.totalGross :=
               fold_left (fun sum p => (sum + Payroll.grossSalary p)%float) payrolls 0%float;
             MonthEntry.totalNet :=
               fold_left (fun sum p => (sum + Payroll.netSalary p)%float) payrolls 0%float |}
  end.

(** [for (let month = 1; month <= 12; month++) { ... monthlyData.push(...) }],
    entered at [month] with the array built so far; [inl] when a query
    throws. *)
Function monthLoop (db : Db) (year : Z) (month : Z) (monthlyData : list MonthEntry.t)
    {measure (fun m => Z.to_nat (13 - m)) month} : string + list MonthEntry.t :=
  if month <=? 12
  then match month_entry db year month with
       | inl err => inl err
       | inr entry => monthLoop db year (month + 1) (monthlyData ++ [entry])
       end
  else inr monthlyData.
Proof.
  intros _ _ month _ Hle _ _. apply Z.leb_le in Hle. lia.
Defined.

Definition getMonthlySummary (db : Db) (year : QueryInt)
    : Response (list MonthEntry.t) :=
  match year with
  | None => failure 400 "Year is required"
  | Some y =>
      match monthLoop db y 1 [] with
      | inl err => server_error "Failed to fetch monthly summary" err
      | inr monthlyData => ok 200 None monthlyData
      end
  end.

End ReportsController.

(** ** More of the persistence collaborator *)

Module PrismaMore.

Definition record_to_delete_not_found : string :=
  "Record to delete does not exist."%string.

(** [delete({ where: { id } })]: throws when no row has the id, otherwise
    removes the row and returns it. *)
Definition payroll_delete (db : Db) (id : string) : string + (Db * Payroll.t) :=
  match find (fun p => String.eqb (Payroll.id p) id) (payrolls db) with
  | None => inl record_to_delete_not_found
  | Some p =>
      inr ({| employees := employees db;
              payrolls := filter (fun q => negb (String.eqb (Payroll.id q) id))
                                 (payrolls db) |}, p)
  end.

(** [count({ where })] and [aggregate({ where, _sum })] are given the
    rows of their filter.  The dashboard passes them the month and year of
    the clock; for the summary endpoint, whose month and year come from
    the query string, the statements take them within the INTEGER
    range. *)
Definition payroll_count (db : Db) (w : Prisma.PayrollWhere) : Z :=
  Z.of_nat (List.length (Prisma.payroll_rows db w)).

(** One column of [aggregate({ where, _sum })]: null over no row,
    otherwise the values added up one row after the other. *)
Definition aggregate_sum (column : Payroll.t -> float) (rows : list Payroll.t)
    : option float :=
  match rows with
  | [] => None
  | p :: rest => Some (fold_left (fun sum q => (sum + column q)%float) rest (column p))
  end.

(** [v || 0] on a number or null: 0 for [null], for a zero and for NaN. *)
Definition or_zero (v : option float) : float :=
  match v with
  | Some n => if PrimFloat.eqb n 0 || PrimFloat.is_nan n then 0%float else n
  | None => 0%float
  end.

(** [orderBy]: the rows sorted so that [before p q] holds from each row to
    the ones after it; rows the criteria do not separate keep their storage
    order. *)
Fixpoint insert_by {A : Type} (before : A -> A -> bool) (x : A) (l : list A)
    : list A :=
  match l with
  | [] => [x]
  | y :: rest =>
      if before x y then x :: y :: rest else y :: insert_by before x rest
  end.

Definition order_by {A : Type} (before : A -> A -> bool) (l : list A) : list A :=
  fold_right (insert_by before) [] l.

(** [skip] and [take], both non-negative. *)
Definition skip_take {A : Type} (skip take : Z) (l : list A) : list A :=
  firstn (Z.to_nat take) (skipn (Z.to_nat skip) l).

(** [orderBy: [{ year: 'desc' }, { month: 'desc' }]]. *)
Definition latest_period_first (p q : Payroll.t) : bool :=
  (Payroll.year q <? Payroll.year p) ||
  ((Payroll.year p =? Payroll.year q) && (Payroll.month q <=? Payroll.month p)).

End PrismaMore.

(** [Math.ceil(a / b)] for a count [a] and a positive [b]. *)
Definition ceil_div (a b : Z) : Z :=
  let (q, r) := Z.div_eucl a b in
  if r =? 0 then q else q + 1.

(** ** The rest of the payroll controller *)

Module Pagination.
Record t := mk {
  total : Z;
  page : Z;
  limit : Z;
  totalPages : Z
}.
End Pagination.

(** The [data] and [pagination] keys of a listing response. *)
Module Paged.
Record t (A : Type) := mk {
  rows : list A;
  pagination : Pagination.t
}.
Arguments mk {A}.
Arguments rows {A}.
Arguments pagination {A}.
End Paged.

(** [req.query] of GET /api/payroll.  A parameter is [None] when it is
    absent or empty; [page] and [limit] are positive decimal integers and
    [status] is one of the two enum values. *)
Module ListQuery.
Record t := mk {
  month : QueryInt;
  year : QueryInt;
  status : option PayrollStatus;
  employeeId : option string;
  page : option positive;
  limit : option positive
}.
End ListQuery.

Module SummaryData.
Record t := mk {
  period : Z * Z;
  count_total : Z;
  count_paid : Z;
  count_pending : Z;
  basicSalary : float;
  totalAllowances : float;
  totalDeductions : float;
  grossSalary : float;
  netSalary : float
}.
End SummaryData.

Module PayrollControllerMore.

(** The [where] object [getAllPayrolls] builds: every parameter given adds
    one condition.  [findMany] and [count] throw on a month or year that
    does not fit, which the handler answers with 500. *)
Definition list_matches (q : ListQuery.t) (p : Payroll.t) : bool :=
  match ListQuery.month q with
  | Some m => Payroll.month p =? m
  | None => true
  end
  &&
  match ListQuery.year q with
  | Some y => Payroll.year p =? y
  | None => true
  end
  &&
  match ListQuery.status q with
  | Some s => PayrollStatus_eqb (Payroll.status p) s
  | None => true
  end
  &&
  match ListQuery.employeeId q with
  | Some e => String.eqb (Payroll.employeeId p) e
  | None => true
  end.

Section Listing.
(** The createdAt column, which the store of the model does not carry. *)
Variable createdAt : Payroll.t -> Z.

(** [orderBy: [{ year: 'desc' }, { month: 'desc' }, { createdAt: 'desc' }]]. *)
Definition listing_order (p q : Payroll.t) : bool :=
  (Payroll.year q <? Payroll.year p) ||
  ((Payroll.year p =? Payroll.year q) &&
   ((Payroll.month q <? Payroll.month p) ||
    ((Payroll.month p =? Payroll.month q) && (createdAt q <=? createdAt p)))).

Definition getAllPayrolls (db : Db) (q : ListQuery.t)
    : Response (Paged.t PayrollWithEmployee) :=
  let page := match ListQuery.page q with Some n => Z.pos n | None => 1 end in
  let limit := match ListQuery.limit q with Some n => Z.pos n | None => 10 end in
  let skip := (page - 1) * limit in
  let take := limit in
  match Prisma.period_error (ListQuery.month q) (ListQuery.year q) with
  | Some err => server_error "Failed to fetch payroll records" err
  | None =>
      let matching := filter (list_matches q) (payrolls db) in
      let found :=
        map (Prisma.include_employee db)
            (PrismaMore.skip_take skip take
               (PrismaMore.order_by listing_order matching)) in
      let total := Z.of_nat (List.length matching) in
      ok 200 None
        {| Paged.rows := found;
           Paged.pagination :=
             {| Pagination.total := total;
                Pagination.page := page;
                Pagination.limit := limit;
                Pagination.totalPages := ceil_div total limit |} |}
  end.
End Listing.

Definition getPayrollById (db : Db) (id : string) : Response PayrollWithEmployee :=
  match Prisma.payroll_findUnique db id with
  | None => failure 404 "Payroll record not found"
  | Some payroll => ok 200 None (Prisma.include_employee db payroll)
  end.

Definition deletePayroll (db : Db) (id : string) : Db * Response unit :=
  match Prisma.payroll_findUnique db id with
  | None => (db, failure 404 "Payroll record not found")
  | Some _ =>
      match PrismaMore.payroll_delete db id with
      | inr (db', _) =>
          (db', mkResponse 200 true
                  (Some "Payroll record deleted successfully"%string) None None)
      | inl err => (db, server_error "Failed to delete payroll record" err)
      end
  end.

Definition getPayrollSummary (db : Db) (month year : QueryInt)
    : Response SummaryData.t :=
  match month, year with
  | Some m, Some y =>
      let where_ := {| Prisma.pw_id_in := None; Prisma.pw_month := Some m;
                       Prisma.pw_year := Some y; Prisma.pw_status := None |} in
      let with_status s :=
        {| Prisma.pw_id_in := None; Prisma.pw_month := Some m;
           Prisma.pw_year := Some y; Prisma.pw_status := Some s |} in
      let total := PrismaMore.payroll_count db where_ in
      let paid := PrismaMore.payroll_count db (with_status PAID) in
      let pending := PrismaMore.payroll_count db (with_status PENDING) in
      let rows := Prisma.payroll_rows db where_ in
      let sum column := PrismaMore.or_zero (PrismaMore.aggregate_sum column rows) in
      ok 200 None
        {| SummaryData.period := (m, y);
           SummaryData.count_total := total;
           SummaryData.count_paid := paid;
           SummaryData.count_pending := pending;
           SummaryData.basicSalary := sum Payroll.basicSalary;
           SummaryData.totalAllowances :=
             (sum Payroll.houseRent + sum Payroll.medical + sum Payroll.transport +
              sum Payroll.education + sum Payroll.special)%float;
           SummaryData.totalDeductions :=
             (sum Payroll.tax + sum Payroll.providentFund + sum Payroll.insurance +
              sum Payroll.loan + sum Payroll.other)%float;
           SummaryData.grossSalary := sum Payroll.grossSalary;
           SummaryData.netSalary := sum Payroll.netSalary |}
  | _, _ => failure 400 "Month and year are required"
  end.

End PayrollControllerMore.

(** ** The employee controller: deletion and statistics *)

Module EmployeeStats.
Record t := mk {
  total : Z;
  teachers : Z;
  officers : Z;
  staff : Z;
  active : Z;
  inactive : Z
}.
End EmployeeStats.

Module EmployeeController.

Definition employee_to_delete_not_found : string :=
  "Record to delete does not exist."%string.

(** [prisma.employee.delete({ where: { id } })]: throws when no row has the
    id; otherwise the row goes and, by ON DELETE CASCADE of
    Payroll_employeeId_fkey in the migration, so does every payroll row
    that refers to it. *)
Definition employee_delete (db : Db) (id : string) : string + Db :=
  match Prisma.employee_findUnique db id with
  | None => inl employee_to_delete_not_found
  | Some _ =>
      inr {| employees := filter (fun e => negb (String.eqb (Employee.id e) id))
                                 (employees db);
             payrolls := filter (fun p => negb (String.eqb (Payroll.employeeId p) id))
                                (payrolls db) |}
  end.

Definition deleteEmployee (db : Db) (id : string) : Db * Response unit :=
  match Prisma.employee_findUnique db id with
  | None => (db, failure 404 "Employee not found")
  | Some _ =>
      match employee_delete db id with
      | inr db' =>
          (db', mkResponse 200 true
                  (Some "Employee deleted successfully"%string) None None)
      | inl err => (db, server_error "Failed to delete employee" err)
      end
  end.

(** [prisma.employee.count({ where })] for one condition. *)
Definition employee_count (db : Db) (cond : Employee.t -> bool) : Z :=
  Z.of_nat (List.length (filter cond (employees db))).

Definition getEmployeeStats (db : Db) : Response EmployeeStats.t :=
  ok 200 None
    {| EmployeeStats.total := employee_count db (fun _ => true);
       EmployeeStats.teachers :=
         employee_count db (fun e => EmployeeType_eqb (Employee.employeeType e) TEACHER);
       EmployeeStats.officers :=
         employee_count db (fun e => EmployeeType_eqb (Employee.employeeType e) OFFICER);
       EmployeeStats.staff :=
         employee_count db (fun e => EmployeeType_eqb (Employee.employeeType e) STAFF);
       EmployeeStats.active :=
         employee_count db (fun e => EmployeeStatus_eqb (Employee.status e) ACTIVE);
       EmployeeStats.inactive :=
         employee_count db (fun e => EmployeeStatus_eqb (Employee.status e) INACTIVE) |}.

End EmployeeController.

(** ** The rest of report.controller.ts *)

Module YearMonth.
Record t := mk {
  month : Z;
  monthName : string;
  employeeCount : Z;
  totalBasicSalary : float;
  totalGrossSalary : float;
  totalNetSalary : float
}.
End YearMonth.

Module YearTotal.
Record t := mk {
  totalBasicSalary : float;
  totalGrossSalary : float;
  totalNetSalary : float
}.
End YearTotal.

Module YearReport.
Record t := mk {
  year : Z;
  monthlyData : list YearMonth.t;
  yearlyTotal : YearTotal.t
}.
End YearReport.

Module SalaryHistory.
Record t := mk {
  employee : Employee.t;
  salaryHistory : list Payroll.t
}.
End SalaryHistory.

Module UniversityTotal.
Record t := mk {
  totalEmployees : Z;
  totalBasic : float;
  totalGross : float;
  totalNet : float;
  totalAllowances : float;
  totalDeductions : float
}.
End UniversityTotal.

(** The employee of a salary slip of report.controller.ts: the four
    fields its [select] names. *)
Module EmployeeSelect.
Record t := mk {
  id : string;
  name : string;
  designation : string;
  employeeType : EmployeeType
}.

Definition of_row (e : Employee.t) : t :=
  {| id := Employee.id e;
     name := Employee.name e;
     designation := Employee.designation e;
     employeeType := Employee.employeeType e |}.
End EmployeeSelect.

Module SalarySlip.
Record t := mk {
  payroll : Payroll.t;
  employee : option EmployeeSelect.t
}.
End SalarySlip.

Module DesignationWise.
Record t := mk {
  designation : string;
  count : Z;
  totalSalary : float
}.
End DesignationWise.

Module ReportControllerMore.

Section YearlyComparison.
(** [new Date(yearNum, month - 1, 1).toLocaleString('default', { month:
    'long' })]: the month name in the locale of the server. *)
Variable monthName : Z -> Z -> string.




End YearlyComparison.

(** [limit] is a positive decimal integer, 12 when absent. *)
Definition getEmployeeSalaryHistory (db : Db) (employeeId : string)
    (limit : option positive) : Response SalaryHistory.t :=
  match Prisma.employee_findUnique db employeeId with
  | None => failure 404 "Employee not found"
  | Some employee =>
      let take := match limit with Some n => Z.pos n | None => 12 end in
      let salaryHistory :=
        PrismaMore.skip_take 0 take
          (PrismaMore.order_by PrismaMore.latest_period_first
             (filter (fun p => String.eqb (Payroll.employeeId p) employeeId)
                     (payrolls db))) in
      ok 200 None
        {| SalaryHistory.employee := employee;
           SalaryHistory.salaryHistory := salaryHistory |}
  end.

(** [findFirst({ where: { employeeId, month, year }, include: { employee:
    { select: { id, name, designation, employeeType } } } })]: the slip
    carries the four selected fields of the employee. *)
Definition getSalarySlip (db : Db) (employeeId : option string) (month year : QueryInt)
    : Response SalarySlip.t :=
  match employeeId, month, year with
  | Some eid, Some m, Some y =>
      match Prisma.payroll_findFirst_employeeId_month_year db eid m y with
      | inl err => server_error "Failed to fetch salary slip" err
      | inr None => failure 404 "Salary slip not found for the given period"
      | inr (Some payroll) =>
          ok 200 None
            {| SalarySlip.payroll := payroll;
               SalarySlip.employee :=
                 option_map EmployeeSelect.of_row
                   (Prisma.employee_findUnique db (Payroll.employeeId payroll)) |}
      end
  | _, _, _ => failure 400 "Employee ID, month, and year are required"
  end.

Definition getUniversityTotal (db : Db) (month year : QueryInt)
    : Response UniversityTotal.t :=
  match month, year with
  | Some m, Some y =>
      match Prisma.payroll_findMany db (ReportController.period_where m y) with
      | inl err => server_error "Failed to fetch university total" err
      | inr payrolls =>
          ok 200 None
            {| UniversityTotal.totalEmployees := Z.of_nat (List.length payrolls);
               UniversityTotal.totalBasic :=
                 fold_left (fun sum p => (sum + Payroll.basicSalary p)%float) payrolls 0%float;
               UniversityTotal.totalGross :=
                 fold_left (fun sum p => (sum + Payroll.grossSalary p)%float) payrolls 0%float;
               UniversityTotal.totalNet :=
                 fold_left (fun sum p => (sum + Payroll.netSalary p)%float) payrolls 0%float;
               UniversityTotal.totalAllowances :=
                 fold_left (fun sum p => (sum + Payroll.houseRent p + Payroll.medical p +
                                          Payroll.transport p + Payroll.education p +
                                          Payroll.special p)%float) payrolls 0%float;
               UniversityTotal.totalDeductions :=
                 fold_left (fun sum p => (sum + Payroll.tax p + Payroll.providentFund p +
                                          Payroll.insurance p + Payroll.loan p +
                                          Payroll.other p)%float) payrolls 0%float |}
      end
  | _, _ => failure 400 "Month and year are required"
  end.

(** [include: { payrolls: { orderBy: [{ year: 'desc' }, { month: 'desc' }],
    take: 1 } }] for one employee, then [employee.payrolls[0]]. *)
Definition latestPayroll (db : Db) (employee : Employee.t) : option Payroll.t :=
  hd_error
    (PrismaMore.skip_take 0 1
       (PrismaMore.order_by PrismaMore.latest_period_first
          (filter (fun p => String.eqb (Payroll.employeeId p) (Employee.id employee))
                  (payrolls db)))).

(** The callback of [employees.forEach] in [getDesignationWiseReport]. *)
Definition byDesignationWise (db : Db) (designationMap : JsMap.t string DesignationWise.t)
    (employee : Employee.t) : string + JsMap.t string DesignationWise.t :=
  let designation := Employee.designation employee in
  let designationMap :=
    if negb (JsMap.has String.eqb designationMap designation)
    then JsMap.set String.eqb designationMap designation
           {| DesignationWise.designation := designation;
              DesignationWise.count := 0;
              DesignationWise.totalSalary := 0%float |}
    else designationMap in
  match JsMap.get String.eqb designationMap designation with
  | None => inl (undefined_entry "count")
  | Some designationData =>
      inr (JsMap.set String.eqb designationMap designation
             {| DesignationWise.designation := DesignationWise.designation designationData;
                DesignationWise.count := DesignationWise.count designationData + 1;
                DesignationWise.totalSalary :=
                  match latestPayroll db employee with
                  | Some payroll =>
                      (DesignationWise.totalSalary designationData +
                       Payroll.netSalary payroll)%float
                  | None => DesignationWise.totalSalary designationData
                  end |})
  end.

Definition getDesignationWiseReport (db : Db) : Response (list DesignationWise.t) :=
  match forEach (byDesignationWise db) (employees db) [] with
  | inr designationMap => ok 200 None (JsMap.values designationMap)
  | inl err => server_error "Failed to fetch designation report" err
  end.

End ReportControllerMore.

(** ** The rest of reports.controller.ts *)

Module UniversityStats.
Record t := mk {
  totalEmployees : Z;
  totalBasic : float;
  totalGross : float;
  totalNet : float;
  totalAllowances : float;
  totalDeductions : float;
  month : Z;
  year : Z
}.
End UniversityStats.

Module TypeGroup.
Record t := mk {
  employeeType : EmployeeType;
  count : Z;
  totalSalary : float
}.
End TypeGroup.

Module DesignationGroup.
Record t := mk {
  designation : string;
  count : Z;
  totalSalary : float
}.
End DesignationGroup.

Module ReportsControllerMore.

(** [findFirst({ where: { employeeId, month, year }, include: { employee:
    { include: { teacher, officer, staff } } } })]: the slip carries the
    whole employee row. *)
Definition getSalarySlip (db : Db) (employeeId : option string) (month year : QueryInt)
    : Response PayrollWithEmployee :=
  match employeeId, month, year with
  | Some eid, Some m, Some y =>
      match Prisma.payroll_findFirst_employeeId_month_year db eid m y with
      | inl err => server_error "Failed to fetch salary slip" err
      | inr None => failure 404 "No salary record found for the specified criteria"
      | inr (Some payroll) => ok 200 None (Prisma.include_employee db payroll)
      end
  | _, _, _ => failure 400 "Employee ID, month, and year are required"
  end.

Definition getUniversityTotal (db : Db) (month year : QueryInt)
    : Response UniversityStats.t :=
  match month, year with
  | Some m, Some y =>
      match Prisma.payroll_findMany db (ReportController.period_where m y) with
      | inl err => server_error "Failed to fetch university total" err
      | inr payrolls =>
          ok 200 None
            {| UniversityStats.totalEmployees := Z.of_nat (List.length payrolls);
               UniversityStats.totalBasic :=
                 fold_left (fun sum p => (sum + Payroll.basicSalary p)%float) payrolls 0%float;
               UniversityStats.totalGross :=
                 fold_left (fun sum p => (sum + Payroll.grossSalary p)%float) payrolls 0%float;
               UniversityStats.totalNet :=
                 fold_left (fun sum p => (sum + Payroll.netSalary p)%float) payrolls 0%float;
               UniversityStats.totalAllowances :=
                 fold_left (fun sum p => (sum + Payroll.houseRent p + Payroll.medical p +
                                          Payroll.transport p + Payroll.education p +
                                          Payroll.special p)%float) payrolls 0%float;
               UniversityStats.totalDeductions :=
                 fold_left (fun sum p => (sum + Payroll.tax p + Payroll.providentFund p +
                                          Payroll.insurance p + Payroll.loan p +
                                          Payroll.other p)%float) payrolls 0%float;
               UniversityStats.month := m;
               UniversityStats.year := y |}
      end
  | _, _ => failure 400 "Month and year are required"
  end.

(** The net salary the employee reports compute from the current fields
    of an employee, added and subtracted from left to right. *)
Definition currentNetSalary (employee : Employee.t) : float :=
  (Employee.basicSalary employee +
   Employee.houseRent employee +
   Employee.medical employee +
   Employee.transport employee +
   Employee.education employee +
   Employee.special employee -
   Employee.tax employee -
   Employee.providentFund employee -
   Employee.insurance employee -
   Employee.loan employee -
   Employee.other employee)%float.

(** The callback of [employees.forEach] in [getEmployeeTypeReport]; the
    value object of the map has no key of its own, the key is added when
    the entries are turned into the report. *)
Definition byEmployeeType (typeMap : JsMap.t EmployeeType (Z * float))
    (employee : Employee.t) : string + JsMap.t EmployeeType (Z * float) :=
  let type := Employee.employeeType employee in
  let netSalary := currentNetSalary employee in
  if JsMap.has EmployeeType_eqb typeMap type
  then
    match JsMap.get EmployeeType_eqb typeMap type with
    | None => inl (undefined_entry "count")
    | Some current =>
        inr (JsMap.set EmployeeType_eqb typeMap type
               (fst current + 1, (snd current + netSalary)%float))
    end
  else inr (JsMap.set EmployeeType_eqb typeMap type (1, netSalary)).

Definition getEmployeeTypeReport (db : Db) : Response (list TypeGroup.t) :=
  match forEach byEmployeeType (employees db) [] with
  | inr typeMap =>
      ok 200 None
        (map (fun entry =>
                {| TypeGroup.employeeType := fst entry;
                   TypeGroup.count := fst (snd entry);
                   TypeGroup.totalSalary := snd (snd entry) |})
             typeMap)
  | inl err => server_error "Failed to fetch employee type report" err
  end.

(** The callback of [employees.forEach] in [getDesignationReport]. *)
Definition byEmployeeDesignation (desigMap : JsMap.t string (Z * float))
    (employee : Employee.t) : string + JsMap.t string (Z * float) :=
  let designation := Employee.designation employee in
  let netSalary := currentNetSalary employee in
  if JsMap.has String.eqb desigMap designation
  then
    match JsMap.get String.eqb desigMap designation with
    | None => inl (undefined_entry "count")
    | Some current =>
        inr (JsMap.set String.eqb desigMap designation
               (fst current + 1, (snd current + netSalary)%float))
    end
  else inr (JsMap.set String.eqb desigMap designation (1, netSalary)).

Definition getDesignationReport (db : Db) : Response (list DesignationGroup.t) :=
  match forEach byEmployeeDesignation (employees db) [] with
  | inr desigMap =>
      ok 200 None
        (map (fun entry =>
                {| DesignationGroup.designation := fst entry;
                   DesignationGroup.count := fst (snd entry);
                   DesignationGroup.totalSalary := snd (snd entry) |})
             desigMap)
  | inl err => server_error "Failed to fetch designation report" err
  end.

End ReportsControllerMore.

(** ** PayrollService.getPayrollSummary *)

Module TypeTotal.
Record t := mk {
  count : Z;
  total : float
}.
End TypeTotal.

Module ServiceSummary.
Record t := mk {
  totalEmployees : Z;
  totalBasicSalary : float;
  totalAllowances : float;
  totalDeductions : float;
  totalGrossSalary : float;
  totalNetSalary : float;
  teachers : TypeTotal.t;
  officers : TypeTotal.t;
  staff : TypeTotal.t
}.
End ServiceSummary.

Module PayrollServiceMore.

(** [payroll.allowances], [payroll.deductions] and [payroll.employeeType]
    on a row fetched by [this.model.findMany]: the object has the columns
    of the Payroll table, and these three are none of them, so each read
    gives [undefined], here [None]. *)
Definition allowances (payroll : Payroll.t) : option PayrollService.JsonObject := None.
Definition deductions (payroll : Payroll.t) : option PayrollService.JsonObject := None.
Definition employeeType (payroll : Payroll.t) : option EmployeeType := None.

Definition bump (t : TypeTotal.t) (netSalary : float) : TypeTotal.t :=
  {| TypeTotal.count := TypeTotal.count t + 1;
     TypeTotal.total := (TypeTotal.total t + netSalary)%float |}.

(** The callback of [payrolls.forEach] in [getPayrollSummary];
    [Object.values] and [employeeType.toLowerCase()] throw a TypeError on
    [undefined], and [toLowerCase()] of a type is 'teacher', 'officer' or
    'staff'.  The three [+=] that come before [Object.values] change a
    summary that is lost when the callback throws, so the error is returned
    for it. *)
Definition addToSummary (summary : ServiceSummary.t) (payroll : Payroll.t)
    : string + ServiceSummary.t :=
  let net := Payroll.netSalary payroll in
  match PayrollService.sum_values (allowances payroll) with
  | inl err => inl err
  | inr totalAllowances =>
      match PayrollService.sum_values (deductions payroll) with
      | inl err => inl err
      | inr totalDeductions =>
          match employeeType payroll with
          | None => inl (undefined_entry "toLowerCase")
          | Some type =>
              inr {| ServiceSummary.totalEmployees := ServiceSummary.totalEmployees summary;
                     ServiceSummary.totalBasicSalary :=
                       (ServiceSummary.totalBasicSalary summary +
                        Payroll.basicSalary payroll)%float;
                     ServiceSummary.totalAllowances :=
                       (ServiceSummary.totalAllowances summary + totalAllowances)%float;
                     ServiceSummary.totalDeductions :=
                       (ServiceSummary.totalDeductions summary + totalDeductions)%float;
                     ServiceSummary.totalGrossSalary :=
                       (ServiceSummary.totalGrossSalary summary +
                        Payroll.grossSalary payroll)%float;
                     ServiceSummary.totalNetSalary :=
                       (ServiceSummary.totalNetSalary summary + net)%float;
                     ServiceSummary.teachers :=
                       match type with
                       | TEACHER => bump (ServiceSummary.teachers summary) net
                       | _ => ServiceSummary.teachers summary
                       end;
                     ServiceSummary.officers :=
                       match type with
                       | OFFICER => bump (ServiceSummary.officers summary) net
                       | _ => ServiceSummary.officers summary
                       end;
                     ServiceSummary.staff :=
                       match type with
                       | STAFF => bump (ServiceSummary.staff summary) net
                       | _ => ServiceSummary.staff summary
                       end |}
          end
      end
  end.

(** The summary object before the loop. *)
Definition emptySummary (totalEmployees : Z) : ServiceSummary.t :=
  {| ServiceSummary.totalEmployees := totalEmployees;
     ServiceSummary.totalBasicSalary := 0%float;
     ServiceSummary.totalAllowances := 0%float;
     ServiceSummary.totalDeductions := 0%float;
     ServiceSummary.totalGrossSalary := 0%float;
     ServiceSummary.totalNetSalary := 0%float;
     ServiceSummary.teachers := {| TypeTotal.count := 0; TypeTotal.total := 0%float |};
     ServiceSummary.officers := {| TypeTotal.count := 0; TypeTotal.total := 0%float |};
     ServiceSummary.staff := {| TypeTotal.count := 0; TypeTotal.total := 0%float |} |}.

(** [getPayrollSummary(month, year)]: [inl] is the message of the error
    thrown. *)
Definition getPayrollSummary (db : Db) (month year : Z)
    : string + ServiceSummary.t :=
  match Prisma.payroll_findMany db (ReportController.period_where month year) with
  | inl err => inl err
  | inr payrolls =>
      forEach addToSummary payrolls (emptySummary (Z.of_nat (List.length payrolls)))
  end.

End PayrollServiceMore.

(** ** The settings routes *)

Module Setting.
Record t := mk {
  key : string;
  value : string
}.
End Setting.

Module SettingsRoutes.

(** The rows of the Settings table in storage order; the index
    Settings_key_key keeps the keys distinct. *)
Definition Table := list Setting.t.

Definition findUnique (table : Table) (key : string) : option Setting.t :=
  find (fun s => String.eqb (Setting.key s) key) table.

(** [upsert({ where: { key }, update: { value }, create: { key, value } })]. *)
Definition upsert (table : Table) (key value : string) : Table * Setting.t :=
  match findUnique table key with
  | Some found =>
      let updated := {| Setting.key := Setting.key found; Setting.value := value |} in
      (map (fun s => if String.eqb (Setting.key s) key
                     then {| Setting.key := Setting.key s; Setting.value := value |}
                     else s) table,
       updated)
  | None =>
      let created := {| Setting.key := key; Setting.value := value |} in
      (table ++ [created], created)
  end.

(** [settingsObj[key] = value] on a plain object.  The assignment creates
    or overwrites the own property [key], except for the key '__proto__':
    that one reaches the setter the object inherits, which ignores a
    string, and leaves the object as it is. *)
Definition assign (settingsObj : JsMap.t string string) (key value : string)
    : JsMap.t string string :=
  if String.eqb key "__proto__"
  then settingsObj
  else JsMap.set String.eqb settingsObj key value.

(** [GET /]: [settingsObj[setting.key] = setting.value] for every row.
    The object is read by property name: the order in which its
    properties are listed is not modelled. *)
Definition getAll (table : Table) : Response (JsMap.t string string) :=
  ok 200 None
    (fold_left (fun settingsObj setting =>
                  assign settingsObj (Setting.key setting) (Setting.value setting))
               table []).

(** [GET /:key]. *)
Definition getByKey (table : Table) (key : string) : Response Setting.t :=
  match findUnique table key with
  | None => failure 404 "Setting not found"
  | Some setting => ok 200 None setting
  end.

(** [PUT /:key]; [value] is the string of the body, [None] when the body
    has none. *)
Definition put (table : Table) (key : string) (value : option string)
    : Table * Response Setting.t :=
  match value with
  | None => (table, failure 400 "Value is required")
  | Some v =>
      if String.eqb v EmptyString
      then (table, failure 400 "Value is required")
      else
        let (table', setting) := upsert table key v in
        (table', ok 200 (Some "Setting updated successfully"%string) setting)
  end.

End SettingsRoutes.

(** ** The employee controller: updates *)

(** The body of an update that carries none of age, phone, email, avatar
    and the type-specific fields, with JSON numbers for the amounts: [None]
    is an absent property. *)
Module UpdateBody.
Record t := mk {
  name : option string;
  designation : option string;
  basicSalary : option float;
  status : option EmployeeStatus;
  houseRent : option float;
  medical : option float;
  transport : option float;
  education : option float;
  special : option float;
  tax : option float;
  providentFund : option float;
  insurance : option float;
  loan : option float;
  other : option float
}.
End UpdateBody.

Module EmployeeControllerMore.

(** [...(s && { s })]: a string of the body replaces the column unless it
    is absent or empty. *)
Definition if_truthy_string (v : option string) (old : string) : string :=
  match v with
  | Some s => if String.eqb s EmptyString then old else s
  | None => old
  end.

(** [...(n && { n: parseFloat(n) })]: a number of the body replaces the
    column unless it is absent, a zero or NaN; [parseFloat] gives a number
    back as it is. *)
Definition if_truthy_number (v : option float) (old : float) : float :=
  match v with
  | Some n => if PrimFloat.eqb n 0 || PrimFloat.is_nan n then old else n
  | None => old
  end.

(** [...(v !== undefined && { v })]. *)
Definition if_defined (v : option float) (old : float) : float :=
  match v with
  | Some n => n
  | None => old
  end.

(** The row after [prisma.employee.update({ where: { id }, data })]. *)
Definition updated (e : Employee.t) (b : UpdateBody.t) : Employee.t :=
  {| Employee.id := Employee.id e;
     Employee.name := if_truthy_string (UpdateBody.name b) (Employee.name e);
     Employee.designation :=
       if_truthy_string (UpdateBody.designation b) (Employee.designation e);
     Employee.employeeType := Employee.employeeType e;
     Employee.basicSalary :=
       if_truthy_number (UpdateBody.basicSalary b) (Employee.basicSalary e);
     Employee.status :=
       match UpdateBody.status b with
       | Some s => s
       | None => Employee.status e
       end;
     Employee.houseRent := if_defined (UpdateBody.houseRent b) (Employee.houseRent e);
     Employee.medical := if_defined (UpdateBody.medical b) (Employee.medical e);
     Employee.transport := if_defined (UpdateBody.transport b) (Employee.transport e);
     Employee.education := if_defined (UpdateBody.education b) (Employee.education e);
     Employee.special := if_defined (UpdateBody.special b) (Employee.special e);
     Employee.tax := if_defined (UpdateBody.tax b) (Employee.tax e);
     Employee.providentFund :=
       if_defined (UpdateBody.providentFund b) (Employee.providentFund e);
     Employee.insurance := if_defined (UpdateBody.insurance b) (Employee.insurance e);
     Employee.loan := if_defined (UpdateBody.loan b) (Employee.loan e);
     Employee.other := if_defined (UpdateBody.other b) (Employee.other e) |}.

Definition employee_update (db : Db) (id : string) (b : UpdateBody.t) : Db :=
  {| employees := map (fun e => if String.eqb (Employee.id e) id then updated e b else e)
                      (employees db);
     payrolls := payrolls db |}.

(** [updateEmployee]: the data of the answer is the row read back after
    the update. *)
Definition updateEmployee (db : Db) (id : string) (b : UpdateBody.t)
    : Db * Response Employee.t :=
  match Prisma.employee_findUnique db id with
  | None => (db, failure 404 "Employee not found")
  | Some existingEmployee =>
      let db' := employee_update db id b in
      (db', mkResponse 200 true (Some "Employee updated successfully"%string)
              (Prisma.employee_findUnique db' id) None)
  end.

End EmployeeControllerMore.

(** ** dashboard.controller.ts *)

Module Dashboard.
Record t := mk {
  employees_total : Z;
  employees_active : Z;
  employees_inactive : Z;
  teachers : Z;
  officers : Z;
  staff : Z;
  month : Z;
  year : Z;
  payroll_total : Z;
  payroll_paid : Z;
  payroll_pending : Z;
  totalGrossSalary : float;
  totalNetSalary : float
}.
End Dashboard.

Module Trend.
Record t := mk {
  month : Z;
  year : Z;
  monthName : string;
  totalGross : float;
  totalNet : float;
  count : Z
}.
End Trend.

Module DashboardController.



Section SalaryTrends.
(** [date.toLocaleString('default', { month: 'short' })] for a year and a
    month index. *)
Variable shortName : Z -> Z -> string.



End SalaryTrends.



End DashboardController.

(** * Vocabulary of the statements *)

Definition Zsum (l : list Z) : Z := fold_right Z.add 0 l.

(** The numbers of a list added up one after the other from 0, every sum
    rounded: what [reduce((sum, v) => sum + v, 0)] computes, and what a
    running total that starts at 0 holds in the end. *)
Definition running_sum (l : list float) : float :=
  fold_left (fun sum v => (sum + v)%float) l 0%float.

(** The rational number a finite binary64 value stands for. *)
Definition exact (x : float) : option Q :=
  match Prim2SF x with
  | S754_zero _ => Some 0%Q
  | S754_finite negative m e =>
      let magnitude :=
        if e <? 0 then (Zpos m # Pos.shiftl 1 (Z.to_N (- e)))%Q
        else inject_Z (Zpos m * 2 ^ e) in
      Some (if negative then Qopp magnitude else magnitude)
  | S754_infinity _ => None
  | S754_nan => None
  end.




Definition processed_of (r : Response ProcessResult.t) : list PayrollWithEmployee :=
  match data r with
  | Some d => ProcessResult.processed d
  | None => []
  end.

(** [p] copies the eleven salary fields of [e] for the period. *)
Definition is_snapshot (e : Employee.t) (month year : Z) (p : Payroll.t) : Prop :=
  Payroll.employeeId p = Employee.id e /\
  Payroll.month p = month /\
  Payroll.year p = year /\
  Payroll.basicSalary p = Employee.basicSalary e /\
  Payroll.houseRent p = Employee.houseRent e /\
  Payroll.medical p = Employee.medical e /\
  Payroll.transport p = Employee.transport e /\
  Payroll.education p = Employee.education e /\
  Payroll.special p = Employee.special e /\
  Payroll.tax p = Employee.tax e /\
  Payroll.providentFund p = Employee.providentFund e /\
  Payroll.insurance p = Employee.insurance e /\
  Payroll.loan p = Employee.loan e /\
  Payroll.other p = Employee.other e.

(** The two equations a record is created by, with the grouping of the
    code: the allowances are added up from left to right and the total is
    added to the basic salary; the deductions are added up from left to
    right and the total is subtracted from the gross salary.  Every
    operation is rounded to binary64. *)
Definition salary_equations (p : Payroll.t) : Prop :=
  Payroll.grossSalary p =
    (Payroll.basicSalary p +
     (Payroll.houseRent p + Payroll.medical p + Payroll.transport p +
      Payroll.education p + Payroll.special p))%float /\
  Payroll.netSalary p =
    (Payroll.grossSalary p -
     (Payroll.tax p + Payroll.providentFund p + Payroll.insurance p +
      Payroll.loan p + Payroll.other p))%float.


(** The row the loop of [processPayroll] inserts for [e]. *)
Definition created_row (newId : list Payroll.t -> string) (month year : Z)
    (month_fits : Int4.fits month = true) (year_fits : Int4.fits year = true)
    (db : Db) (e : Employee.t) : Payroll.t :=
  let gross :=
    (Employee.basicSalary e +
     (Employee.houseRent e + Employee.medical e + Employee.transport e +
      Employee.education e + Employee.special e))%float in
  {| Payroll.id := newId (payrolls db);
     Payroll.employeeId := Employee.id e;
     Payroll.month := month;
     Payroll.year := year;
     Payroll.basicSalary := Employee.basicSalary e;
     Payroll.houseRent := Employee.houseRent e;
     Payroll.medical := Employee.medical e;
     Payroll.transport := Employee.transport e;
     Payroll.education := Employee.education e;
     Payroll.special := Employee.special e;
     Payroll.tax := Employee.tax e;
     Payroll.providentFund := Employee.providentFund e;
     Payroll.insurance := Employee.insurance e;
     Payroll.loan := Employee.loan e;
     Payroll.other := Employee.other e;
     Payroll.grossSalary := gross;
     Payroll.netSalary :=
       (gross - (Employee.tax e + Employee.providentFund e + Employee.insurance e +
                 Employee.loan e + Employee.other e))%float;
     Payroll.status := PENDING;
     Payroll.paidAt := None;
     Payroll.month_fits := month_fits;
     Payroll.year_fits := year_fits |}.

(** The entry of [errors] for an employee. *)
Definition error_entry (msg : string) (e : Employee.t) : ProcessError.t :=
  {| ProcessError.employeeId := Employee.id e;
     ProcessError.employeeName := Employee.name e;
     ProcessError.message := msg |}.


(** The employees a request selects: ACTIVE, and listed when the request
    carries a non-empty list. *)
Definition selected_by (employeeIds : option (list string)) (e : Employee.t) : Prop :=
  Employee.status e = ACTIVE /\
  match employeeIds with
  | Some (i :: ids) => In (Employee.id e) (i :: ids)
  | _ => True
  end.

(** The loop of [processPayroll] over the selected employees. *)
Definition loop (newId : list Payroll.t -> string) (month year : Z)
    (employees : list Employee.t) (st : PayrollController.LoopState)
    : PayrollController.LoopState :=
  fold_left (PayrollController.processEmployee newId month year) employees st.

Definition initial_state (db : Db) : PayrollController.LoopState :=
  {| PayrollController.st_db := db;
     PayrollController.payrollRecords := [];
     PayrollController.errors := [] |}.

Definition processed_message (records : list PayrollWithEmployee) : string :=
  ("Payroll processed for " ++ show (Z.of_nat (List.length records)) ++ " employees")%string.

(** A record the loop creates: a PENDING, unpaid snapshot of one of the
    employees it was given. *)
Definition fresh_record (month year : Z) (l : list Employee.t)
    (r : PayrollWithEmployee) : Prop :=
  exists e, In e l /\
    is_snapshot e month year (payroll r) /\
    salary_equations (payroll r) /\
    Payroll.status (payroll r) = PENDING /\
    Payroll.paidAt (payroll r) = None.

(** [p'] is [p] marked as paid at [now]: status and paid timestamp are
    set, every other field is the one of [p]. *)
Definition paid_version (now : Z) (p p' : Payroll.t) : Prop :=
  Payroll.status p' = PAID /\
  Payroll.paidAt p' = Some now /\
  Payroll.id p' = Payroll.id p /\
  Payroll.employeeId p' = Payroll.employeeId p /\
  Payroll.month p' = Payroll.month p /\
  Payroll.year p' = Payroll.year p /\
  Payroll.basicSalary p' = Payroll.basicSalary p /\
  Payroll.houseRent p' = Payroll.houseRent p /\
  Payroll.medical p' = Payroll.medical p /\
  Payroll.transport p' = Payroll.transport p /\
  Payroll.education p' = Payroll.education p /\
  Payroll.special p' = Payroll.special p /\
  Payroll.tax p' = Payroll.tax p /\
  Payroll.providentFund p' = Payroll.providentFund p /\
  Payroll.insurance p' = Payroll.insurance p /\
  Payroll.loan p' = Payroll.loan p /\
  Payroll.other p' = Payroll.other p /\
  Payroll.grossSalary p' = Payroll.grossSalary p /\
  Payroll.netSalary p' = Payroll.netSalary p.

(** The rows a bulk mark-as-paid over [ids] is aimed at. *)
Definition targeted (ids : list string) (p : Payroll.t) : Prop :=
  In (Payroll.id p) ids /\ Payroll.status p = PENDING.

(** A row before and after an operation went from PENDING to PAID. *)
Definition transitioned (rows : Payroll.t * Payroll.t) : bool :=
  PayrollStatus_eqb (Payroll.status (fst rows)) PENDING &&
  PayrollStatus_eqb (Payroll.status (snd rows)) PAID.

Definition bulk_message (n : Z) : string :=
  (show n ++ " payroll records marked as paid")%string.

(** ** Sample data (the first teacher of the seed script) *)

Definition sarah : Employee.t :=
  {| Employee.id := "emp-1"; Employee.name := "Dr. Sarah Johnson";
     Employee.designation := "Professor"; Employee.employeeType := TEACHER;
     Employee.basicSalary := 80000; Employee.status := ACTIVE;
     Employee.houseRent := 20000; Employee.medical := 5000;
     Employee.transport := 3000; Employee.education := 2000;
     Employee.special := 5000; Employee.tax := 12000;
     Employee.providentFund := 8000; Employee.insurance := 2000;
     Employee.loan := 0; Employee.other := 0 |}.

(** An employee whose loan repayment exceeds the gross salary. *)
Definition indebted : Employee.t :=
  {| Employee.id := "emp-2"; Employee.name := "Tom Reed";
     Employee.designation := "Clerk"; Employee.employeeType := STAFF;
     Employee.basicSalary := 1000; Employee.status := ACTIVE;
     Employee.houseRent := 0; Employee.medical := 0;
     Employee.transport := 0; Employee.education := 0;
     Employee.special := 0; Employee.tax := 0;
     Employee.providentFund := 0; Employee.insurance := 0;
     Employee.loan := 5000; Employee.other := 0 |}.

Definition retired : Employee.t :=
  {| Employee.id := "emp-3"; Employee.name := "Ann Lee";
     Employee.designation := "Professor"; Employee.employeeType := TEACHER;
     Employee.basicSalary := 70000; Employee.status := INACTIVE;
     Employee.houseRent := 0; Employee.medical := 0;
     Employee.transport := 0; Employee.education := 0;
     Employee.special := 0; Employee.tax := 0;
     Employee.providentFund := 0; Employee.insurance := 0;
     Employee.loan := 0; Employee.other := 0 |}.

Definition sample_newId (table : list Payroll.t) : string :=
  ("pay-" ++ show (Z.of_nat (List.length table)))%string.

Definition sample_db : Db :=
  {| employees := [sarah; indebted; retired]; payrolls := [] |}.

Definition march_2025 : ProcessBody.t :=
  {| ProcessBody.month := Some 3; ProcessBody.year := Some 2025;
     ProcessBody.employeeIds := None |}.

Definition may_2030 : ProcessBody.t :=
  {| ProcessBody.month := Some 5; ProcessBody.year := Some 2030;
     ProcessBody.employeeIds := None |}.

(** A store without ACTIVE employees. *)
Definition inactive_db : Db :=
  {| employees := [retired]; payrolls := [] |}.

(** The row of March 2025 for the first teacher. *)
Definition sarah_march : Payroll.t :=
  created_row sample_newId 3 2025 eq_refl eq_refl sample_db sarah.



(** Three employees of two types with fractional salaries and no
    allowances or deductions, and the store after March 2025 was processed
    for them. *)
Definition plain_employee (id name designation : string) (type : EmployeeType)
    (basicSalary : float) : Employee.t :=
  {| Employee.id := id; Employee.name := name;
     Employee.designation := designation; Employee.employeeType := type;
     Employee.basicSalary := basicSalary; Employee.status := ACTIVE;
     Employee.houseRent := 0; Employee.medical := 0;
     Employee.transport := 0; Employee.education := 0;
     Employee.special := 0; Employee.tax := 0;
     Employee.providentFund := 0; Employee.insurance := 0;
     Employee.loan := 0; Employee.other := 0 |}.

Definition fraction_db : Db :=
  {| employees := [plain_employee "emp-5" "Maria Diaz" "Lecturer" TEACHER 45000.55;
                   plain_employee "emp-6" "Omar Aziz" "Technician" STAFF 30000.3;
                   plain_employee "emp-7" "Nina Roy" "Lecturer" TEACHER 25000.1];
     payrolls := [] |}.

(** Three lecturers whose net salaries add up to 100000. *)
Definition lecturers_db : Db :=
  {| employees := [plain_employee "emp-5" "Maria Diaz" "Lecturer" TEACHER 50000;
                   plain_employee "emp-6" "Omar Aziz" "Lecturer" TEACHER 30000;
                   plain_employee "emp-7" "Nina Roy" "Lecturer" TEACHER 20000];
     payrolls := [] |}.


(** 2025-03-31T12:00:00Z in milliseconds. *)
Definition noon : Z := 1743422400000.

(** The store after processing March 2025. *)
Definition sample_db_march : Db :=
  fst (PayrollController.processPayroll sample_newId sample_db march_2025).

Definition fraction_db_march : Db :=
  fst (PayrollController.processPayroll sample_newId fraction_db march_2025).

Definition lecturers_db_march : Db :=
  fst (PayrollController.processPayroll sample_newId lecturers_db march_2025).

(** The listing without filter, and creation times under which the record
    "pay-0" is the oldest. *)
Definition every_row : ListQuery.t := ListQuery.mk None None None None None None.

Definition sample_createdAt (p : Payroll.t) : Z :=
  if String.eqb (Payroll.id p) "pay-0" then 0 else 1.
(** ** Vocabulary of the further properties *)

Definition with_page (q : ListQuery.t) (n : positive) : ListQuery.t :=
  {| ListQuery.month := ListQuery.month q;
     ListQuery.year := ListQuery.year q;
     ListQuery.status := ListQuery.status q;
     ListQuery.employeeId := ListQuery.employeeId q;
     ListQuery.page := Some n;
     ListQuery.limit := ListQuery.limit q |}.

Definition listed_rows (r : Response (Paged.t PayrollWithEmployee))
    : list PayrollWithEmployee :=
  match data r with
  | Some d => Paged.rows d
  | None => []
  end.

(** [p] passes every filter the query carries. *)
Definition meets (q : ListQuery.t) (p : Payroll.t) : Prop :=
  (forall m, ListQuery.month q = Some m -> Payroll.month p = m) /\
  (forall y, ListQuery.year q = Some y -> Payroll.year p = y) /\
  (forall s, ListQuery.status q = Some s -> Payroll.status p = s) /\
  (forall e, ListQuery.employeeId q = Some e -> Payroll.employeeId p = e).

(** The order of the payroll listing: later year first, then later month,
    then later creation. *)
Definition listed_before (createdAt : Payroll.t -> Z) (p q : Payroll.t) : Prop :=
  Payroll.year q < Payroll.year p \/
  (Payroll.year p = Payroll.year q /\
   (Payroll.month q < Payroll.month p \/
    (Payroll.month p = Payroll.month q /\ createdAt q <= createdAt p))).


Definition listed_pagination (r : Response (Paged.t PayrollWithEmployee))
    : Pagination.t :=
  match data r with
  | Some d => Paged.pagination d
  | None => Pagination.mk 0 0 0 0
  end.

(** The key of the unique index Payroll_employeeId_month_year_key. *)
Definition period_key (p : Payroll.t) : string * Z * Z :=
  (Payroll.employeeId p, Payroll.month p, Payroll.year p).

(** At most one payroll per employee, month and year. *)
Definition unique_periods (rows : list Payroll.t) : Prop :=
  NoDup (map period_key rows).

(** A row is PAID exactly when it carries a paid timestamp. *)
Definition paid_iff_stamped (p : Payroll.t) : Prop :=
  Payroll.status p = PAID <-> Payroll.paidAt p <> None.

(** Every payroll row refers to an employee of the store. *)
Definition foreign_key_holds (db : Db) : Prop :=
  forall p, In p (payrolls db) ->
            exists e, In e (employees db) /\ Employee.id e = Payroll.employeeId p.

(** The id generator never returns an id of the table it is given. *)
Definition fresh_ids (newId : list Payroll.t -> string) : Prop :=
  forall table, ~ In (newId table) (map Payroll.id table).

(** The stores the endpoints lead to from a store without payrolls.  The
    endpoints that create and update employees are not modelled in detail:
    [reach_employees] stands for them, as a change of the Employee table
    that keeps every id, which is all they can do to it. *)
Inductive reachable : Db -> Prop :=
| reach_init : forall es,
    reachable {| employees := es; payrolls := [] |}
| reach_process : forall newId db body,
    reachable db ->
    reachable (fst (PayrollController.processPayroll newId db body))
| reach_mark : forall now db id,
    reachable db ->
    reachable (fst (PayrollController.markPayrollAsPaid now db id))
| reach_bulk : forall now db payrollIds,
    reachable db ->
    reachable (fst (PayrollController.bulkMarkAsPaid now db payrollIds))
| reach_delete : forall db id,
    reachable db ->
    reachable (fst (PayrollControllerMore.deletePayroll db id))
| reach_delete_employee : forall db id,
    reachable db ->
    reachable (fst (EmployeeController.deleteEmployee db id))
| reach_employees : forall db es,
    reachable db ->
    (forall e, In e (employees db) ->
               exists e', In e' es /\ Employee.id e' = Employee.id e) ->
    reachable {| employees := es; payrolls := payrolls db |}.

(** The invariants of the Payroll table. *)
Definition store_invariant (db : Db) : Prop :=
  unique_periods (payrolls db) /\
  Forall salary_equations (payrolls db) /\
  Forall paid_iff_stamped (payrolls db) /\
  foreign_key_holds db.

(** Whether the store has a payroll of employee [e] for the period. *)
Definition has_payroll (db : Db) (month year : Z) (e : Employee.t) : bool :=
  existsb (Prisma.same_period (Employee.id e) month year) (payrolls db).

(** An id generator that is fresh for every table: longer than every id
    in it. *)
Definition long_newId (table : list Payroll.t) : string :=
  (String.concat EmptyString (map Payroll.id table) ++ "+")%string.




(** [p] is of a period not earlier than the period of [q]. *)
Definition not_earlier (p q : Payroll.t) : Prop :=
  Payroll.year q < Payroll.year p \/
  (Payroll.year p = Payroll.year q /\ Payroll.month q <= Payroll.month p).

(** The payroll rows of one employee. *)
Definition payrolls_of (db : Db) (employeeId : string) : list Payroll.t :=
  filter (fun p => String.eqb (Payroll.employeeId p) employeeId) (payrolls db).

(** The latest payrolls of the employees of a list, in the order of the
    employees; an employee without payroll has none. *)
Definition latest_payrolls (db : Db) (es : list Employee.t) : list Payroll.t :=
  flat_map (fun e => match ReportControllerMore.latestPayroll db e with
                     | Some p => [p]
                     | None => []
                     end) es.

(** What a Map built by grouping holds under key [k] after the callback
    has seen [rows], when it held [v0] before: [upd] is the change the
    callback makes to the entry of the key of a row. *)
Definition grouped {A K V : Type} (eqb : K -> K -> bool) (key : A -> K)
    (upd : option V -> A -> V) (k : K) (rows : list A) (v0 : option V) : option V :=
  fold_left (fun v a => if eqb (key a) k then Some (upd v a) else v) rows v0.

(** The employees of one type, and of one designation. *)
Definition of_type (db : Db) (type : EmployeeType) : list Employee.t :=
  filter (fun e => EmployeeType_eqb (Employee.employeeType e) type) (employees db).

Definition with_designation (db : Db) (designation : string) : list Employee.t :=
  filter (fun e => String.eqb (Employee.designation e) designation) (employees db).

(** The numbers of a list added up one after the other, starting from the
    first, every sum rounded: what a running total holds that is set to
    the first number and then grown by each of the others. *)
Definition added_up (l : list float) : float :=
  match l with
  | [] => 0%float
  | x :: rest => fold_left (fun sum v => (sum + v)%float) rest x
  end.

(** The change [getEmployeeTypeReport] makes to the entry of an employee's
    type. *)
Definition type_entry_after (v : option (Z * float)) (e : Employee.t) : Z * float :=
  match v with
  | Some current => (fst current + 1,
                     (snd current + ReportsControllerMore.currentNetSalary e)%float)
  | None => (1, ReportsControllerMore.currentNetSalary e)
  end.

(** The change [getDesignationWiseReport] makes to the entry of an
    employee's designation. *)
Definition designation_entry_after (db : Db) (v : option DesignationWise.t)
    (e : Employee.t) : DesignationWise.t :=
  let designationData :=
    match v with
    | Some found => found
    | None => {| DesignationWise.designation := Employee.designation e;
                 DesignationWise.count := 0;
                 DesignationWise.totalSalary := 0%float |}
    end in
  {| DesignationWise.designation := DesignationWise.designation designationData;
     DesignationWise.count := DesignationWise.count designationData + 1;
     DesignationWise.totalSalary :=
       match ReportControllerMore.latestPayroll db e with
       | Some payroll =>
           (DesignationWise.totalSalary designationData + Payroll.netSalary payroll)%float
       | None => DesignationWise.totalSalary designationData
       end |}.

(** The rows of a period with a given status. *)
Definition with_status (status : PayrollStatus) (rows : list Payroll.t) : list Payroll.t :=
  filter (fun p => PayrollStatus_eqb (Payroll.status p) status) rows.


(** The entry of the monthly summary for a month: the number of records
    of the month and their three columns, each added up from 0 in the
    order the records are read. *)
Definition month_figures (db : Db) (year month : Z) : ReportsController.MonthEntry.t :=
  let rows := Prisma.payroll_rows db (ReportController.period_where month year) in
  {| ReportsController.MonthEntry.month := month;
     ReportsController.MonthEntry.totalEmployees := Z.of_nat (List.length rows);
     ReportsController.MonthEntry.totalBasic := running_sum (map Payroll.basicSalary rows);
     ReportsController.MonthEntry.totalGross := running_sum (map Payroll.grossSalary rows);
     ReportsController.MonthEntry.totalNet := running_sum (map Payroll.netSalary rows) |}.


(** The records of a period as the reports read them, each with its
    employee. *)
Definition period_records (db : Db) (m y : Z) : list PayrollWithEmployee :=
  map (Prisma.include_employee db)
      (Prisma.payroll_rows db (ReportController.period_where m y)).

(** Every record of the period refers to an employee of the store. *)
Definition period_has_employees (db : Db) (m y : Z) : Prop :=
  forall p, In p (Prisma.payroll_rows db (ReportController.period_where m y)) ->
            Prisma.employee_findUnique db (Payroll.employeeId p) <> None.

(** Whether the employee of a record is of the type, or has the
    designation. *)
Definition has_type (type : EmployeeType) (row : PayrollWithEmployee) : bool :=
  match employee row with
  | Some e => EmployeeType_eqb (Employee.employeeType e) type
  | None => false
  end.

Definition has_designation (designation : string) (row : PayrollWithEmployee) : bool :=
  match employee row with
  | Some e => String.eqb (Employee.designation e) designation
  | None => false
  end.

(** The allowances and the deductions of a record, each added up from
    left to right. *)
Definition allowances_of (p : Payroll.t) : float :=
  (Payroll.houseRent p + Payroll.medical p + Payroll.transport p +
   Payroll.education p + Payroll.special p)%float.

Definition deductions_of (p : Payroll.t) : float :=
  (Payroll.tax p + Payroll.providentFund p + Payroll.insurance p +
   Payroll.loan p + Payroll.other p)%float.

(** The key a record is grouped under and the change the callbacks of the
    two payroll reports make to the entry of that key. *)
Definition type_key (row : PayrollWithEmployee) : EmployeeType :=
  match employee row with
  | Some e => Employee.employeeType e
  | None => TEACHER
  end.

Definition type_data_after (v : option ReportController.TypeData.t)
    (row : PayrollWithEmployee) : ReportController.TypeData.t :=
  ReportController.addToTypeData
    (match v with
     | Some typeData => typeData
     | None => ReportController.newTypeData (type_key row)
     end)
    (payroll row).

Definition designation_key (row : PayrollWithEmployee) : string :=
  match employee row with
  | Some e => Employee.designation e
  | None => EmptyString
  end.

Definition desig_data_after (v : option ReportController.DesigData.t)
    (row : PayrollWithEmployee) : ReportController.DesigData.t :=
  ReportController.addToDesigData
    (match v with
     | Some desigData => desigData
     | None => ReportController.newDesigData (designation_key row)
     end)
    (payroll row).

(** The message of the error [PayrollService.processPayroll] ends with:
    the range error of the lookup, the message for a payroll that
    exists, the one for an unknown employee, and otherwise the TypeError of
    [Object.values] on the [allowances] a row does not have. *)
Definition service_error (db : Db) (employeeId : string) (month year : Z) : string :=
  match Prisma.period_error (Some month) (Some year) with
  | Some err => err
  | None =>
      if existsb (Prisma.same_period employeeId month year) (payrolls db)
      then "Payroll already processed for this period"%string
      else match Prisma.employee_findUnique db employeeId with
           | None => "Employee not found"%string
           | Some _ => PayrollService.type_error
           end
  end.


(** The ACTIVE employees, which the monthly run of the service goes
    through. *)
Definition active_employees (db : Db) : list Employee.t :=
  filter (fun e => EmployeeStatus_eqb (Employee.status e) ACTIVE) (employees db).

(** The settings a table holds, as an object read by key. *)
Definition settings_object (r : Response (JsMap.t string string)) : JsMap.t string string :=
  match data r with
  | Some obj => obj
  | None => []
  end.


(** The store after March 2025 was processed and the first record paid. *)
Definition sample_db_paid : Db :=
  fst (PayrollController.markPayrollAsPaid noon sample_db_march "pay-0").

(** A Settings table with one row. *)
Definition sample_settings : SettingsRoutes.Table :=
  [ {| Setting.key := "currency"; Setting.value := "USD" |} ].

(** * Facts about the persistence collaborator *)

Lemma find_none_existsb {A} (f : A -> bool) (l : list A) :
  find f l = None -> existsb f l = false.
Proof.
  induction l as [|a l IH]; simpl; [reflexivity|].
  destruct (f a); [discriminate | exact IH].
Qed.

Lemma existsb_true_find {A} (f : A -> bool) (l : list A) :
  existsb f l = true -> exists a, find f l = Some a.
Proof.
  induction l as [|a l IH]; simpl; [discriminate|].
  destruct (f a); [eauto | exact IH].
Qed.

Lemma existsb_app_l {A} (f : A -> bool) (l l' : list A) :
  existsb f l = true -> existsb f (l ++ l') = true.
Proof.
  intros H. rewrite existsb_app, H. reflexivity.
Qed.

Lemma employee_findUnique_In (db : Db) (e : Employee.t) :
  In e (employees db) ->
  exists e', Prisma.employee_findUnique db (Employee.id e) = Some e'.
Proof.
  intros Hin. unfold Prisma.employee_findUnique.
  apply existsb_true_find. apply existsb_exists.
  exists e. split; [assumption | apply String.eqb_refl].
Qed.

Lemma same_period_refl (eid : string) (m y : Z) (p : Payroll.t) :
  Payroll.employeeId p = eid -> Payroll.month p = m -> Payroll.year p = y ->
  Prisma.same_period eid m y p = true.
Proof.
  intros <- <- <-. unfold Prisma.same_period.
  rewrite String.eqb_refl, !Z.eqb_refl. reflexivity.
Qed.

Lemma fits_irrelevant (z : Z) (p q : Int4.fits z = true) : p = q.
Proof. apply UIP_dec. apply bool_dec. Qed.

Lemma fits_iff (z : Z) :
  Int4.fits z = true <-> -2147483648 <= z <= 2147483647.
Proof.
  unfold Int4.fits, Int4.min_value, Int4.max_value.
  rewrite andb_true_iff, !Z.leb_le. reflexivity.
Qed.

Lemma period_error_fits (m y : Z) :
  Int4.fits m = true -> Int4.fits y = true ->
  Prisma.period_error (Some m) (Some y) = None.
Proof. intros Hm Hy. unfold Prisma.period_error. rewrite Hm, Hy. reflexivity. Qed.

Lemma period_error_None (m y : Z) :
  Prisma.period_error (Some m) (Some y) = None ->
  Int4.fits m = true /\ Int4.fits y = true.
Proof.
  unfold Prisma.period_error.
  destruct (Int4.fits m); [|discriminate].
  destruct (Int4.fits y); [auto | discriminate].
Qed.


(** The message of a range error is not the one of a skipped employee. *)
Lemma int4_overflow_not_already_processed (v : Z) :
  Prisma.int4_overflow v <> PayrollController.already_processed.
Proof. unfold Prisma.int4_overflow. simpl. discriminate. Qed.

Lemma findUnique_period_fits (db : Db) (eid : string) (m y : Z) :
  Int4.fits m = true -> Int4.fits y = true ->
  Prisma.payroll_findUnique_employeeId_month_year db eid m y =
  inr (find (Prisma.same_period eid m y) (payrolls db)).
Proof.
  intros Hm Hy. unfold Prisma.payroll_findUnique_employeeId_month_year.
  rewrite (period_error_fits _ _ Hm Hy). reflexivity.
Qed.

Lemma findFirst_period_fits (db : Db) (eid : string) (m y : Z) :
  Int4.fits m = true -> Int4.fits y = true ->
  Prisma.payroll_findFirst_employeeId_month_year db eid m y =
  inr (find (Prisma.same_period eid m y) (payrolls db)).
Proof.
  intros Hm Hy. unfold Prisma.payroll_findFirst_employeeId_month_year.
  rewrite (period_error_fits _ _ Hm Hy). reflexivity.
Qed.

Lemma findMany_period_fits (db : Db) (m y : Z) :
  Int4.fits m = true -> Int4.fits y = true ->
  Prisma.payroll_findMany db (ReportController.period_where m y) =
  inr (Prisma.payroll_rows db (ReportController.period_where m y)).
Proof.
  intros Hm Hy. unfold Prisma.payroll_findMany.
  cbn [ReportController.period_where Prisma.pw_month Prisma.pw_year].
  rewrite (period_error_fits _ _ Hm Hy). reflexivity.
Qed.

Lemma created_row_snapshot newId month year Hm Hy db e :
  is_snapshot e month year (created_row newId month year Hm Hy db e).
Proof. unfold is_snapshot; simpl; repeat split. Qed.

Lemma created_row_equations newId month year Hm Hy db e :
  salary_equations (created_row newId month year Hm Hy db e).
Proof. unfold salary_equations; simpl; split; reflexivity. Qed.

(** * Facts about the processing loop *)

Section ProcessLoop.
Variable newId : list Payroll.t -> string.
Variables month year : Z.

(** A month or year that does not fit: the lookup throws and the employee
    goes to [errors]. *)
Lemma processEmployee_overflow st e err :
  Prisma.period_error (Some month) (Some year) = Some err ->
  PayrollController.processEmployee newId month year st e =
  PayrollController.push_error st e err.
Proof.
  intros H. unfold PayrollController.processEmployee,
    Prisma.payroll_findUnique_employeeId_month_year.
  rewrite H. reflexivity.
Qed.

Lemma loop_overflow err l : forall st,
  Prisma.period_error (Some month) (Some year) = Some err ->
  loop newId month year l st =
  {| PayrollController.st_db := PayrollController.st_db st;
     PayrollController.payrollRecords := PayrollController.payrollRecords st;
     PayrollController.errors :=
       PayrollController.errors st ++ map (error_entry err) l |}.
Proof.
  induction l as [|a l IH]; intros st H.
  - simpl. rewrite app_nil_r. destruct st; reflexivity.
  - unfold loop in *; simpl fold_left.
    rewrite (processEmployee_overflow _ _ _ H), (IH _ H).
    simpl. rewrite <- app_assoc. reflexivity.
Qed.

Hypothesis month_fits : Int4.fits month = true.
Hypothesis year_fits : Int4.fits year = true.

Lemma processEmployee_existing st e p :
  find (Prisma.same_period (Employee.id e) month year) (payrolls (PayrollController.st_db st)) = Some p ->
  PayrollController.processEmployee newId month year st e =
  PayrollController.push_error st e PayrollController.already_processed.
Proof.
  intros H. unfold PayrollController.processEmployee.
  rewrite (findUnique_period_fits _ _ _ _ month_fits year_fits), H. reflexivity.
Qed.

Lemma processEmployee_created st e :
  find (Prisma.same_period (Employee.id e) month year) (payrolls (PayrollController.st_db st)) = None ->
  In e (employees (PayrollController.st_db st)) ->
  let row := created_row newId month year month_fits year_fits
               (PayrollController.st_db st) e in
  let db' := {| employees := employees (PayrollController.st_db st);
                payrolls := payrolls (PayrollController.st_db st) ++ [row] |} in
  PayrollController.processEmployee newId month year st e =
  {| PayrollController.st_db := db';
     PayrollController.payrollRecords :=
       PayrollController.payrollRecords st ++ [Prisma.include_employee db' row];
     PayrollController.errors := PayrollController.errors st |}.
Proof.
  intros Hnone Hin row db'.
  unfold PayrollController.processEmployee.
  rewrite (findUnique_period_fits _ _ _ _ month_fits year_fits), Hnone.
  unfold Prisma.payroll_create.
  cbn [Prisma.c_employeeId Prisma.c_month Prisma.c_year].
  destruct (Int4.check month) as [Hm|Hm]; [|congruence].
  destruct (Int4.check year) as [Hy|Hy]; [|congruence].
  rewrite (find_none_existsb _ _ Hnone).
  destruct (employee_findUnique_In _ _ Hin) as [e' ->].
  rewrite (fits_irrelevant _ Hm month_fits), (fits_irrelevant _ Hy year_fits).
  reflexivity.
Qed.

Lemma fresh_record_weaken a l r : fresh_record month year l r -> fresh_record month year (a :: l) r.
Proof.
  intros (e & Hin & H). exists e. split; [right; exact Hin | exact H].
Qed.

Lemma loop_spec l : forall st,
  (forall e, In e l -> In e (employees (PayrollController.st_db st))) ->
  employees (PayrollController.st_db (loop newId month year l st)) =
    employees (PayrollController.st_db st) /\
  exists new,
    PayrollController.payrollRecords (loop newId month year l st) =
      PayrollController.payrollRecords st ++ new /\
    payrolls (PayrollController.st_db (loop newId month year l st)) =
      payrolls (PayrollController.st_db st) ++ map payroll new /\
    Forall (fresh_record month year l) new /\
    (forall e, In e l ->
       existsb (Prisma.same_period (Employee.id e) month year)
               (payrolls (PayrollController.st_db (loop newId month year l st))) = true).
Proof.
  induction l as [|a l IH]; intros st Hsub.
  - split; [reflexivity|]. exists []. simpl.
    rewrite !app_nil_r. repeat split; auto.
  - unfold loop in *; simpl fold_left.
    destruct (find (Prisma.same_period (Employee.id a) month year)
                (payrolls (PayrollController.st_db st))) as [p|] eqn:Hfind.
    + rewrite (processEmployee_existing _ _ _ Hfind).
      destruct (IH (PayrollController.push_error st a PayrollController.already_processed))
        as (Hemp & new & Hrec & Hpay & Hnew & Hall).
      { intros e He. simpl. apply Hsub. right; exact He. }
      simpl in Hemp, Hrec, Hpay.
      split; [exact Hemp|]. exists new.
      split; [exact Hrec|]. split; [exact Hpay|].
      split.
      { eapply Forall_impl; [|exact Hnew]. intros r. apply fresh_record_weaken. }
      intros e [<-|He]; [|apply Hall; exact He].
      rewrite Hpay. apply existsb_app_l.
      apply existsb_exists. exists p.
      apply find_some in Hfind. exact Hfind.
    + rewrite (processEmployee_created _ _ Hfind (Hsub a (or_introl eq_refl))).
      set (row := created_row newId month year month_fits year_fits (PayrollController.st_db st) a).
      set (db' := {| employees := employees (PayrollController.st_db st);
                     payrolls := payrolls (PayrollController.st_db st) ++ [row] |}).
      match goal with |- context [fold_left _ l ?s] => set (st1 := s) end.
      destruct (IH st1) as (Hemp & new & Hrec & Hpay & Hnew & Hall).
      { intros e He. simpl. apply Hsub. right; exact He. }
      simpl in Hemp, Hrec, Hpay.
      split; [exact Hemp|].
      exists (Prisma.include_employee db' row :: new).
      split; [rewrite Hrec, <- app_assoc; reflexivity|].
      split; [rewrite Hpay, <- app_assoc; reflexivity|].
      split.
      { constructor.
        - exists a. split; [left; reflexivity|].
          split; [apply created_row_snapshot|].
          split; [apply created_row_equations|].
          split; reflexivity.
        - eapply Forall_impl; [|exact Hnew]. intros r. apply fresh_record_weaken. }
      intros e [<-|He]; [|apply Hall; exact He].
      rewrite Hpay. apply existsb_app_l. rewrite existsb_app.
      simpl. rewrite (same_period_refl _ _ _ row); try reflexivity.
      apply orb_true_r.
Qed.


End ProcessLoop.

(** * Facts about [processPayroll] *)

Lemma EmployeeStatus_eqb_eq a b : EmployeeStatus_eqb a b = true <-> a = b.
Proof. destruct a, b; simpl; split; congruence. Qed.

Lemma PayrollStatus_eqb_eq a b : PayrollStatus_eqb a b = true <-> a = b.
Proof. destruct a, b; simpl; split; congruence. Qed.

Lemma existsb_eqb_In (s : string) (l : list string) :
  existsb (String.eqb s) l = true <-> In s l.
Proof.
  rewrite existsb_exists. split.
  - intros (x & Hin & Heq). apply String.eqb_eq in Heq. subst. exact Hin.
  - intros Hin. exists s. split; [exact Hin | apply String.eqb_refl].
Qed.

(** The query of [processPayroll] returns the selected employees. *)
Lemma selection_In db employeeIds e :
  In e (Prisma.employee_findMany db (PayrollController.employees_where employeeIds)) <->
  In e (employees db) /\ selected_by employeeIds e.
Proof.
  unfold Prisma.employee_findMany, Prisma.employee_matches, selected_by.
  rewrite filter_In.
  destruct employeeIds as [[|i ids]|]; cbn -[existsb In];
    rewrite andb_true_iff, EmployeeStatus_eqb_eq; try rewrite existsb_eqb_In;
    intuition.
Qed.

Lemma truthy_Some n : truthy (Some n) = true <-> n <> 0.
Proof. simpl. rewrite negb_true_iff, Z.eqb_neq. reflexivity. Qed.

Section ProcessPayroll.
Variable newId : list Payroll.t -> string.

Lemma processPayroll_invalid db body :
  truthy (ProcessBody.month body) = false \/ truthy (ProcessBody.year body) = false ->
  PayrollController.processPayroll newId db body =
  (db, failure 400 "Month and year are required").
Proof.
  intros H. unfold PayrollController.processPayroll.
  destruct H as [-> | ->]; simpl; rewrite ?orb_true_r; reflexivity.
Qed.

Lemma processPayroll_empty db m y employeeIds :
  m <> 0 -> y <> 0 ->
  Prisma.employee_findMany db (PayrollController.employees_where employeeIds) = [] ->
  PayrollController.processPayroll newId db (ProcessBody.mk (Some m) (Some y) employeeIds) =
  (db, failure 404 "No active employees found").
Proof.
  intros Hm Hy Hsel. unfold PayrollController.processPayroll.
  cbn [ProcessBody.month ProcessBody.year ProcessBody.employeeIds].
  rewrite (proj2 (truthy_Some m) Hm), (proj2 (truthy_Some y) Hy), Hsel.
  reflexivity.
Qed.

Lemma processPayroll_run db m y employeeIds :
  m <> 0 -> y <> 0 ->
  Prisma.employee_findMany db (PayrollController.employees_where employeeIds) <> [] ->
  PayrollController.processPayroll newId db (ProcessBody.mk (Some m) (Some y) employeeIds) =
  let st := loop newId m y
              (Prisma.employee_findMany db (PayrollController.employees_where employeeIds))
              (initial_state db) in
  (PayrollController.st_db st,
   ok 201 (Some (processed_message (PayrollController.payrollRecords st)))
     {| ProcessResult.processed := PayrollController.payrollRecords st;
        ProcessResult.errors := PayrollController.errors st |}).
Proof.
  intros Hm Hy Hsel. unfold PayrollController.processPayroll.
  cbn [ProcessBody.month ProcessBody.year ProcessBody.employeeIds].
  rewrite (proj2 (truthy_Some m) Hm), (proj2 (truthy_Some y) Hy).
  destruct (Prisma.employee_findMany db _) as [|e sel] eqn:E; [congruence|].
  reflexivity.
Qed.

(** The three outcomes of [processPayroll]. *)
Lemma processPayroll_cases db body :
  PayrollController.processPayroll newId db body =
    (db, failure 400 "Month and year are required") \/
  PayrollController.processPayroll newId db body =
    (db, failure 404 "No active employees found") \/
  exists m y,
    body = ProcessBody.mk (Some m) (Some y) (ProcessBody.employeeIds body) /\
    m <> 0 /\ y <> 0 /\
    Prisma.employee_findMany db
      (PayrollController.employees_where (ProcessBody.employeeIds body)) <> [].
Proof.
  destruct body as [[m|] [y|] ids];
    try (left; apply processPayroll_invalid; simpl; auto; fail).
  destruct (Z.eq_dec m 0) as [->|Hm];
    [left; apply processPayroll_invalid; simpl; auto|].
  destruct (Z.eq_dec y 0) as [->|Hy];
    [left; apply processPayroll_invalid; simpl; auto|].
  destruct (Prisma.employee_findMany db (PayrollController.employees_where ids)) eqn:E.
  - right; left. apply processPayroll_empty; assumption.
  - right; right. exists m, y. simpl. rewrite E. repeat split; congruence.
Qed.

(** A run for a month or year that does not fit creates nothing and
    reports every selected employee with the error of the lookup. *)
Lemma processPayroll_overflow db m y employeeIds err :
  m <> 0 -> y <> 0 ->
  Prisma.employee_findMany db (PayrollController.employees_where employeeIds) <> [] ->
  Prisma.period_error (Some m) (Some y) = Some err ->
  PayrollController.processPayroll newId db (ProcessBody.mk (Some m) (Some y) employeeIds) =
  (db, ok 201 (Some "Payroll processed for 0 employees"%string)
         {| ProcessResult.processed := [];
            ProcessResult.errors :=
              map (error_entry err)
                (Prisma.employee_findMany db
                   (PayrollController.employees_where employeeIds)) |}).
Proof.
  intros Hm Hy Hsel Herr.
  rewrite (processPayroll_run _ _ _ _ Hm Hy Hsel). cbv zeta.
  rewrite (loop_overflow newId m y err _ _ Herr). reflexivity.
Qed.

(** What a run does to the store and what it reports. *)
Lemma processPayroll_effect db body :
  payrolls (fst (PayrollController.processPayroll newId db body)) =
    payrolls db ++
    map payroll (processed_of (snd (PayrollController.processPayroll newId db body))) /\
  employees (fst (PayrollController.processPayroll newId db body)) = employees db /\
  Forall (fun r => exists e m y,
            ProcessBody.month body = Some m /\ ProcessBody.year body = Some y /\
            In e (employees db) /\ selected_by (ProcessBody.employeeIds body) e /\
            is_snapshot e m y (payroll r) /\
            salary_equations (payroll r) /\
            Payroll.status (payroll r) = PENDING /\
            Payroll.paidAt (payroll r) = None)
    (processed_of (snd (PayrollController.processPayroll newId db body))).
Proof.
  destruct (processPayroll_cases db body) as [-> | [-> | (m & y & Hb & Hm & Hy & Hsel)]];
    try (simpl; rewrite app_nil_r; repeat split; constructor).
  rewrite Hb.
  destruct (Prisma.period_error (Some m) (Some y)) as [err|] eqn:Herr.
  { rewrite (processPayroll_overflow _ _ _ _ _ Hm Hy Hsel Herr). simpl.
    rewrite app_nil_r. repeat split; constructor. }
  apply period_error_None in Herr. destruct Herr as [Hmf Hyf].
  rewrite (processPayroll_run _ _ _ _ Hm Hy Hsel). cbv zeta.
  set (sel := Prisma.employee_findMany db _) in *.
  destruct (loop_spec newId m y Hmf Hyf sel (initial_state db))
    as (Hemp & new & Hrec & Hpay & Hnew & _).
  { intros e He. apply selection_In in He. apply He. }
  simpl in Hemp, Hrec, Hpay. unfold processed_of. simpl.
  rewrite Hrec. split; [exact Hpay|]. split; [exact Hemp|].
  eapply Forall_impl; [|exact Hnew].
  intros r (e & He & Hsnap & Heqs & Hst & Hpaid).
  apply selection_In in He. destruct He as [Hin Hselected].
  exists e, m, y.
  split; [reflexivity|]. split; [reflexivity|].
  split; [exact Hin|]. split; [exact Hselected|].
  split; [exact Hsnap|]. split; [exact Heqs|]. split; assumption.
Qed.

End ProcessPayroll.


(** * Payroll processing: the claims *)





(** C8.  When the period is given and no employee of the store is selected
    (none is ACTIVE, or none of the ACTIVE ones is in the non-empty list
    supplied), processing answers 404 'No active employees found' and
    leaves the store as it is. *)
Theorem processPayroll_no_eligible_employees :
  forall (newId : list Payroll.t -> string) (db : Db) (body : ProcessBody.t),
    truthy (ProcessBody.month body) = true ->
    truthy (ProcessBody.year body) = true ->
    (forall e, In e (employees db) -> ~ selected_by (ProcessBody.employeeIds body) e) ->
    PayrollController.processPayroll newId db body =
    (db, failure 404 "No active employees found").
Proof.
  intros newId db [[m|] [y|] ids] Hm Hy Hnone; try discriminate.
  apply truthy_Some in Hm. apply truthy_Some in Hy.
  apply processPayroll_empty; try assumption.
  destruct (Prisma.employee_findMany db (PayrollController.employees_where ids))
    as [|e sel] eqn:E; [reflexivity|].
  exfalso.
  assert (He : In e (Prisma.employee_findMany db (PayrollController.employees_where ids)))
    by (rewrite E; left; reflexivity).
  apply selection_In in He. destruct He as [Hin Hsel].
  exact (Hnone e Hin Hsel).
Qed.




Lemma processPayroll_no_eligible_employees_witness :
  PayrollController.processPayroll sample_newId inactive_db may_2030 =
  (inactive_db, failure 404 "No active employees found").
Proof.
  apply (processPayroll_no_eligible_employees sample_newId inactive_db may_2030);
    [reflexivity | reflexivity |].
  intros e [<- | []] [Hactive _]. discriminate Hactive.
Defined.

(** * The PayrollService entry point *)

(** On the rows of the Employee table the service always throws: the
    lookup fails, the payroll exists, the employee is unknown, or
    [Object.values] is given the [allowances] that a row does not have.
    The store stays as it is. *)
Lemma service_processPayroll_throws now db employeeId month year :
  PayrollService.processPayroll now db employeeId month year =
  (db, inl (service_error db employeeId month year)).
Proof.
  unfold PayrollService.processPayroll, service_error,
    Prisma.payroll_findFirst_employeeId_month_year.
  destruct (Prisma.period_error (Some month) (Some year)); [reflexivity|].
  destruct (find _ (payrolls db)) as [p|] eqn:Hfind.
  - assert (H : existsb (Prisma.same_period employeeId month year) (payrolls db) = true).
    { apply existsb_exists. exists p. apply find_some in Hfind. exact Hfind. }
    rewrite H. reflexivity.
  - rewrite (find_none_existsb _ _ Hfind).
    destruct (Prisma.employee_findUnique db employeeId); reflexivity.
Qed.

Lemma service_processMonthly_loop now month year l : forall acc,
  fold_left (PayrollService.processMonthlyEmployee now month year) l acc =
  {| PayrollService.m_db := PayrollService.m_db acc;
     PayrollService.results := PayrollService.results acc;
     PayrollService.errors :=
       PayrollService.errors acc ++
       map (fun e =>
              {| PayrollService.MonthlyError.employeeId := Employee.id e;
                 PayrollService.MonthlyError.employeeName := Employee.name e;
                 PayrollService.MonthlyError.error :=
                   service_error (PayrollService.m_db acc) (Employee.id e) month year |})
           l |}.
Proof.
  induction l as [|a l IH]; intros acc.
  - simpl. rewrite app_nil_r. destruct acc; reflexivity.
  - simpl fold_left. unfold PayrollService.processMonthlyEmployee at 2.
    rewrite service_processPayroll_throws, IH. simpl.
    rewrite <- app_assoc. reflexivity.
Qed.


(** * Mark-as-paid *)

Lemma find_by_id_NoDup (l : list Payroll.t) (p : Payroll.t) :
  NoDup (map Payroll.id l) -> In p l ->
  find (fun q => String.eqb (Payroll.id q) (Payroll.id p)) l = Some p.
Proof.
  induction l as [|a l IH]; intros Hnd Hin; [destruct Hin|].
  simpl in Hnd. inversion Hnd as [|x xs Hnotin Hnd']; subst.
  simpl. destruct Hin as [->|Hin].
  - rewrite String.eqb_refl. reflexivity.
  - destruct (String.eqb (Payroll.id a) (Payroll.id p)) eqn:E.
    + apply String.eqb_eq in E. exfalso. apply Hnotin. rewrite E.
      apply in_map. exact Hin.
    + apply IH; assumption.
Qed.

Lemma map_update_absent (f : Payroll.t -> Payroll.t) (id : string) (l : list Payroll.t) :
  ~ In id (map Payroll.id l) ->
  map (fun q => if String.eqb (Payroll.id q) id then f q else q) l = l.
Proof.
  induction l as [|a l IH]; intros Hnotin; [reflexivity|].
  simpl in *. destruct (String.eqb (Payroll.id a) id) eqn:E.
  - apply String.eqb_eq in E. tauto.
  - rewrite IH; [reflexivity | tauto].
Qed.

(** Under the primary key, an update by id rewrites one row in place. *)
Lemma map_update_NoDup (f : Payroll.t -> Payroll.t) (l : list Payroll.t) (p : Payroll.t) :
  NoDup (map Payroll.id l) -> In p l ->
  exists before after,
    l = before ++ p :: after /\
    map (fun q => if String.eqb (Payroll.id q) (Payroll.id p) then f q else q) l =
    before ++ f p :: after.
Proof.
  induction l as [|a l IH]; intros Hnd Hin; [destruct Hin|].
  simpl in Hnd. inversion Hnd as [|x xs Hnotin Hnd']; subst.
  destruct Hin as [->|Hin].
  - exists [], l. split; [reflexivity|]. simpl.
    rewrite String.eqb_refl, map_update_absent; auto.
  - destruct (IH Hnd' Hin) as (before & after & Hl & Hmap).
    exists (a :: before), after. split; [rewrite Hl at 1; reflexivity|].
    simpl. destruct (String.eqb (Payroll.id a) (Payroll.id p)) eqn:E.
    + apply String.eqb_eq in E. exfalso. apply Hnotin. rewrite E.
      apply in_map. exact Hin.
    + rewrite Hmap. reflexivity.
Qed.

Lemma find_by_id_absent (l : list Payroll.t) (id : string) :
  (forall p, In p l -> Payroll.id p <> id) ->
  find (fun q => String.eqb (Payroll.id q) id) l = None.
Proof.
  induction l as [|a l IH]; intros H; [reflexivity|].
  simpl. destruct (String.eqb (Payroll.id a) id) eqn:E.
  - apply String.eqb_eq in E. exfalso. exact (H a (or_introl eq_refl) E).
  - apply IH. intros p Hp. apply H. right; exact Hp.
Qed.

Lemma set_paid_paid_version now p : paid_version now p (Prisma.set_paid now p).
Proof. unfold paid_version. simpl. repeat split. Qed.

(** C6.  Single-record mark-as-paid, on a table whose ids are unique.  When
    no Payroll has the id the answer is 404 'Payroll record not found' and
    the store is unchanged; when the Payroll with the id is already PAID the
    answer is the client error 400 'Payroll already marked as paid' and the
    store is unchanged; when it is PENDING the answer is 200 and the table
    is the old one with that row replaced by its paid version: status PAID,
    paid timestamp the current time, every other field as before. *)
Theorem markPayrollAsPaid_outcomes :
  forall (now : Z) (db : Db) (id : string),
    NoDup (map Payroll.id (payrolls db)) ->
    ((forall p, In p (payrolls db) -> Payroll.id p <> id) ->
     PayrollController.markPayrollAsPaid now db id =
     (db, failure 404 "Payroll record not found")) /\
    (forall p, In p (payrolls db) -> Payroll.id p = id -> Payroll.status p = PAID ->
     PayrollController.markPayrollAsPaid now db id =
     (db, failure 400 "Payroll already marked as paid")) /\
    (forall p, In p (payrolls db) -> Payroll.id p = id -> Payroll.status p = PENDING ->
     exists before after db',
       payrolls db = before ++ p :: after /\
       db' = {| employees := employees db;
                payrolls := before ++ Prisma.set_paid now p :: after |} /\
       PayrollController.markPayrollAsPaid now db id =
       (db', ok 200 (Some "Payroll marked as paid"%string)
               (Prisma.include_employee db' (Prisma.set_paid now p))) /\
       paid_version now p (Prisma.set_paid now p)).
Proof.
  intros now db id Hnd. unfold PayrollController.markPayrollAsPaid,
    Prisma.payroll_findUnique.
  split; [|split].
  - intros Habsent. rewrite (find_by_id_absent _ _ Habsent). reflexivity.
  - intros p Hin <- Hpaid. rewrite (find_by_id_NoDup _ _ Hnd Hin), Hpaid.
    reflexivity.
  - intros p Hin <- Hpending.
    rewrite (find_by_id_NoDup _ _ Hnd Hin), Hpending. simpl.
    unfold Prisma.payroll_update_paid.
    rewrite (find_by_id_NoDup _ _ Hnd Hin).
    destruct (map_update_NoDup (Prisma.set_paid now) _ _ Hnd Hin)
      as (before & after & Hl & Hmap).
    exists before, after. eexists. split; [exact Hl|].
    split; [reflexivity|]. rewrite Hmap.
    split; [reflexivity | apply set_paid_paid_version].
Qed.

Lemma markPayrollAsPaid_outcomes_witness :
  exists before after db',
    payrolls sample_db_march = before ++ sarah_march :: after /\
    db' = {| employees := employees sample_db_march;
             payrolls := before ++ Prisma.set_paid noon sarah_march :: after |} /\
    PayrollController.markPayrollAsPaid noon sample_db_march "pay-0" =
    (db', ok 200 (Some "Payroll marked as paid"%string)
            (Prisma.include_employee db' (Prisma.set_paid noon sarah_march))) /\
    paid_version noon sarah_march (Prisma.set_paid noon sarah_march).
Proof.
  assert (Hnd : NoDup (map Payroll.id (payrolls sample_db_march))).
  { repeat constructor; simpl; intuition discriminate. }
  apply (proj2 (proj2 (markPayrollAsPaid_outcomes noon sample_db_march "pay-0" Hnd))
           sarah_march);
    [left; reflexivity | reflexivity | reflexivity].
Defined.

Lemma bulk_matches_targeted ids p :
  Prisma.payroll_matches
    {| Prisma.pw_id_in := Some ids; Prisma.pw_month := None;
       Prisma.pw_year := None; Prisma.pw_status := Some PENDING |} p = true <->
  targeted ids p.
Proof.
  unfold Prisma.payroll_matches, targeted. cbn -[existsb In].
  rewrite !andb_true_r, andb_true_iff, existsb_eqb_In, PayrollStatus_eqb_eq.
  reflexivity.
Qed.

Lemma updateMany_rows (matches : Payroll.t -> bool) now (l : list Payroll.t) :
  (forall p, matches p = true -> Payroll.status p = PENDING) ->
  Forall2 (fun p p' => (matches p = true -> p' = Prisma.set_paid now p) /\
                       (matches p <> true -> p' = p))
    l (map (fun p => if matches p then Prisma.set_paid now p else p) l) /\
  List.length (filter matches l) =
  List.length (filter transitioned
    (combine l (map (fun p => if matches p then Prisma.set_paid now p else p) l))).
Proof.
  intros Hpending. induction l as [|a l [IH1 IH2]]; [split; [constructor | reflexivity]|].
  split.
  - simpl. constructor; [|exact IH1].
    destruct (matches a); split; congruence.
  - simpl. destruct (matches a) eqn:E.
    + unfold transitioned at 1. simpl. rewrite (Hpending a E). simpl.
      rewrite IH2. reflexivity.
    + unfold transitioned at 1. simpl.
      destruct (Payroll.status a); simpl; exact IH2.
Qed.

(** C7.  Bulk mark-as-paid over a non-empty id list answers 200 with no
    error and only the count; the rows whose id is listed and whose status
    is PENDING become their paid versions with the one timestamp of the
    call, every other row (and so every listed id that is missing or already
    PAID) is left as it is, and the count is the number of rows that went
    from PENDING to PAID. *)
Theorem bulkMarkAsPaid_pending_only :
  forall (now : Z) (db : Db) (ids : list string),
    ids <> [] ->
    exists db' n,
      PayrollController.bulkMarkAsPaid now db (Some ids) =
      (db', {| statusCode := 200; success := true;
               message := Some (bulk_message n);
               data := Some {| BulkResult.updatedCount := n |};
               error := None |}) /\
      employees db' = employees db /\
      Forall2 (fun p p' => (targeted ids p -> p' = Prisma.set_paid now p) /\
                           (~ targeted ids p -> p' = p))
        (payrolls db) (payrolls db') /\
      n = Z.of_nat (List.length
            (filter transitioned (combine (payrolls db) (payrolls db')))).
Proof.
  intros now db ids Hne. unfold PayrollController.bulkMarkAsPaid.
  destruct ids as [|i ids]; [congruence|].
  cbn [List.length Z.of_nat Z.eqb]. unfold Prisma.payroll_updateMany_paid.
  set (w := {| Prisma.pw_id_in := Some (i :: ids); Prisma.pw_month := None;
               Prisma.pw_year := None; Prisma.pw_status := Some PENDING |}).
  destruct (updateMany_rows (Prisma.payroll_matches w) now (payrolls db))
    as [Hrows Hcount].
  { intros p Hp. apply bulk_matches_targeted in Hp. apply Hp. }
  eexists. eexists. split; [reflexivity|].
  split; [reflexivity|]. split.
  - simpl. eapply Forall2_impl; [|exact Hrows].
    intros p p' [H1 H2]. split; intros H.
    + apply H1. apply bulk_matches_targeted. exact H.
    + apply H2. intros Hm. apply H. apply bulk_matches_targeted. exact Hm.
  - simpl. rewrite Hcount. reflexivity.
Qed.

Lemma bulkMarkAsPaid_pending_only_witness :
  exists db' n,
    PayrollController.bulkMarkAsPaid noon sample_db_march
      (Some ["pay-0"; "no-such-id"]%string) =
    (db', {| statusCode := 200; success := true;
             message := Some (bulk_message n);
             data := Some {| BulkResult.updatedCount := n |};
             error := None |}) /\
    employees db' = employees sample_db_march /\
    Forall2 (fun p p' =>
               (targeted ["pay-0"; "no-such-id"]%string p -> p' = Prisma.set_paid noon p) /\
               (~ targeted ["pay-0"; "no-such-id"]%string p -> p' = p))
      (payrolls sample_db_march) (payrolls db') /\
    n = Z.of_nat (List.length
          (filter transitioned (combine (payrolls sample_db_march) (payrolls db')))).
Proof.
  apply (bulkMarkAsPaid_pending_only noon sample_db_march
           ["pay-0"; "no-such-id"]%string).
  discriminate.
Defined.

(** * Facts about the insertion-ordered Map *)

Section JsMapFacts.
Context {K V : Type} (eqb : K -> K -> bool).
Hypothesis eqb_refl : forall k, eqb k k = true.

Lemma JsMap_has_get m (k : K) :
  JsMap.has (V := V) eqb m k = true -> exists v, JsMap.get eqb m k = Some v.
Proof.
  induction m as [|[k' v'] m IH]; simpl; [discriminate|].
  destruct (eqb k' k); eauto.
Qed.

Lemma JsMap_set_absent m (k : K) (v : V) :
  JsMap.has eqb m k = false -> JsMap.set eqb m k v = m ++ [(k, v)].
Proof.
  induction m as [|[k' v'] m IH]; simpl; [reflexivity|].
  destruct (eqb k' k); [discriminate|]. intros H. rewrite (IH H). reflexivity.
Qed.

Lemma JsMap_get_new m (k : K) (v : V) :
  JsMap.has eqb m k = false -> JsMap.get eqb (m ++ [(k, v)]) k = Some v.
Proof.
  induction m as [|[k' v'] m IH]; simpl.
  - rewrite eqb_refl. reflexivity.
  - destruct (eqb k' k); [discriminate | exact IH].
Qed.

Lemma JsMap_set_new m (k : K) (v v' : V) :
  JsMap.has eqb m k = false ->
  JsMap.set eqb (m ++ [(k, v)]) k v' = m ++ [(k, v')].
Proof.
  induction m as [|[k' v0] m IH]; simpl.
  - rewrite eqb_refl. reflexivity.
  - destruct (eqb k' k); [discriminate|]. intros H. rewrite (IH H). reflexivity.
Qed.

(** Setting a key that is present replaces its value where it stands. *)
Lemma JsMap_set_present m (k : K) (v : V) :
  JsMap.get eqb m k = Some v ->
  exists m1 m2,
    JsMap.values m = m1 ++ v :: m2 /\
    forall v', JsMap.values (JsMap.set eqb m k v') = m1 ++ v' :: m2.
Proof.
  induction m as [|[k' v0] m IH]; simpl; [discriminate|].
  destruct (eqb k' k).
  - intros [= ->]. exists [], (JsMap.values m). split; reflexivity.
  - intros H. destruct (IH H) as (m1 & m2 & H1 & H2).
    exists (v0 :: m1), m2. unfold JsMap.values in *. simpl.
    rewrite H1. split; [reflexivity|]. intros v'. rewrite H2. reflexivity.
Qed.

(** The pattern of the report callbacks: [if (!map.has(k)) map.set(k, z)]
    followed by [map.get(k)] and a change of the object found.  The object
    is [z] at the end of the values for a new key, and the one in place for
    a key already there. *)
Lemma JsMap_upsert m (k : K) (z : V) :
  exists v m1 m2,
    JsMap.get eqb (if negb (JsMap.has eqb m k) then JsMap.set eqb m k z else m) k
      = Some v /\
    (JsMap.values m = m1 ++ v :: m2 \/ (v = z /\ JsMap.values m = m1 /\ m2 = [])) /\
    forall v',
      JsMap.values
        (JsMap.set eqb (if negb (JsMap.has eqb m k) then JsMap.set eqb m k z else m) k v')
      = m1 ++ v' :: m2.
Proof.
  destruct (JsMap.has eqb m k) eqn:Hhas; simpl negb; cbv iota.
  - destruct (JsMap_has_get _ _ Hhas) as [v Hget].
    destruct (JsMap_set_present m k v Hget) as (m1 & m2 & H1 & H2).
    exists v, m1, m2. auto.
  - rewrite (JsMap_set_absent _ _ z Hhas).
    exists z, (JsMap.values m), []. split; [apply JsMap_get_new; exact Hhas|].
    split; [right; auto|].
    intros v'. rewrite (JsMap_set_new _ _ _ _ Hhas).
    unfold JsMap.values. rewrite map_app. reflexivity.
Qed.

End JsMapFacts.

Lemma NoDup_snoc {A} (l : list A) (x : A) :
  NoDup l -> ~ In x l -> NoDup (l ++ [x]).
Proof.
  intros Hnd Hx. apply NoDup_app; [exact Hnd | repeat constructor; intros [] | ].
  intros a Ha [<-|[]]. exact (Hx Ha).
Qed.

(** * Maps built by grouping *)

Section JsMapTheory.
Context {K V : Type} (eqb : K -> K -> bool).
Hypothesis eqb_eq : forall a b, eqb a b = true <-> a = b.

Lemma JsMap_eqb_same k : eqb k k = true.
Proof. apply eqb_eq. reflexivity. Qed.

Lemma JsMap_eqb_other k k' : k' <> k -> eqb k k' = false.
Proof.
  intros H. destruct (eqb k k') eqn:E; [|reflexivity].
  apply eqb_eq in E. congruence.
Qed.

Lemma JsMap_get_set_same (m : JsMap.t K V) k v :
  JsMap.get eqb (JsMap.set eqb m k v) k = Some v.
Proof.
  induction m as [|[k' v'] m IH]; simpl.
  - rewrite JsMap_eqb_same. reflexivity.
  - destruct (eqb k' k) eqn:E; simpl; rewrite E; [reflexivity | exact IH].
Qed.

Lemma JsMap_get_set_other (m : JsMap.t K V) k k' v :
  k' <> k -> JsMap.get eqb (JsMap.set eqb m k v) k' = JsMap.get eqb m k'.
Proof.
  intros Hk. induction m as [|[k0 v0] m IH]; simpl.
  - rewrite (JsMap_eqb_other _ _ Hk). reflexivity.
  - destruct (eqb k0 k) eqn:E; simpl.
    + apply eqb_eq in E. subst k0. rewrite (JsMap_eqb_other _ _ Hk). reflexivity.
    + rewrite IH. reflexivity.
Qed.

Lemma JsMap_has_get_none (m : JsMap.t K V) k :
  JsMap.has eqb m k = false -> JsMap.get eqb m k = None.
Proof.
  induction m as [|[k' v'] m IH]; simpl; [reflexivity|].
  destruct (eqb k' k); [discriminate | exact IH].
Qed.

Lemma JsMap_has_get_some (m : JsMap.t K V) k :
  JsMap.has eqb m k = true -> exists v, JsMap.get eqb m k = Some v.
Proof.
  induction m as [|[k' v'] m IH]; simpl; [discriminate|].
  destruct (eqb k' k); eauto.
Qed.

Lemma JsMap_has_In (m : JsMap.t K V) k :
  JsMap.has eqb m k = true <-> In k (map fst m).
Proof.
  induction m as [|[k' v'] m IH]; simpl; [split; [discriminate | tauto]|].
  destruct (eqb k' k) eqn:E.
  - apply eqb_eq in E. tauto.
  - rewrite IH. split; [tauto|]. intros [H|H]; [|exact H].
    apply eqb_eq in H. congruence.
Qed.

Lemma JsMap_keys_set (m : JsMap.t K V) k v :
  map fst (JsMap.set eqb m k v) =
  if JsMap.has eqb m k then map fst m else map fst m ++ [k].
Proof.
  induction m as [|[k' v'] m IH]; simpl; [reflexivity|].
  destruct (eqb k' k) eqn:E; simpl; [reflexivity|].
  rewrite IH. destruct (JsMap.has eqb m k); reflexivity.
Qed.

Lemma JsMap_set_NoDup (m : JsMap.t K V) k v :
  NoDup (map fst m) -> NoDup (map fst (JsMap.set eqb m k v)).
Proof.
  intros H. rewrite JsMap_keys_set.
  destruct (JsMap.has eqb m k) eqn:E; [exact H|].
  apply NoDup_snoc; [exact H|].
  intros Hin. apply JsMap_has_In in Hin. congruence.
Qed.

Lemma JsMap_In_get (m : JsMap.t K V) k v :
  NoDup (map fst m) -> In (k, v) m -> JsMap.get eqb m k = Some v.
Proof.
  induction m as [|[k' v'] m IH]; simpl; intros Hnd Hin; [destruct Hin|].
  inversion Hnd as [|? ? Hnotin Hnd']; subst.
  destruct Hin as [[= -> ->] | Hin].
  - rewrite JsMap_eqb_same. reflexivity.
  - destruct (eqb k' k) eqn:E.
    + apply eqb_eq in E. subst k'. exfalso. apply Hnotin.
      apply in_map_iff. exists (k, v). auto.
    + apply IH; assumption.
Qed.

Lemma JsMap_In_set (m : JsMap.t K V) k0 v0 k v :
  In (k, v) (JsMap.set eqb m k0 v0) -> (k = k0 /\ v = v0) \/ In (k, v) m.
Proof.
  induction m as [|[k' v'] m IH]; simpl.
  - intros [[= <- <-] | []]. auto.
  - destruct (eqb k' k0) eqn:E; simpl.
    + apply eqb_eq in E. subst k'. intros [[= <- <-] | H]; auto.
    + intros [H | H]; [auto|]. destruct (IH H); auto.
Qed.

Lemma JsMap_get_In (m : JsMap.t K V) k v :
  JsMap.get eqb m k = Some v -> In (k, v) m.
Proof.
  induction m as [|[k' v'] m IH]; simpl; [discriminate|].
  destruct (eqb k' k) eqn:E.
  - apply eqb_eq in E. subst k'. intros [= ->]. auto.
  - auto.
Qed.

(** The pattern of the report callbacks, [if (!map.has(k)) map.set(k, z)]
    followed by [map.get(k)] and a change of the object found, finds the
    object in place or [z], and amounts to one [set]. *)
Lemma JsMap_upsert_get (m : JsMap.t K V) k z :
  JsMap.get eqb (if negb (JsMap.has eqb m k) then JsMap.set eqb m k z else m) k =
  Some (match JsMap.get eqb m k with Some v => v | None => z end).
Proof.
  destruct (JsMap.has eqb m k) eqn:Hhas; simpl negb; cbv iota.
  - destruct (JsMap_has_get_some _ _ Hhas) as [v ->]. reflexivity.
  - rewrite (JsMap_has_get_none _ _ Hhas). apply JsMap_get_set_same.
Qed.

Lemma JsMap_upsert_set (m : JsMap.t K V) k z v' :
  JsMap.set eqb (if negb (JsMap.has eqb m k) then JsMap.set eqb m k z else m) k v' =
  JsMap.set eqb m k v'.
Proof.
  destruct (JsMap.has eqb m k) eqn:Hhas; simpl negb; cbv iota; [reflexivity|].
  rewrite !(JsMap_set_absent eqb _ _ _ Hhas).
  apply (JsMap_set_new eqb JsMap_eqb_same). exact Hhas.
Qed.

Lemma JsMap_set_sum (g : V -> Z) (m : JsMap.t K V) k v :
  Zsum (map g (JsMap.values (JsMap.set eqb m k v))) =
  Zsum (map g (JsMap.values m)) -
  match JsMap.get eqb m k with Some v0 => g v0 | None => 0 end + g v.
Proof.
  unfold JsMap.values, Zsum.
  induction m as [|[k' v'] m IH]; simpl; [lia|].
  destruct (eqb k' k); simpl; [lia|]. rewrite IH. lia.
Qed.

Section GroupBy.
Context {A : Type} (key : A -> K) (upd : option V -> A -> V).
Variable body : JsMap.t K V -> A -> string + JsMap.t K V.
(** The rows on which the callback does not throw. *)
Variable valid : A -> Prop.
Hypothesis body_spec : forall tm a,
  valid a ->
  body tm a = inr (JsMap.set eqb tm (key a) (upd (JsMap.get eqb tm (key a)) a)).

Lemma group_by_run (rows : list A) : forall tm,
  Forall valid rows ->
  NoDup (map fst tm) ->
  exists tm',
    forEach body rows tm = inr tm' /\
    NoDup (map fst tm') /\
    (forall k, JsMap.get eqb tm' k = grouped eqb key upd k rows (JsMap.get eqb tm k)) /\
    (forall k, In k (map fst tm') <-> In k (map fst tm) \/ In k (map key rows)) /\
    (forall (g : V -> Z) (d : A -> Z),
      (forall v a, g (upd v a) = match v with Some v0 => g v0 | None => 0 end + d a) ->
      Zsum (map g (JsMap.values tm')) =
      Zsum (map g (JsMap.values tm)) + Zsum (map d rows)) /\
    forall (P : K -> V -> Prop),
      (forall v a, match v with Some v0 => P (key a) v0 | None => True end ->
                   P (key a) (upd v a)) ->
      (forall k v, In (k, v) tm -> P k v) ->
      forall k v, In (k, v) tm' -> P k v.
Proof.
  induction rows as [|a rows IH]; intros tm Hvalid Hnd.
  - exists tm. simpl. split; [reflexivity|]. split; [exact Hnd|].
    split; [reflexivity|]. split; [tauto|]. split; [intros; lia | auto].
  - inversion Hvalid as [|? ? Ha Hrows]; subst.
    cbn [forEach]. rewrite (body_spec _ _ Ha).
    set (tm1 := JsMap.set eqb tm (key a) (upd (JsMap.get eqb tm (key a)) a)).
    destruct (IH tm1 Hrows (JsMap_set_NoDup _ _ _ Hnd))
      as (tm' & Hrun & Hnd' & Hget & Hkeys & Hsum & Hinv).
    exists tm'. split; [exact Hrun|]. split; [exact Hnd'|]. split; [|split; [|split]].
    + intros k. rewrite Hget. unfold grouped. cbn [fold_left]. f_equal.
      destruct (eqb (key a) k) eqn:E.
      * apply eqb_eq in E. subst k. apply JsMap_get_set_same.
      * apply JsMap_get_set_other. intros ->. rewrite JsMap_eqb_same in E. discriminate.
    + intros k. rewrite Hkeys. unfold tm1. rewrite JsMap_keys_set. cbn [map In].
      destruct (JsMap.has eqb tm (key a)) eqn:E.
      * apply JsMap_has_In in E. split; [tauto|].
        intros [H | [<- | H]]; tauto.
      * rewrite in_app_iff. simpl. tauto.
    + intros g d Hg. rewrite (Hsum g d Hg). unfold tm1.
      rewrite JsMap_set_sum, Hg. cbn [map].
      change (Zsum (d a :: map d rows)) with (d a + Zsum (map d rows)).
      destruct (JsMap.get eqb tm (key a)); lia.
    + intros P Hstep Htm. apply Hinv; [exact Hstep|].
      intros k v Hin. unfold tm1 in Hin. apply JsMap_In_set in Hin.
      destruct Hin as [[-> ->] | Hin]; [|apply Htm; exact Hin].
      apply Hstep. destruct (JsMap.get eqb tm (key a)) as [v0|] eqn:G; [|exact I].
      apply Htm. apply JsMap_get_In. exact G.
Qed.

End GroupBy.
End JsMapTheory.

(** One column of a group: what the callback does to it on every row of
    the group, from the first row of the group on. *)
Lemma grouped_column {A K V R : Type} (eqb : K -> K -> bool) (key : A -> K)
    (upd : option V -> A -> V) (g : V -> R) (step : R -> A -> R) (r0 : R) :
  (forall v a, g (upd v a) = step (match v with Some v0 => g v0 | None => r0 end) a) ->
  forall k rows v0 v,
    grouped eqb key upd k rows v0 = Some v ->
    g v = fold_left step (filter (fun a => eqb (key a) k) rows)
            (match v0 with Some x => g x | None => r0 end).
Proof.
  intros Hg k rows. unfold grouped.
  induction rows as [|a rows IH]; intros v0 v H; cbn [fold_left filter] in *.
  - subst v0. reflexivity.
  - destruct (eqb (key a) k).
    + rewrite (IH _ _ H). cbn [fold_left]. rewrite Hg. reflexivity.
    + exact (IH _ _ H).
Qed.

(** A group exists only for a key that some row has. *)
Lemma grouped_from_none {A K V : Type} (eqb : K -> K -> bool) (key : A -> K)
    (upd : option V -> A -> V) k rows v :
  grouped eqb key upd k rows None = Some v ->
  filter (fun a => eqb (key a) k) rows <> [].
Proof.
  unfold grouped.
  induction rows as [|a rows IH]; cbn [fold_left filter]; [discriminate|].
  destruct (eqb (key a) k); [discriminate | exact IH].
Qed.

Lemma fold_left_count {A : Type} (l : list A) : forall c,
  fold_left (fun n _ => n + 1) l c = c + Z.of_nat (List.length l).
Proof.
  induction l as [|a l IH]; intros c; cbn [fold_left List.length]; [lia|].
  rewrite IH. lia.
Qed.

Lemma fold_left_map {A B R : Type} (f : R -> B -> R) (d : A -> B) (l : list A) : forall r,
  fold_left (fun acc a => f acc (d a)) l r = fold_left f (map d l) r.
Proof. induction l as [|a l IH]; intros r; simpl; [reflexivity | apply IH]. Qed.

Lemma EmployeeType_eqb_eq a b : EmployeeType_eqb a b = true <-> a = b.
Proof. destruct a, b; simpl; split; congruence. Qed.

Lemma string_eqb_eq (a b : string) : String.eqb a b = true <-> a = b.
Proof. apply String.eqb_eq. Qed.

(** * Facts about the reports *)

Lemma EmployeeType_eqb_refl t : EmployeeType_eqb t t = true.
Proof. destruct t; reflexivity. Qed.

Lemma Zsum_app l l' : Zsum (l ++ l') = Zsum l + Zsum l'.
Proof. induction l as [|a l IH]; simpl; [reflexivity | rewrite IH; lia]. Qed.

Lemma forEach_app {A S} (body : S -> A -> string + S) l l' s :
  forEach body (l ++ l') s =
  match forEach body l s with
  | inl err => inl err
  | inr s' => forEach body l' s'
  end.
Proof.
  revert s. induction l as [|a l IH]; intros s; simpl; [reflexivity|].
  destruct (body s a); [reflexivity | apply IH].
Qed.

Lemma map_payroll_include db l :
  map payroll (map (Prisma.include_employee db) l) = l.
Proof. rewrite map_map. simpl. apply map_id. Qed.

Lemma Zsum_ones {A} (l : list A) : Zsum (map (fun _ => 1) l) = Z.of_nat (List.length l).
Proof.
  induction l as [|a l IH]; [reflexivity|].
  cbn [map Zsum fold_right List.length]. fold (Zsum (map (fun _ : A => 1) l)).
  rewrite IH. lia.
Qed.

(** The records of a period all carry their employee when the foreign key
    from Payroll to Employee holds for them. *)
Lemma period_records_valid db m y :
  period_has_employees db m y ->
  Forall (fun row => employee row <> None) (period_records db m y).
Proof.
  intros Hfk. apply Forall_forall. intros row Hin.
  apply in_map_iff in Hin. destruct Hin as (p & <- & Hp).
  exact (Hfk p Hp).
Qed.

Lemma findMany_with_employee_fits db m y :
  Int4.fits m = true -> Int4.fits y = true ->
  ReportController.findMany_with_employee db (ReportController.period_where m y) =
  inr (period_records db m y).
Proof.
  intros Hm Hy. unfold ReportController.findMany_with_employee.
  rewrite (findMany_period_fits _ _ _ Hm Hy). reflexivity.
Qed.

Lemma findMany_with_employee_overflow db m y err :
  Prisma.period_error (Some m) (Some y) = Some err ->
  ReportController.findMany_with_employee db (ReportController.period_where m y) =
  inl err.
Proof.
  intros H. unfold ReportController.findMany_with_employee, Prisma.payroll_findMany.
  cbn [ReportController.period_where Prisma.pw_month Prisma.pw_year].
  rewrite H. reflexivity.
Qed.

(** On a record with its employee the callback of the report by type is one
    [set] of the group of the employee's type. *)
Lemma byType_sets tm row :
  employee row <> None ->
  ReportController.byType tm row =
  inr (JsMap.set EmployeeType_eqb tm (type_key row)
         (type_data_after (JsMap.get EmployeeType_eqb tm (type_key row)) row)).
Proof.
  intros Hemp. unfold ReportController.byType, type_data_after, type_key.
  destruct (employee row) as [emp|]; [|congruence]. cbv zeta.
  rewrite (JsMap_upsert_get EmployeeType_eqb EmployeeType_eqb_eq),
          (JsMap_upsert_set EmployeeType_eqb EmployeeType_eqb_eq).
  reflexivity.
Qed.

Lemma byDesignation_sets dm row :
  employee row <> None ->
  ReportController.byDesignation dm row =
  inr (JsMap.set String.eqb dm (designation_key row)
         (desig_data_after (JsMap.get String.eqb dm (designation_key row)) row)).
Proof.
  intros Hemp. unfold ReportController.byDesignation, desig_data_after, designation_key.
  destruct (employee row) as [emp|]; [|congruence]. cbv zeta.
  rewrite (JsMap_upsert_get String.eqb string_eqb_eq),
          (JsMap_upsert_set String.eqb string_eqb_eq).
  reflexivity.
Qed.

Lemma filter_type_key rows k :
  Forall (fun row => employee row <> None) rows ->
  filter (fun row => EmployeeType_eqb (type_key row) k) rows = filter (has_type k) rows.
Proof.
  intros Hvalid. apply filter_ext_in. intros row Hin.
  rewrite Forall_forall in Hvalid. specialize (Hvalid row Hin).
  unfold type_key, has_type. destruct (employee row); [reflexivity | congruence].
Qed.

Lemma filter_designation_key rows k :
  Forall (fun row => employee row <> None) rows ->
  filter (fun row => String.eqb (designation_key row) k) rows =
  filter (has_designation k) rows.
Proof.
  intros Hvalid. apply filter_ext_in. intros row Hin.
  rewrite Forall_forall in Hvalid. specialize (Hvalid row Hin).
  unfold designation_key, has_designation.
  destruct (employee row); [reflexivity | congruence].
Qed.

(** A running total of a group: the column of the group's records added up
    from 0 in the order they are read. *)
Lemma running_total {A : Type} (d : A -> float) (l : list A) :
  fold_left (fun sum a => (sum + d a)%float) l 0%float = running_sum (map d l).
Proof. unfold running_sum. apply (fold_left_map PrimFloat.add d l). Qed.

Lemma length_filter_pos {A : Type} (f : A -> bool) (l : list A) :
  filter f l <> [] -> 1 <= Z.of_nat (List.length (filter f l)).
Proof. destruct (filter f l); [congruence | simpl; lia]. Qed.

(** The salary report by type for a month and year that fit the INTEGER
    columns and records that all refer to an employee: the answer and its
    groups. *)
Lemma type_report_groups :
  forall (db : Db) (m y : Z),
    Int4.fits m = true -> Int4.fits y = true ->
    period_has_employees db m y ->
    exists groups,
      ReportController.getSalaryReportByType db (Some m) (Some y) =
      ok 200 None {| ReportController.Report.period := (m, y);
                     ReportController.Report.report := groups |} /\
      NoDup (map ReportController.TypeData.employeeType groups) /\
      Zsum (map ReportController.TypeData.count groups) =
        Z.of_nat (List.length (period_records db m y)) /\
      Forall (fun g =>
                let members :=
                  filter (has_type (ReportController.TypeData.employeeType g))
                         (period_records db m y) in
                ReportController.TypeData.count g = Z.of_nat (List.length members) /\
                1 <= ReportController.TypeData.count g /\
                ReportController.TypeData.totalNetSalary g =
                  running_sum (map (fun r => Payroll.netSalary (payroll r)) members) /\
                ReportController.TypeData.totalGrossSalary g =
                  running_sum (map (fun r => Payroll.grossSalary (payroll r)) members) /\
                ReportController.TypeData.totalBasicSalary g =
                  running_sum (map (fun r => Payroll.basicSalary (payroll r)) members) /\
                ReportController.TypeData.totalAllowances g =
                  running_sum (map (fun r => allowances_of (payroll r)) members) /\
                ReportController.TypeData.totalDeductions g =
                  running_sum (map (fun r => deductions_of (payroll r)) members))
             groups.
Proof.
  intros db m y Hm Hy Hfk.
  unfold ReportController.getSalaryReportByType.
  rewrite (findMany_with_employee_fits _ _ _ Hm Hy).
  pose proof (period_records_valid db m y Hfk) as Hvalid.
  set (records := period_records db m y) in *.
  destruct (group_by_run EmployeeType_eqb EmployeeType_eqb_eq
              type_key type_data_after ReportController.byType
              (fun row => employee row <> None) byType_sets
              records [] Hvalid (NoDup_nil _))
    as (tm & -> & Hnd & Hget & Hkeys & Hsum & Hinv).
  assert (Hkey : forall k v, In (k, v) tm -> ReportController.TypeData.employeeType v = k).
  { apply (Hinv (fun k v => ReportController.TypeData.employeeType v = k)).
    - intros [v0|] a H; simpl; [exact H | reflexivity].
    - intros k v []. }
  assert (Hk : map ReportController.TypeData.employeeType (JsMap.values tm) = map fst tm).
  { unfold JsMap.values. rewrite map_map. apply map_ext_in.
    intros [k v] Hin. simpl. apply Hkey. exact Hin. }
  eexists. split; [reflexivity|].
  rewrite Hk. split; [exact Hnd|]. split.
  { rewrite (Hsum ReportController.TypeData.count (fun _ => 1)).
    - simpl. apply Zsum_ones.
    - intros [v|] a; reflexivity. }
  apply Forall_forall. intros g Hg.
  unfold JsMap.values in Hg. apply in_map_iff in Hg.
  destruct Hg as ([k v] & <- & Hin). cbn [snd].
  rewrite (Hkey k v Hin).
  pose proof (JsMap_In_get EmployeeType_eqb EmployeeType_eqb_eq tm k v Hnd Hin) as Hv.
  rewrite Hget in Hv. cbn [JsMap.get] in Hv.
  pose proof (grouped_from_none _ _ _ _ _ _ Hv) as Hne.
  rewrite (filter_type_key _ _ Hvalid) in Hne.
  cbv zeta.
  assert (Hcount : ReportController.TypeData.count v =
                   Z.of_nat (List.length (filter (has_type k) records))).
  { rewrite (grouped_column EmployeeType_eqb type_key type_data_after
               ReportController.TypeData.count (fun c _ => c + 1) 0
               (fun v0 a => match v0 with Some _ => eq_refl | None => eq_refl end)
               k records None v Hv).
    rewrite fold_left_count, (filter_type_key _ _ Hvalid). lia. }
  split; [exact Hcount|].
  split; [rewrite Hcount; apply length_filter_pos; exact Hne|].
  repeat split.
  - rewrite (grouped_column EmployeeType_eqb type_key type_data_after
               ReportController.TypeData.totalNetSalary
               (fun sum a => (sum + Payroll.netSalary (payroll a))%float) 0%float
               (fun v0 a => match v0 with Some _ => eq_refl | None => eq_refl end)
               k records None v Hv).
    rewrite (filter_type_key _ _ Hvalid). apply running_total.
  - rewrite (grouped_column EmployeeType_eqb type_key type_data_after
               ReportController.TypeData.totalGrossSalary
               (fun sum a => (sum + Payroll.grossSalary (payroll a))%float) 0%float
               (fun v0 a => match v0 with Some _ => eq_refl | None => eq_refl end)
               k records None v Hv).
    rewrite (filter_type_key _ _ Hvalid). apply running_total.
  - rewrite (grouped_column EmployeeType_eqb type_key type_data_after
               ReportController.TypeData.totalBasicSalary
               (fun sum a => (sum + Payroll.basicSalary (payroll a))%float) 0%float
               (fun v0 a => match v0 with Some _ => eq_refl | None => eq_refl end)
               k records None v Hv).
    rewrite (filter_type_key _ _ Hvalid). apply running_total.
  - rewrite (grouped_column EmployeeType_eqb type_key type_data_after
               ReportController.TypeData.totalAllowances
               (fun sum a => (sum + allowances_of (payroll a))%float) 0%float
               (fun v0 a => match v0 with Some _ => eq_refl | None => eq_refl end)
               k records None v Hv).
    rewrite (filter_type_key _ _ Hvalid). apply running_total.
  - rewrite (grouped_column EmployeeType_eqb type_key type_data_after
               ReportController.TypeData.totalDeductions
               (fun sum a => (sum + deductions_of (payroll a))%float) 0%float
               (fun v0 a => match v0 with Some _ => eq_refl | None => eq_refl end)
               k records None v Hv).
    rewrite (filter_type_key _ _ Hvalid). apply running_total.
Qed.


(** A loop that ends without exception met no element its body throws
    on. *)
Lemma forEach_inr_Forall {A S : Type} (valid : A -> Prop) (body : S -> A -> string + S) :
  (forall s a s', body s a = inr s' -> valid a) ->
  forall l s s', forEach body l s = inr s' -> Forall valid l.
Proof.
  intros Hbody. induction l as [|a l IH]; intros s s' H; [constructor|].
  simpl in H. destruct (body s a) as [err|s1] eqn:E; [discriminate|].
  constructor; [exact (Hbody s a s1 E) | exact (IH s1 s' H)].
Qed.

Lemma included_rows_valid db rows :
  Forall (fun row => employee row <> None) (map (Prisma.include_employee db) rows) ->
  forall p, In p rows -> Prisma.employee_findUnique db (Payroll.employeeId p) <> None.
Proof.
  intros H p Hp. rewrite Forall_forall in H.
  exact (H (Prisma.include_employee db p) (in_map _ _ _ Hp)).
Qed.

(** The salary report by type is answered only for a month and year that
    fit and records that all refer to an employee. *)
Lemma type_report_answered db m y rep :
  ReportController.getSalaryReportByType db (Some m) (Some y) = ok 200 None rep ->
  Int4.fits m = true /\ Int4.fits y = true /\ period_has_employees db m y.
Proof.
  unfold ReportController.getSalaryReportByType, ReportController.findMany_with_employee,
    Prisma.payroll_findMany.
  cbn [ReportController.period_where Prisma.pw_month Prisma.pw_year].
  destruct (Prisma.period_error (Some m) (Some y)) eqn:Herr; [discriminate|].
  destruct (period_error_None m y Herr) as [Hm Hy].
  destruct (forEach ReportController.byType _ []) as [err|tm] eqn:Hrun; [discriminate|].
  intros _. split; [exact Hm|]. split; [exact Hy|].
  unfold period_has_employees.
  apply (included_rows_valid db
           (Prisma.payroll_rows db (ReportController.period_where m y))).
  apply (forEach_inr_Forall (fun row => employee row <> None) ReportController.byType)
    with (s := []) (s' := tm); [|exact Hrun].
  intros s a s' E Hnone. unfold ReportController.byType in E.
  rewrite Hnone in E. discriminate.
Qed.

Lemma designation_report_answered db m y rep :
  ReportController.getDesignationReport db (Some m) (Some y) = ok 200 None rep ->
  Int4.fits m = true /\ Int4.fits y = true /\ period_has_employees db m y.
Proof.
  unfold ReportController.getDesignationReport, ReportController.findMany_with_employee,
    Prisma.payroll_findMany.
  cbn [ReportController.period_where Prisma.pw_month Prisma.pw_year].
  destruct (Prisma.period_error (Some m) (Some y)) eqn:Herr; [discriminate|].
  destruct (period_error_None m y Herr) as [Hm Hy].
  destruct (forEach ReportController.byDesignation _ []) as [err|dm] eqn:Hrun;
    [discriminate|].
  intros _. split; [exact Hm|]. split; [exact Hy|].
  unfold period_has_employees.
  apply (included_rows_valid db
           (Prisma.payroll_rows db (ReportController.period_where m y))).
  apply (forEach_inr_Forall (fun row => employee row <> None)
           ReportController.byDesignation) with (s := []) (s' := dm); [|exact Hrun].
  intros s a s' E Hnone. unfold ReportController.byDesignation in E.
  rewrite Hnone in E. discriminate.
Qed.

(** C5.  The salary report by employee type is answered, with status 200,
    for a month and year that fit the INTEGER columns and records that all
    refer to an employee.  Whenever it is answered, its groups reconcile
    with the records of the period as follows.  There is one group per
    employee type; the counts of the groups add up to the number of
    records; a group's count is the number of records of its type, at
    least 1, and each of its totals is the column added up over the
    records of its type from 0, in the order the records are read, every
    addition rounded to binary64. *)
Theorem salary_report_totals_reconcile :
  forall (db : Db) (m y : Z),
    (Int4.fits m = true -> Int4.fits y = true -> period_has_employees db m y ->
     exists rep,
       ReportController.getSalaryReportByType db (Some m) (Some y) = ok 200 None rep) /\
    (forall rep,
       ReportController.getSalaryReportByType db (Some m) (Some y) = ok 200 None rep ->
       let groups := ReportController.Report.report rep in
       ReportController.Report.period rep = (m, y) /\
       NoDup (map ReportController.TypeData.employeeType groups) /\
       Zsum (map ReportController.TypeData.count groups) =
         Z.of_nat (List.length (period_records db m y)) /\
       Forall (fun g =>
                 let members :=
                   filter (has_type (ReportController.TypeData.employeeType g))
                          (period_records db m y) in
                 ReportController.TypeData.count g = Z.of_nat (List.length members) /\
                 1 <= ReportController.TypeData.count g /\
                 ReportController.TypeData.totalNetSalary g =
                   running_sum (map (fun r => Payroll.netSalary (payroll r)) members) /\
                 ReportController.TypeData.totalGrossSalary g =
                   running_sum (map (fun r => Payroll.grossSalary (payroll r)) members) /\
                 ReportController.TypeData.totalBasicSalary g =
                   running_sum (map (fun r => Payroll.basicSalary (payroll r)) members) /\
                 ReportController.TypeData.totalAllowances g =
                   running_sum (map (fun r => allowances_of (payroll r)) members) /\
                 ReportController.TypeData.totalDeductions g =
                   running_sum (map (fun r => deductions_of (payroll r)) members))
              groups).
Proof.
  intros db m y. split.
  - intros Hm Hy Hfk.
    destruct (type_report_groups db m y Hm Hy Hfk) as (groups & Hrep & _).
    eexists. exact Hrep.
  - intros rep Hrep.
    destruct (type_report_answered db m y rep Hrep) as (Hm & Hy & Hfk).
    destruct (type_report_groups db m y Hm Hy Hfk) as (groups & Hgroups & Hnd & Hsum & Hall).
    rewrite Hgroups in Hrep.
    apply (f_equal data) in Hrep. cbn [data ok] in Hrep.
    injection Hrep as <-.
    cbv zeta. cbn [ReportController.Report.period ReportController.Report.report].
    split; [reflexivity|]. split; [exact Hnd|]. split; [exact Hsum | exact Hall].
Qed.

(** C5, as the claim states it, fails: the totals are binary64 sums, and
    grouping changes how they are rounded.  After March 2025 was processed
    for two teachers with net salaries 45000.55 and 25000.1 and, between
    them, a staff member with net salary 30000.3, the groups' totals are
    70000.65 and 30000.3 and add up to 100000.95, while the net salaries of
    the three records, added up as they are read, give
    100000.95000000001. *)
Lemma group_totals_do_not_add_up :
  exists groups,
    ReportController.getSalaryReportByType fraction_db_march (Some 3) (Some 2025) =
    ok 200 None {| ReportController.Report.period := (3, 2025);
                   ReportController.Report.report := groups |} /\
    map (fun r => Payroll.netSalary (payroll r)) (period_records fraction_db_march 3 2025) =
      [45000.55%float; 30000.3%float; 25000.1%float] /\
    map (fun g => (ReportController.TypeData.employeeType g,
                   ReportController.TypeData.totalNetSalary g)) groups =
      [(TEACHER, 70000.65%float); (STAFF, 30000.3%float)] /\
    running_sum (map ReportController.TypeData.totalNetSalary groups) =
      100000.95%float /\
    running_sum (map (fun r => Payroll.netSalary (payroll r))
                     (period_records fraction_db_march 3 2025)) =
      100000.95000000001%float /\
    running_sum (map ReportController.TypeData.totalNetSalary groups) <>
    running_sum (map (fun r => Payroll.netSalary (payroll r))
                     (period_records fraction_db_march 3 2025)).
Proof.
  eexists. split; [reflexivity|].
  split; [reflexivity|]. split; [reflexivity|].
  split; [reflexivity|]. split; [reflexivity|].
  intros H. apply (f_equal (fun x => PrimFloat.eqb x 100000.95)) in H.
  vm_compute in H. discriminate.
Qed.

Lemma salary_report_totals_reconcile_witness :
  exists rep,
    ReportController.getSalaryReportByType sample_db_march (Some 3) (Some 2025) =
    ok 200 None rep.
Proof.
  apply (salary_report_totals_reconcile sample_db_march 3 2025);
    [reflexivity | reflexivity |].
  intros p [<- | [<- | []]]; discriminate.
Defined.

(** The designation report for a month and year that fit the INTEGER
    columns and records that all refer to an employee: the answer and its
    groups. *)
Lemma designation_report_groups :
  forall (db : Db) (m y : Z),
    Int4.fits m = true -> Int4.fits y = true ->
    period_has_employees db m y ->
    exists groups,
      ReportController.getDesignationReport db (Some m) (Some y) =
      ok 200 None {| ReportController.Report.period := (m, y);
                     ReportController.Report.report := groups |} /\
      NoDup (map ReportController.DesigData.designation groups) /\
      Forall (fun item =>
                let members :=
                  filter (has_designation (ReportController.DesigData.designation item))
                         (period_records db m y) in
                members <> [] /\
                1 <= ReportController.DesigData.count item /\
                ReportController.DesigData.count item = Z.of_nat (List.length members) /\
                ReportController.DesigData.totalNetSalary item =
                  running_sum (map (fun r => Payroll.netSalary (payroll r)) members) /\
                ReportController.DesigData.averageSalary item =
                  (ReportController.DesigData.totalNetSalary item /
                   number_of_count (ReportController.DesigData.count item))%float)
             groups.
Proof.
  intros db m y Hm Hy Hfk.
  unfold ReportController.getDesignationReport.
  rewrite (findMany_with_employee_fits _ _ _ Hm Hy).
  pose proof (period_records_valid db m y Hfk) as Hvalid.
  set (records := period_records db m y) in *.
  destruct (group_by_run String.eqb string_eqb_eq
              designation_key desig_data_after ReportController.byDesignation
              (fun row => employee row <> None) byDesignation_sets
              records [] Hvalid (NoDup_nil _))
    as (dm & -> & Hnd & Hget & Hkeys & Hsum & Hinv).
  assert (Hkey : forall k v, In (k, v) dm -> ReportController.DesigData.designation v = k).
  { apply (Hinv (fun k v => ReportController.DesigData.designation v = k)).
    - intros [v0|] a H; simpl; [exact H | reflexivity].
    - intros k v []. }
  eexists. split; [reflexivity|]. split.
  { rewrite map_map. cbn [ReportController.withAverage ReportController.DesigData.designation].
    replace (map (fun x => ReportController.DesigData.designation x) (JsMap.values dm))
      with (map fst dm); [exact Hnd|].
    unfold JsMap.values. rewrite map_map. apply map_ext_in.
    intros [k v] Hin. simpl. symmetry. apply Hkey. exact Hin. }
  apply Forall_map. apply Forall_forall. intros g Hg.
  unfold JsMap.values in Hg. apply in_map_iff in Hg.
  destruct Hg as ([k v] & <- & Hin).
  cbn [snd ReportController.withAverage ReportController.DesigData.designation
       ReportController.DesigData.count ReportController.DesigData.totalNetSalary
       ReportController.DesigData.averageSalary].
  rewrite (Hkey k v Hin).
  pose proof (JsMap_In_get String.eqb string_eqb_eq dm k v Hnd Hin) as Hv.
  rewrite Hget in Hv. cbn [JsMap.get] in Hv.
  pose proof (grouped_from_none _ _ _ _ _ _ Hv) as Hne.
  rewrite (filter_designation_key _ _ Hvalid) in Hne.
  cbv zeta.
  assert (Hcount : ReportController.DesigData.count v =
                   Z.of_nat (List.length (filter (has_designation k) records))).
  { rewrite (grouped_column String.eqb designation_key desig_data_after
               ReportController.DesigData.count (fun c _ => c + 1) 0
               (fun v0 a => match v0 with Some _ => eq_refl | None => eq_refl end)
               k records None v Hv).
    rewrite fold_left_count, (filter_designation_key _ _ Hvalid). lia. }
  split; [exact Hne|].
  split; [rewrite Hcount; apply length_filter_pos; exact Hne|].
  split; [exact Hcount|].
  split; [|reflexivity].
  rewrite (grouped_column String.eqb designation_key desig_data_after
             ReportController.DesigData.totalNetSalary
             (fun sum a => (sum + Payroll.netSalary (payroll a))%float) 0%float
             (fun v0 a => match v0 with Some _ => eq_refl | None => eq_refl end)
             k records None v Hv).
  rewrite (filter_designation_key _ _ Hvalid). apply running_total.
Qed.

(** C9.  The designation report is answered, with status 200, for a month
    and year that fit the INTEGER columns and records that all refer to an
    employee.  Whenever it is answered, there is one group per designation
    and every group of the output has count >= 1: its count is the number
    of records of the period with its designation, of which there is at
    least one.  Its totalNetSalary is their netSalary added up from 0 in
    the order they are read, and its averageSalary is the binary64 quotient
    of that total by the count, a division that is never by zero. *)
Theorem designation_groups_have_records :
  forall (db : Db) (m y : Z),
    (Int4.fits m = true -> Int4.fits y = true -> period_has_employees db m y ->
     exists rep,
       ReportController.getDesignationReport db (Some m) (Some y) = ok 200 None rep) /\
    (forall rep,
       ReportController.getDesignationReport db (Some m) (Some y) = ok 200 None rep ->
       let groups := ReportController.Report.report rep in
       ReportController.Report.period rep = (m, y) /\
       NoDup (map ReportController.DesigData.designation groups) /\
       Forall (fun item =>
                 let members :=
                   filter (has_designation (ReportController.DesigData.designation item))
                          (period_records db m y) in
                 members <> [] /\
                 1 <= ReportController.DesigData.count item /\
                 ReportController.DesigData.count item = Z.of_nat (List.length members) /\
                 ReportController.DesigData.totalNetSalary item =
                   running_sum (map (fun r => Payroll.netSalary (payroll r)) members) /\
                 ReportController.DesigData.averageSalary item =
                   (ReportController.DesigData.totalNetSalary item /
                    number_of_count (ReportController.DesigData.count item))%float)
              groups).
Proof.
  intros db m y. split.
  - intros Hm Hy Hfk.
    destruct (designation_report_groups db m y Hm Hy Hfk) as (groups & Hrep & _).
    eexists. exact Hrep.
  - intros rep Hrep.
    destruct (designation_report_answered db m y rep Hrep) as (Hm & Hy & Hfk).
    destruct (designation_report_groups db m y Hm Hy Hfk) as (groups & Hgroups & Hnd & Hall).
    rewrite Hgroups in Hrep.
    apply (f_equal data) in Hrep. cbn [data ok] in Hrep.
    injection Hrep as <-.
    cbv zeta. cbn [ReportController.Report.period ReportController.Report.report].
    split; [reflexivity|]. split; [exact Hnd | exact Hall].
Qed.

Lemma designation_groups_have_records_witness :
  exists rep,
    ReportController.getDesignationReport lecturers_db_march (Some 3) (Some 2025) =
    ok 200 None rep.
Proof.
  apply (designation_groups_have_records lecturers_db_march 3 2025);
    [reflexivity | reflexivity |].
  intros p [<- | [<- | [<- | []]]]; discriminate.
Defined.

(** The designation report of three lecturers whose net salaries add up to
    100000: one group with count 3 and the average 33333.333333333336. *)
Lemma designation_average_sample :
  ReportController.getDesignationReport lecturers_db_march (Some 3) (Some 2025) =
  ok 200 None
    {| ReportController.Report.period := (3, 2025);
       ReportController.Report.report :=
         [ {| ReportController.DesigData.designation := "Lecturer";
              ReportController.DesigData.count := 3;
              ReportController.DesigData.totalBasicSalary := 100000;
              ReportController.DesigData.totalGrossSalary := 100000;
              ReportController.DesigData.totalNetSalary := 100000;
              ReportController.DesigData.averageSalary := 33333.333333333336 |} ] |}.
Proof. reflexivity. Qed.

(** * The monthly summary *)

Lemma month_entry_fits db year month :
  Int4.fits month = true -> Int4.fits year = true ->
  ReportsController.month_entry db year month = inr (month_figures db year month).
Proof.
  intros Hm Hy. unfold ReportsController.month_entry.
  change {| Prisma.pw_id_in := None; Prisma.pw_month := Some month;
            Prisma.pw_year := Some year; Prisma.pw_status := None |}
    with (ReportController.period_where month year).
  rewrite (findMany_period_fits _ _ _ Hm Hy).
  unfold month_figures, running_sum.
  rewrite <- !fold_left_map. reflexivity.
Qed.

Lemma monthLoop_step db year month monthlyData :
  1 <= month <= 12 -> Int4.fits year = true ->
  ReportsController.monthLoop db year month monthlyData =
  ReportsController.monthLoop db year (month + 1)
    (monthlyData ++ [month_figures db year month]).
Proof.
  intros Hmonth Hy. rewrite ReportsController.monthLoop_equation.
  destruct (Z.leb_spec month 12) as [_|H]; [|lia].
  rewrite month_entry_fits; [reflexivity | apply fits_iff; lia | exact Hy].
Qed.

Lemma monthLoop_unrolled db year :
  Int4.fits year = true ->
  ReportsController.monthLoop db year 1 [] =
  inr (map (month_figures db year) [1; 2; 3; 4; 5; 6; 7; 8; 9; 10; 11; 12]).
Proof.
  intros Hy.
  rewrite (monthLoop_step db year 1), (monthLoop_step db year (1 + 1)),
    (monthLoop_step db year (1 + 1 + 1)), (monthLoop_step db year (1 + 1 + 1 + 1)),
    (monthLoop_step db year 5), (monthLoop_step db year (5 + 1)),
    (monthLoop_step db year (5 + 1 + 1)), (monthLoop_step db year (5 + 1 + 1 + 1)),
    (monthLoop_step db year 9), (monthLoop_step db year (9 + 1)),
    (monthLoop_step db year (9 + 1 + 1)), (monthLoop_step db year (9 + 1 + 1 + 1));
    try assumption; try lia.
  rewrite ReportsController.monthLoop_equation. reflexivity.
Qed.

(** A year that does not fit: the first query of the loop throws. *)
Lemma monthLoop_overflow db year :
  Int4.fits year = false ->
  ReportsController.monthLoop db year 1 [] = inl (Prisma.int4_overflow year).
Proof.
  intros Hy. rewrite ReportsController.monthLoop_equation.
  unfold ReportsController.month_entry, Prisma.payroll_findMany, Prisma.period_error.
  cbn [Prisma.pw_month Prisma.pw_year]. rewrite Hy. reflexivity.
Qed.

Lemma filter_none {A} (f : A -> bool) (l : list A) :
  (forall a, In a l -> f a = false) -> filter f l = [].
Proof.
  induction l as [|a l IH]; intros H; [reflexivity|].
  simpl. rewrite (H a (or_introl eq_refl)). apply IH.
  intros b Hb. apply H. right; exact Hb.
Qed.

Lemma period_rows_none db year month :
  (forall p, In p (payrolls db) ->
             ~ (Payroll.month p = month /\ Payroll.year p = year)) ->
  Prisma.payroll_rows db (ReportController.period_where month year) = [].
Proof.
  intros Hnone. unfold Prisma.payroll_rows.
  apply filter_none.
  intros p Hp. unfold Prisma.payroll_matches. simpl.
  destruct (Payroll.month p =? month) eqn:Em; [|reflexivity].
  destruct (Payroll.year p =? year) eqn:Ey; [|reflexivity].
  apply Z.eqb_eq in Em, Ey. exfalso. exact (Hnone p Hp (conj Em Ey)).
Qed.

Lemma month_figures_zero_fill db year month :
  (forall p, In p (payrolls db) ->
             ~ (Payroll.month p = month /\ Payroll.year p = year)) ->
  month_figures db year month =
  {| ReportsController.MonthEntry.month := month;
     ReportsController.MonthEntry.totalEmployees := 0;
     ReportsController.MonthEntry.totalBasic := 0;
     ReportsController.MonthEntry.totalGross := 0;
     ReportsController.MonthEntry.totalNet := 0 |}.
Proof.
  intros Hnone. unfold month_figures.
  rewrite (period_rows_none _ _ _ Hnone). reflexivity.
Qed.

(** C4.  For any year that fits the INTEGER column the monthly summary
    answers 200 with exactly 12 entries, one per month in the order 1 to
    12, each built from the records of its month; an entry whose month has
    no payroll record of that year has totalEmployees 0 and all three
    salary totals 0.  For a year that does not fit, the first query throws
    and the answer is 500 without data. *)
Theorem getMonthlySummary_twelve_months :
  forall (db : Db) (year : Z),
    (Int4.fits year = true ->
     exists entries,
       ReportsController.getMonthlySummary db (Some year) = ok 200 None entries /\
       entries = map (month_figures db year) [1; 2; 3; 4; 5; 6; 7; 8; 9; 10; 11; 12] /\
       List.length entries = 12%nat /\
       map ReportsController.MonthEntry.month entries =
         [1; 2; 3; 4; 5; 6; 7; 8; 9; 10; 11; 12] /\
       Forall (fun entry =>
                 (forall p, In p (payrolls db) ->
                    ~ (Payroll.month p = ReportsController.MonthEntry.month entry /\
                       Payroll.year p = year)) ->
                 ReportsController.MonthEntry.totalEmployees entry = 0 /\
                 ReportsController.MonthEntry.totalBasic entry = 0%float /\
                 ReportsController.MonthEntry.totalGross entry = 0%float /\
                 ReportsController.MonthEntry.totalNet entry = 0%float)
         entries) /\
    (Int4.fits year = false ->
     ReportsController.getMonthlySummary db (Some year) =
     server_error "Failed to fetch monthly summary" (Prisma.int4_overflow year)).
Proof.
  intros db year. split.
  - intros Hy. eexists. split.
    + unfold ReportsController.getMonthlySummary.
      rewrite (monthLoop_unrolled _ _ Hy). reflexivity.
    + split; [reflexivity|]. split; [reflexivity|]. split; [reflexivity|].
      apply Forall_map. apply Forall_forall. intros month _ Hnone.
      simpl in Hnone. rewrite (month_figures_zero_fill _ _ _ Hnone).
      repeat split.
  - intros Hy. unfold ReportsController.getMonthlySummary.
    rewrite (monthLoop_overflow _ _ Hy). reflexivity.
Qed.

(** C4, as the claim states it, fails outside the INTEGER range: for the
    year 2147483648 the first query of the loop throws, and the answer is
    500 with the message of the error and without entries. *)
Lemma monthly_summary_year_out_of_range :
  ReportsController.getMonthlySummary sample_db_march (Some 2147483648) =
    server_error "Failed to fetch monthly summary"
      "Unable to fit integer value '2147483648' into an INT4 (32-bit signed integer)." /\
  data (ReportsController.getMonthlySummary sample_db_march (Some 2147483648)) = None.
Proof. split; vm_compute; reflexivity. Qed.

Lemma getMonthlySummary_twelve_months_witness :
  exists entries,
    ReportsController.getMonthlySummary sample_db_march (Some 2025) =
      ok 200 None entries /\
    entries = map (month_figures sample_db_march 2025)
                  [1; 2; 3; 4; 5; 6; 7; 8; 9; 10; 11; 12] /\
    List.length entries = 12%nat /\
    map ReportsController.MonthEntry.month entries =
      [1; 2; 3; 4; 5; 6; 7; 8; 9; 10; 11; 12] /\
    Forall (fun entry =>
              (forall p, In p (payrolls sample_db_march) ->
                 ~ (Payroll.month p = ReportsController.MonthEntry.month entry /\
                    Payroll.year p = 2025)) ->
              ReportsController.MonthEntry.totalEmployees entry = 0 /\
              ReportsController.MonthEntry.totalBasic entry = 0%float /\
              ReportsController.MonthEntry.totalGross entry = 0%float /\
              ReportsController.MonthEntry.totalNet entry = 0%float)
      entries.
Proof.
  apply (proj1 (getMonthlySummary_twelve_months sample_db_march 2025)).
  reflexivity.
Defined.

(** * Sample runs *)

Example sample_run_creates_two :
  map Payroll.id (payrolls sample_db_march) = ["pay-0"; "pay-1"]%string /\
  map Payroll.status (payrolls sample_db_march) = [PENDING; PENDING] /\
  map Payroll.netSalary (payrolls sample_db_march) = [93000%float; (-4000)%float].
Proof. repeat split. Qed.

Example sample_mark_paid_twice :
  let db1 := fst (PayrollController.markPayrollAsPaid noon sample_db_march "pay-0") in
  map Payroll.status (payrolls db1) = [PAID; PENDING] /\
  map Payroll.paidAt (payrolls db1) = [Some noon; None] /\
  PayrollController.markPayrollAsPaid (noon + 1) db1 "pay-0" =
    (db1, failure 400 "Payroll already marked as paid").
Proof. repeat split. Qed.

Example sample_bulk_counts_one :
  data (snd (PayrollController.bulkMarkAsPaid noon sample_db_march
               (Some ["pay-0"; "no-such-id"]%string))) =
  Some {| BulkResult.updatedCount := 1 |}.
Proof. reflexivity. Qed.

Example sample_report_by_type :
  option_map ReportController.Report.report
    (data (ReportController.getSalaryReportByType sample_db_march (Some 3) (Some 2025))) =
  Some [ {| ReportController.TypeData.employeeType := TEACHER;
            ReportController.TypeData.count := 1;
            ReportController.TypeData.totalBasicSalary := 80000;
            ReportController.TypeData.totalAllowances := 35000;
            ReportController.TypeData.totalDeductions := 22000;
            ReportController.TypeData.totalGrossSalary := 115000;
            ReportController.TypeData.totalNetSalary := 93000 |};
         {| ReportController.TypeData.employeeType := STAFF;
            ReportController.TypeData.count := 1;
            ReportController.TypeData.totalBasicSalary := 1000;
            ReportController.TypeData.totalAllowances := 0;
            ReportController.TypeData.totalDeductions := 5000;
            ReportController.TypeData.totalGrossSalary := 1000;
            ReportController.TypeData.totalNetSalary := -4000 |} ].
Proof. reflexivity. Qed.

Example sample_monthly_counts :
  option_map (map ReportsController.MonthEntry.totalEmployees)
    (data (ReportsController.getMonthlySummary sample_db_march (Some 2025))) =
  Some [0; 0; 2; 0; 0; 0; 0; 0; 0; 0; 0; 0].
Proof. vm_compute. reflexivity. Qed.

Example service_throws_on_employee_row :
  PayrollService.processPayroll noon sample_db "emp-1" 3 2025 =
  (sample_db, inl PayrollService.type_error).
Proof. reflexivity. Qed.

(** * Further properties of the endpoints *)

Section OrderBy.
Context {A : Type} (before : A -> A -> bool).

Lemma insert_by_perm x l : Permutation (x :: l) (PrismaMore.insert_by before x l).
Proof.
  induction l as [|y l IH]; simpl; [apply Permutation_refl|].
  destruct (before x y); [apply Permutation_refl|].
  eapply Permutation_trans; [apply perm_swap|]. apply perm_skip. exact IH.
Qed.

Lemma order_by_perm l : Permutation l (PrismaMore.order_by before l).
Proof.
  induction l as [|x l IH]; simpl; [constructor|].
  eapply Permutation_trans; [|apply insert_by_perm]. apply perm_skip. exact IH.
Qed.

Hypothesis before_total : forall x y, before x y = true \/ before y x = true.
Hypothesis before_trans :
  forall x y z, before x y = true -> before y z = true -> before x z = true.

Lemma insert_by_sorted x l :
  StronglySorted (fun a b => before a b = true) l ->
  StronglySorted (fun a b => before a b = true) (PrismaMore.insert_by before x l).
Proof.
  induction l as [|y l IH]; intros Hs; simpl.
  - constructor; constructor.
  - inversion Hs as [|y' l' Hs' Hall]; subst.
    destruct (before x y) eqn:E.
    + constructor; [exact Hs|]. constructor; [exact E|].
      eapply Forall_impl; [|exact Hall]. intros a Ha. eapply before_trans; eassumption.
    + constructor; [apply IH; exact Hs'|].
      assert (Hyx : before y x = true).
      { destruct (before_total x y) as [H|H]; congruence. }
      eapply Permutation_Forall; [apply insert_by_perm|].
      constructor; assumption.
Qed.

Lemma order_by_sorted l :
  StronglySorted (fun a b => before a b = true) (PrismaMore.order_by before l).
Proof.
  induction l as [|x l IH]; simpl; [constructor|].
  apply insert_by_sorted. exact IH.
Qed.

End OrderBy.

Lemma StronglySorted_weaken {A} (R S : A -> A -> Prop) (l : list A) :
  (forall a b, R a b -> S a b) -> StronglySorted R l -> StronglySorted S l.
Proof.
  intros HRS Hs. induction Hs as [|a l Hs IH Hall]; constructor; [exact IH|].
  eapply Forall_impl; [|exact Hall]. intros b. apply HRS.
Qed.

Lemma listing_order_spec createdAt p q :
  PayrollControllerMore.listing_order createdAt p q = true <->
  listed_before createdAt p q.
Proof.
  unfold PayrollControllerMore.listing_order, listed_before.
  rewrite orb_true_iff, andb_true_iff, orb_true_iff, andb_true_iff.
  rewrite !Z.ltb_lt, !Z.eqb_eq, Z.leb_le. reflexivity.
Qed.

Lemma listing_order_total createdAt p q :
  PayrollControllerMore.listing_order createdAt p q = true \/
  PayrollControllerMore.listing_order createdAt q p = true.
Proof. rewrite !listing_order_spec. unfold listed_before. lia. Qed.

Lemma listing_order_trans createdAt p q r :
  PayrollControllerMore.listing_order createdAt p q = true ->
  PayrollControllerMore.listing_order createdAt q r = true ->
  PayrollControllerMore.listing_order createdAt p r = true.
Proof. rewrite !listing_order_spec. unfold listed_before. lia. Qed.

Lemma list_matches_meets q p :
  PayrollControllerMore.list_matches q p = true <-> meets q p.
Proof.
  unfold PayrollControllerMore.list_matches, meets.
  destruct (ListQuery.month q) as [m|], (ListQuery.year q) as [y|],
           (ListQuery.status q) as [s|], (ListQuery.employeeId q) as [e|];
    rewrite !andb_true_iff, ?Z.eqb_eq, ?PayrollStatus_eqb_eq, ?String.eqb_eq;
    split.
  all: try (intros (((H1 & H2) & H3) & H4); repeat split; intros ? [= <-]; assumption).
  all: try (intros (H1 & H2 & H3 & H4); repeat split; auto; discriminate).
  all: try (intros (((H1 & H2) & H3) & H4); repeat split; intros ? ?; try discriminate; congruence).
Qed.

(** * The payroll listing *)

Lemma firstn_plus {A} (a b : nat) (l : list A) :
  firstn (a + b) l = firstn a l ++ firstn b (skipn a l).
Proof.
  revert l. induction a as [|a IH]; intros [|x l]; simpl; rewrite ?firstn_nil; auto.
  f_equal. apply IH.
Qed.

Lemma skip_take_In {A} (skip take : Z) (l : list A) x :
  In x (PrismaMore.skip_take skip take l) -> In x l.
Proof.
  unfold PrismaMore.skip_take. intros H.
  rewrite <- (firstn_skipn (Z.to_nat skip) l). apply in_or_app. right.
  rewrite <- (firstn_skipn (Z.to_nat take) (skipn (Z.to_nat skip) l)).
  apply in_or_app. left. exact H.
Qed.

Lemma pages_concat {A} (n m : nat) (l : list A) :
  List.concat (map (fun k => firstn n (skipn (k * n) l)) (seq 0 m)) = firstn (m * n) l.
Proof.
  induction m as [|m IH]; [reflexivity|].
  rewrite seq_S, map_app, concat_app, IH. simpl. rewrite app_nil_r.
  rewrite <- firstn_plus. f_equal. lia.
Qed.

Lemma ceil_div_bounds a b :
  0 <= a -> 0 < b ->
  0 <= ceil_div a b /\ (ceil_div a b - 1) * b < a <= ceil_div a b * b.
Proof.
  intros Ha Hb. unfold ceil_div.
  pose proof (Z_div_mod a b ltac:(lia)) as H.
  destruct (Z.div_eucl a b) as [q r]. destruct H as [Heq Hr].
  destruct (Z.eqb_spec r 0); nia.
Qed.

Lemma query_limit_pos (q : ListQuery.t) :
  0 < match ListQuery.limit q with Some n => Z.pos n | None => 10 end.
Proof. destruct (ListQuery.limit q); lia. Qed.

Lemma skip_take_page {A} (k : nat) (limit : Z) (l : list A) :
  0 < limit ->
  PrismaMore.skip_take ((Z.pos (Pos.of_succ_nat k) - 1) * limit) limit l =
  firstn (Z.to_nat limit) (skipn (k * Z.to_nat limit) l).
Proof.
  intros Hl. unfold PrismaMore.skip_take. f_equal. f_equal.
  rewrite Zpos_P_of_succ_nat. lia.
Qed.

(** A month or year that does not fit is the month or year of no row. *)
Lemma list_matches_overflow (q : ListQuery.t) (db : Db) err :
  Prisma.period_error (ListQuery.month q) (ListQuery.year q) = Some err ->
  filter (PayrollControllerMore.list_matches q) (payrolls db) = [].
Proof.
  intros H. apply filter_none. intros p _.
  unfold PayrollControllerMore.list_matches.
  unfold Prisma.period_error in H.
  pose proof (Payroll.month_fits p) as Hm. pose proof (Payroll.year_fits p) as Hy.
  destruct (ListQuery.month q) as [m|].
  - destruct (Z.eqb_spec (Payroll.month p) m) as [<-|]; [|reflexivity].
    rewrite Hm in H.
    destruct (ListQuery.year q) as [y|]; [|discriminate].
    destruct (Z.eqb_spec (Payroll.year p) y) as [<-|]; [|reflexivity].
    rewrite Hy in H. discriminate.
  - destruct (ListQuery.year q) as [y|]; [|discriminate].
    destruct (Z.eqb_spec (Payroll.year p) y) as [<-|]; [|reflexivity].
    rewrite Hy in H. discriminate.
Qed.

(** Two sorted arrangements of the same rows are the same list when no
    two different rows tie. *)
Lemma sorted_perm_unique {A : Type} (R : A -> A -> Prop) (l : list A) : forall l',
  (forall a b, In a l -> In b l -> R a b -> R b a -> a = b) ->
  Permutation l l' -> StronglySorted R l -> StronglySorted R l' -> l = l'.
Proof.
  induction l as [|a l1 IH]; intros l' Hanti Hperm Hs Hs'.
  - apply Permutation_nil in Hperm. congruence.
  - destruct l' as [|b l2].
    { apply Permutation_sym, Permutation_nil in Hperm. discriminate. }
    inversion Hs as [|? ? Hs1 Ha]; subst. inversion Hs' as [|? ? Hs2 Hb]; subst.
    assert (Hab : a = b).
    { assert (Hbin : In b (a :: l1)).
      { apply (Permutation_in _ (Permutation_sym Hperm)). left; reflexivity. }
      assert (Hain : In a (b :: l2)).
      { apply (Permutation_in _ Hperm). left; reflexivity. }
      destruct Hbin as [E|Hbin]; [exact E|].
      destruct Hain as [E|Hain]; [symmetry; exact E|].
      rewrite Forall_forall in Ha, Hb.
      apply Hanti; [left; reflexivity | right; exact Hbin | apply Ha; exact Hbin
                   | apply Hb; exact Hain]. }
    subst b. f_equal. apply IH; try assumption.
    + intros x z Hx Hz. apply Hanti; right; assumption.
    + apply Permutation_cons_inv in Hperm. exact Hperm.
Qed.

(** X1.  Every row the payroll listing returns is a row of the table that
    passes every filter of the query, joined with its employee; a page has
    at most [limit] rows; [total] is the number of table rows passing the
    filters, whatever the page. *)
Theorem getAllPayrolls_rows_meet_filters :
  forall (createdAt : Payroll.t -> Z) (db : Db) (q : ListQuery.t),
    Forall (fun r => In (payroll r) (payrolls db) /\ meets q (payroll r) /\
                     r = Prisma.include_employee db (payroll r))
      (listed_rows (PayrollControllerMore.getAllPayrolls createdAt db q)) /\
    Z.of_nat (List.length
      (listed_rows (PayrollControllerMore.getAllPayrolls createdAt db q)))
      <= Pagination.limit
           (listed_pagination (PayrollControllerMore.getAllPayrolls createdAt db q)) /\
    (forall p, PayrollControllerMore.list_matches q p = true <-> meets q p) /\
    forall n,
      Pagination.total
        (listed_pagination
           (PayrollControllerMore.getAllPayrolls createdAt db (with_page q n))) =
      Z.of_nat (List.length
                  (filter (PayrollControllerMore.list_matches q) (payrolls db))).
Proof.
  intros createdAt db q.
  unfold PayrollControllerMore.getAllPayrolls, listed_rows, listed_pagination.
  cbn [with_page ListQuery.month ListQuery.year].
  destruct (Prisma.period_error (ListQuery.month q) (ListQuery.year q)) as [err|] eqn:Herr.
  { cbn [data server_error]. split; [constructor|]. split; [simpl; lia|].
    split; [intros p; apply list_matches_meets|].
    intros n. rewrite (list_matches_overflow _ _ _ Herr). reflexivity. }
  cbn [data ok Paged.rows Paged.pagination Pagination.limit Pagination.total].
  pose proof (query_limit_pos q) as Hl.
  set (lim := match ListQuery.limit q with Some n => Z.pos n | None => 10 end) in *.
  split; [|split; [|split]].
  - apply Forall_map. apply Forall_forall. intros p Hp.
    apply skip_take_In in Hp.
    apply (Permutation_in _ (Permutation_sym (order_by_perm _ _))) in Hp.
    apply filter_In in Hp. destruct Hp as [Hin Hm].
    split; [exact Hin|]. split; [apply list_matches_meets; exact Hm | reflexivity].
  - rewrite length_map. unfold PrismaMore.skip_take.
    pose proof (firstn_le_length (Z.to_nat lim)
                 (skipn (Z.to_nat ((match ListQuery.page q with
                                    | Some n => Z.pos n | None => 1 end - 1) * lim))
                    (PrismaMore.order_by (PayrollControllerMore.listing_order createdAt)
                       (filter (PayrollControllerMore.list_matches q) (payrolls db))))).
    lia.
  - intros p. apply list_matches_meets.
  - intros n. reflexivity.
Qed.

(** X2.  Paging through the listing, for a month and year filter that
    fits the INTEGER columns and a table in which no two different rows
    passing the filters agree on year, month and creation time, so that
    the order asked for leaves no tie.  The pages 1 to [totalPages], one
    after the other, hold every row that passes the filters exactly once,
    ordered by year, then month, then creation time, latest first, and
    that is the only arrangement of these rows in that order; a page after
    [totalPages] is empty; [totalPages] is the least number of pages of
    [limit] rows that hold [total] rows. *)
Theorem getAllPayrolls_pages_cover :
  forall (createdAt : Payroll.t -> Z) (db : Db) (q : ListQuery.t),
    Prisma.period_error (ListQuery.month q) (ListQuery.year q) = None ->
    (forall p p', In p (payrolls db) -> In p' (payrolls db) ->
       meets q p -> meets q p' ->
       Payroll.year p = Payroll.year p' -> Payroll.month p = Payroll.month p' ->
       createdAt p = createdAt p' -> p = p') ->
    let first := listed_pagination (PayrollControllerMore.getAllPayrolls createdAt db q) in
    (exists all,
       List.concat (map (fun k => listed_rows
                      (PayrollControllerMore.getAllPayrolls createdAt db
                         (with_page q (Pos.of_succ_nat k))))
                   (seq 0 (Z.to_nat (Pagination.totalPages first)))) =
       map (Prisma.include_employee db) all /\
       Permutation all (filter (PayrollControllerMore.list_matches q) (payrolls db)) /\
       StronglySorted (listed_before createdAt) all /\
       forall l,
         Permutation l (filter (PayrollControllerMore.list_matches q) (payrolls db)) ->
         StronglySorted (listed_before createdAt) l -> l = all) /\
    (forall n, Pagination.totalPages first < Z.pos n ->
       listed_rows (PayrollControllerMore.getAllPayrolls createdAt db (with_page q n)) = []) /\
    (Pagination.totalPages first - 1) * Pagination.limit first
      < Pagination.total first
      <= Pagination.totalPages first * Pagination.limit first.
Proof.
  intros createdAt db q Hfits Hties.
  unfold PayrollControllerMore.getAllPayrolls, listed_rows, listed_pagination.
  cbn [ListQuery.limit ListQuery.page with_page
       ListQuery.month ListQuery.year ListQuery.status ListQuery.employeeId].
  rewrite Hfits.
  cbn [data ok Paged.rows Paged.pagination Pagination.limit Pagination.total
       Pagination.totalPages].
  pose proof (query_limit_pos q) as Hl.
  set (lim := match ListQuery.limit q with Some n => Z.pos n | None => 10 end) in *.
  change (filter (PayrollControllerMore.list_matches (with_page q _)) (payrolls db))
    with (filter (PayrollControllerMore.list_matches q) (payrolls db)).
  set (matching := filter (PayrollControllerMore.list_matches q) (payrolls db)).
  set (sorted := PrismaMore.order_by (PayrollControllerMore.listing_order createdAt) matching).
  assert (Hlen : List.length sorted = List.length matching).
  { symmetry. apply Permutation_length. apply order_by_perm. }
  assert (Hsorted : StronglySorted (listed_before createdAt) sorted).
  { eapply StronglySorted_weaken; [|apply order_by_sorted].
    - intros a b. apply listing_order_spec.
    - apply listing_order_total.
    - apply listing_order_trans. }
  destruct (ceil_div_bounds (Z.of_nat (List.length matching)) lim ltac:(lia) Hl)
    as (Hnn & Hlow & Hhigh).
  set (tp := ceil_div (Z.of_nat (List.length matching)) lim) in *.
  split; [|split].
  - exists sorted. split; [|split; [|split]].
    + transitivity (map (Prisma.include_employee db)
                      (firstn (Z.to_nat tp * Z.to_nat lim) sorted));
        [|rewrite firstn_all2 by nia; reflexivity].
      rewrite <- pages_concat, concat_map, map_map. f_equal.
      apply map_ext. intros k. rewrite skip_take_page by exact Hl. reflexivity.
    + apply Permutation_sym, order_by_perm.
    + exact Hsorted.
    + intros l Hperm Hl'.
      apply (sorted_perm_unique (listed_before createdAt)); try assumption.
      * intros a b Ha Hb Hab Hba.
        apply (Permutation_in _ Hperm) in Ha. apply (Permutation_in _ Hperm) in Hb.
        apply filter_In in Ha. apply filter_In in Hb.
        destruct Ha as [Ha Hma]. destruct Hb as [Hb Hmb].
        apply list_matches_meets in Hma. apply list_matches_meets in Hmb.
        unfold listed_before in Hab, Hba.
        apply Hties; try assumption; lia.
      * eapply Permutation_trans; [exact Hperm|]. apply order_by_perm.
  - intros n Hn. unfold PrismaMore.skip_take.
    rewrite skipn_all2; [rewrite firstn_nil; reflexivity|]. nia.
  - lia.
Qed.
(** * Invariants of the store *)

Lemma loop_state_invariant newId month year
    (J : PayrollController.LoopState -> Prop) (l : list Employee.t) :
  (forall st e, In e l -> J st ->
                J (PayrollController.processEmployee newId month year st e)) ->
  forall st, J st -> J (loop newId month year l st).
Proof.
  unfold loop. induction l as [|a l IH]; intros Hstep st Hst; [exact Hst|].
  simpl. apply IH.
  - intros st' e He. apply Hstep. right; exact He.
  - apply Hstep; [left; reflexivity | exact Hst].
Qed.

(** A property of the store that survives the insertion of a row for an
    employee without payroll for the period survives [processPayroll]. *)
Lemma processPayroll_preserves newId (I : Db -> Prop) :
  (forall db e m y (Hm : Int4.fits m = true) (Hy : Int4.fits y = true),
     I db -> In e (employees db) ->
     find (Prisma.same_period (Employee.id e) m y) (payrolls db) = None ->
     I {| employees := employees db;
          payrolls := payrolls db ++ [created_row newId m y Hm Hy db e] |}) ->
  forall db body, I db -> I (fst (PayrollController.processPayroll newId db body)).
Proof.
  intros Hins db body Hdb.
  destruct (processPayroll_cases newId db body)
    as [-> | [-> | (m & y & Hb & Hm & Hy & Hsel)]]; try exact Hdb.
  rewrite Hb.
  destruct (Prisma.period_error (Some m) (Some y)) as [err|] eqn:Herr.
  { rewrite (processPayroll_overflow _ _ _ _ _ _ Hm Hy Hsel Herr). exact Hdb. }
  apply period_error_None in Herr. destruct Herr as [Hmf Hyf].
  rewrite (processPayroll_run _ _ _ _ _ Hm Hy Hsel). cbv zeta. simpl fst.
  set (sel := Prisma.employee_findMany db _) in *.
  apply (loop_state_invariant newId m y
           (fun st => I (PayrollController.st_db st) /\
                      forall e, In e sel -> In e (employees (PayrollController.st_db st)))).
  - intros st e He [HI Hsub].
    destruct (find (Prisma.same_period (Employee.id e) m y)
                (payrolls (PayrollController.st_db st))) as [p|] eqn:Hfind.
    + rewrite (processEmployee_existing newId m y Hmf Hyf _ _ _ Hfind). simpl. auto.
    + rewrite (processEmployee_created newId m y Hmf Hyf _ _ Hfind (Hsub e He)). simpl.
      split; [apply Hins; auto | exact Hsub].
  - split; [exact Hdb|]. intros e He. apply selection_In in He. apply He.
Qed.

Lemma find_same_period_key eid m y (l : list Payroll.t) :
  find (Prisma.same_period eid m y) l = None ->
  ~ In (eid, m, y) (map period_key l).
Proof.
  intros Hnone Hin. apply in_map_iff in Hin. destruct Hin as (p & Hk & Hp).
  pose proof (find_none _ _ Hnone p Hp) as Hf.
  unfold period_key in Hk. injection Hk as H1 H2 H3.
  rewrite (same_period_refl eid m y p H1 H2 H3) in Hf. discriminate.
Qed.

Lemma NoDup_map_filter {A B} (f : A -> B) (g : A -> bool) (l : list A) :
  NoDup (map f l) -> NoDup (map f (filter g l)).
Proof.
  induction l as [|a l IH]; simpl; intros Hnd; [constructor|].
  inversion Hnd as [|x xs Hx Hnd']; subst.
  destruct (g a); [|apply IH; exact Hnd'].
  simpl. constructor; [|apply IH; exact Hnd'].
  intros Hin. apply Hx. apply in_map_iff in Hin. destruct Hin as (b & Hb & Hin).
  apply filter_In in Hin. rewrite <- Hb. apply in_map. apply Hin.
Qed.

(** Marking rows as paid, whichever rows [c] picks, keeps keys and ids. *)
Lemma map_set_paid_keys (c : Payroll.t -> bool) now (l : list Payroll.t) :
  map period_key (map (fun p => if c p then Prisma.set_paid now p else p) l) =
    map period_key l /\
  map Payroll.id (map (fun p => if c p then Prisma.set_paid now p else p) l) =
    map Payroll.id l.
Proof.
  rewrite !map_map. split; apply map_ext; intros p; destruct (c p); reflexivity.
Qed.

Lemma markPayrollAsPaid_store now db id :
  fst (PayrollController.markPayrollAsPaid now db id) = db \/
  fst (PayrollController.markPayrollAsPaid now db id) =
  {| employees := employees db;
     payrolls := map (fun q => if String.eqb (Payroll.id q) id
                               then Prisma.set_paid now q else q) (payrolls db) |}.
Proof.
  unfold PayrollController.markPayrollAsPaid, Prisma.payroll_findUnique,
    Prisma.payroll_update_paid.
  destruct (find _ (payrolls db)) as [p|]; [|left; reflexivity].
  destruct (PayrollStatus_eqb (Payroll.status p) PAID); [left | right]; reflexivity.
Qed.

Lemma bulkMarkAsPaid_store now db payrollIds :
  fst (PayrollController.bulkMarkAsPaid now db payrollIds) = db \/
  exists ids,
    payrollIds = Some ids /\
    fst (PayrollController.bulkMarkAsPaid now db payrollIds) =
    {| employees := employees db;
       payrolls := map (fun p => if Prisma.payroll_matches
                                      {| Prisma.pw_id_in := Some ids;
                                         Prisma.pw_month := None;
                                         Prisma.pw_year := None;
                                         Prisma.pw_status := Some PENDING |} p
                                 then Prisma.set_paid now p else p) (payrolls db) |}.
Proof.
  unfold PayrollController.bulkMarkAsPaid.
  destruct payrollIds as [ids|]; [|left; reflexivity].
  destruct (Z.of_nat (List.length ids) =? 0); [left; reflexivity|].
  right. exists ids. split; reflexivity.
Qed.

Lemma deletePayroll_store db id :
  fst (PayrollControllerMore.deletePayroll db id) = db \/
  fst (PayrollControllerMore.deletePayroll db id) =
  {| employees := employees db;
     payrolls := filter (fun q => negb (String.eqb (Payroll.id q) id)) (payrolls db) |}.
Proof.
  unfold PayrollControllerMore.deletePayroll, Prisma.payroll_findUnique,
    PrismaMore.payroll_delete.
  destruct (find _ (payrolls db)) as [p|]; [right | left]; reflexivity.
Qed.

Lemma deleteEmployee_store db id :
  fst (EmployeeController.deleteEmployee db id) = db \/
  fst (EmployeeController.deleteEmployee db id) =
  {| employees := filter (fun e => negb (String.eqb (Employee.id e) id)) (employees db);
     payrolls := filter (fun p => negb (String.eqb (Payroll.employeeId p) id))
                        (payrolls db) |}.
Proof.
  unfold EmployeeController.deleteEmployee, EmployeeController.employee_delete.
  destruct (Prisma.employee_findUnique db id); [right | left]; reflexivity.
Qed.

Lemma set_paid_equations now p :
  salary_equations p -> salary_equations (Prisma.set_paid now p).
Proof. intros H. exact H. Qed.

Lemma Forall_map_set_paid (P : Payroll.t -> Prop) (c : Payroll.t -> bool) now l :
  (forall p, P p -> P (Prisma.set_paid now p)) ->
  Forall P l ->
  Forall P (map (fun p => if c p then Prisma.set_paid now p else p) l).
Proof.
  intros Hset Hl. apply Forall_map. eapply Forall_impl; [|exact Hl].
  intros p Hp. destruct (c p); auto.
Qed.

Lemma Forall_filter {A} (P : A -> Prop) (g : A -> bool) (l : list A) :
  Forall P l -> Forall P (filter g l).
Proof.
  intros H. apply Forall_forall. intros x Hx. apply filter_In in Hx.
  rewrite Forall_forall in H. apply H, Hx.
Qed.

Lemma set_paid_stamped now p : paid_iff_stamped (Prisma.set_paid now p).
Proof. unfold paid_iff_stamped. simpl. split; [discriminate | reflexivity]. Qed.

Lemma store_invariant_map_set_paid (c : Payroll.t -> bool) now db :
  store_invariant db ->
  store_invariant
    {| employees := employees db;
       payrolls := map (fun p => if c p then Prisma.set_paid now p else p)
                       (payrolls db) |}.
Proof.
  intros (Hu & He & Hs & Hfk). unfold store_invariant, unique_periods. simpl.
  destruct (map_set_paid_keys c now (payrolls db)) as [Hk _].
  split; [rewrite Hk; exact Hu|].
  split; [apply Forall_map_set_paid; [intros p H; exact H | exact He]|].
  split.
  - apply Forall_map. eapply Forall_impl; [|exact Hs].
    intros p Hp. destruct (c p); [apply set_paid_stamped | exact Hp].
  - intros p' Hp'. simpl in Hp'. apply in_map_iff in Hp'.
    destruct Hp' as (p & <- & Hp). destruct (Hfk p Hp) as (e & Hin & Hid).
    exists e. split; [exact Hin|]. destruct (c p); exact Hid.
Qed.

Lemma store_invariant_eta db :
  store_invariant db ->
  store_invariant {| employees := employees db; payrolls := payrolls db |}.
Proof. destruct db; exact (fun H => H). Qed.

(** Every step of [reachable] keeps the invariants of the Payroll table. *)
Lemma reachable_invariant :
  forall db, reachable db -> store_invariant db.
Proof.
  intros db Hr. induction Hr as
    [es | newId db body Hr IH | now db id Hr IH | now db ids Hr IH
     | db id Hr IH | db id Hr IH | db es Hr IH Hids].
  - repeat split; simpl; try constructor. intros p [].
  - revert IH. apply processPayroll_preserves. clear db body Hr.
    intros db e m y Hmf Hyf (Hu & He & Hs & Hfk) Hin Hnone.
    unfold store_invariant, unique_periods. simpl.
    split; [|split; [|split]].
    + rewrite map_app. apply NoDup_snoc; [exact Hu|].
      apply (find_same_period_key _ _ _ _ Hnone).
    + apply Forall_app. split; [exact He|].
      constructor; [apply created_row_equations | constructor].
    + apply Forall_app. split; [exact Hs|].
      constructor; [|constructor]. unfold paid_iff_stamped. simpl.
      split; [discriminate | congruence].
    + intros p Hp. simpl in Hp. apply in_app_or in Hp.
      destruct Hp as [Hp | [<- | []]]; [apply Hfk; exact Hp|].
      exists e. split; [exact Hin | reflexivity].
  - destruct (markPayrollAsPaid_store now db id) as [-> | ->]; [exact IH|].
    apply store_invariant_map_set_paid. exact IH.
  - destruct (bulkMarkAsPaid_store now db ids) as [-> | (l & _ & ->)]; [exact IH|].
    apply store_invariant_map_set_paid. exact IH.
  - destruct (deletePayroll_store db id) as [-> | ->]; [exact IH|].
    destruct IH as (Hu & He & Hs & Hfk). unfold store_invariant, unique_periods. simpl.
    split; [apply NoDup_map_filter; exact Hu|].
    split; [apply Forall_filter; exact He|].
    split; [apply Forall_filter; exact Hs|].
    intros p Hp. simpl in Hp. apply filter_In in Hp. apply Hfk, Hp.
  - destruct (deleteEmployee_store db id) as [-> | ->]; [exact IH|].
    destruct IH as (Hu & He & Hs & Hfk). unfold store_invariant, unique_periods. simpl.
    split; [apply NoDup_map_filter; exact Hu|].
    split; [apply Forall_filter; exact He|].
    split; [apply Forall_filter; exact Hs|].
    intros p Hp. simpl in Hp. apply filter_In in Hp. destruct Hp as [Hp Hne].
    destruct (Hfk p Hp) as (e & Hin & Hid).
    exists e. split; [|exact Hid]. apply filter_In. split; [exact Hin|].
    rewrite Hid. exact Hne.
  - destruct IH as (Hu & He & Hs & Hfk). unfold store_invariant. simpl.
    split; [exact Hu|]. split; [exact He|]. split; [exact Hs|].
    intros p Hp. simpl in Hp. destruct (Hfk p Hp) as (e & Hin & Hid).
    destruct (Hids e Hin) as (e' & Hin' & Hid').
    exists e'. split; [exact Hin' | congruence].
Qed.

(** * More on payroll processing *)

Section Partition.
Variable newId : list Payroll.t -> string.
Variables month year : Z.
Hypothesis month_fits : Int4.fits month = true.
Hypothesis year_fits : Int4.fits year = true.



End Partition.

(** * Lookup, deletion and the one-way transition *)

Lemma string_length_append (s1 s2 : string) :
  String.length (s1 ++ s2) = (String.length s1 + String.length s2)%nat.
Proof. induction s1 as [|c s1 IH]; simpl; [reflexivity | rewrite IH; reflexivity]. Qed.

Lemma concat_length_ge (s : string) (l : list string) :
  In s l -> (String.length s <= String.length (String.concat EmptyString l))%nat.
Proof.
  induction l as [|x l IH]; intros Hin; [destruct Hin|].
  destruct l as [|x' l'].
  - destruct Hin as [->|[]]. simpl. lia.
  - change (String.concat EmptyString (x :: x' :: l'))
      with (x ++ EmptyString ++ String.concat EmptyString (x' :: l'))%string.
    rewrite !string_length_append. simpl String.length at 2.
    destruct Hin as [->|Hin]; [lia|]. specialize (IH Hin). lia.
Qed.

Lemma long_newId_fresh : fresh_ids long_newId.
Proof.
  intros table Hin. unfold long_newId in Hin.
  apply concat_length_ge in Hin. rewrite string_length_append in Hin.
  simpl in Hin. lia.
Qed.

Lemma processPayroll_ids_NoDup newId db body :
  fresh_ids newId ->
  NoDup (map Payroll.id (payrolls db)) ->
  NoDup (map Payroll.id (payrolls (fst (PayrollController.processPayroll newId db body)))).
Proof.
  intros Hfresh.
  apply (processPayroll_preserves newId
           (fun db => NoDup (map Payroll.id (payrolls db)))).
  intros db' e m y Hmf Hyf Hnd _ _. simpl. rewrite map_app. simpl.
  apply NoDup_snoc; [exact Hnd | apply Hfresh].
Qed.

(** X4.  Insert then look up: with an id generator that returns fresh ids
    and a table whose ids are unique, every record a processing run reports
    as processed is found by [getPayrollById] afterwards: the answer is 200
    with the payroll row of the record, which is a row of the table,
    joined with the employee the row refers to. *)
Theorem processed_records_can_be_fetched :
  forall (newId : list Payroll.t -> string) (db : Db) (body : ProcessBody.t),
    fresh_ids newId ->
    NoDup (map Payroll.id (payrolls db)) ->
    Forall (fun r =>
              exists found,
                PayrollControllerMore.getPayrollById
                  (fst (PayrollController.processPayroll newId db body))
                  (Payroll.id (payroll r)) = ok 200 None found /\
                payroll found = payroll r /\
                In (payroll r)
                   (payrolls (fst (PayrollController.processPayroll newId db body))) /\
                employee found =
                  Prisma.employee_findUnique
                    (fst (PayrollController.processPayroll newId db body))
                    (Payroll.employeeId (payroll r)))
      (processed_of (snd (PayrollController.processPayroll newId db body))).
Proof.
  intros newId db body Hfresh Hnd.
  pose proof (processPayroll_ids_NoDup newId db body Hfresh Hnd) as Hnd'.
  destruct (processPayroll_effect newId db body) as (Hpay & _ & _).
  rewrite Forall_forall in *. intros r Hr.
  assert (Hin : In (payroll r)
                   (payrolls (fst (PayrollController.processPayroll newId db body)))).
  { rewrite Hpay. apply in_or_app. right. apply in_map. exact Hr. }
  unfold PayrollControllerMore.getPayrollById, Prisma.payroll_findUnique.
  rewrite (find_by_id_NoDup _ (payroll r) Hnd' Hin).
  eexists. split; [reflexivity|]. split; [reflexivity|]. split; [exact Hin | reflexivity].
Qed.

Lemma find_by_id_filter_out (l : list Payroll.t) (id : string) :
  find (fun q => String.eqb (Payroll.id q) id)
       (filter (fun q => negb (String.eqb (Payroll.id q) id)) l) = None.
Proof.
  apply find_by_id_absent. intros p Hp Hid.
  apply filter_In in Hp. destruct Hp as [_ Hne].
  rewrite Hid, String.eqb_refl in Hne. discriminate.
Qed.

(** X5.  Deleting a payroll.  When no row has the id the answer is 404 and
    the store is unchanged.  When a row has it, whatever its status, the
    answer is 200; the table keeps, in order, exactly the rows with another
    id and the employees are untouched; afterwards the id is not found,
    and a lookup of another id answers as before. *)
Theorem deletePayroll_outcomes :
  forall (db : Db) (id : string),
    ((forall p, In p (payrolls db) -> Payroll.id p <> id) ->
     PayrollControllerMore.deletePayroll db id =
     (db, failure 404 "Payroll record not found")) /\
    ((exists p, In p (payrolls db) /\ Payroll.id p = id) ->
     let db' := fst (PayrollControllerMore.deletePayroll db id) in
     snd (PayrollControllerMore.deletePayroll db id) =
       mkResponse 200 true (Some "Payroll record deleted successfully"%string) None None /\
     employees db' = employees db /\
     payrolls db' = filter (fun q => negb (String.eqb (Payroll.id q) id)) (payrolls db) /\
     (forall p, In p (payrolls db') <-> In p (payrolls db) /\ Payroll.id p <> id) /\
     PayrollControllerMore.getPayrollById db' id =
       failure 404 "Payroll record not found" /\
     (forall id', id' <> id ->
        PayrollControllerMore.getPayrollById db' id' =
        PayrollControllerMore.getPayrollById db id')).
Proof.
  intros db id. split.
  - intros Habsent. unfold PayrollControllerMore.deletePayroll, Prisma.payroll_findUnique.
    rewrite (find_by_id_absent _ _ Habsent). reflexivity.
  - intros (p & Hin & Hid). cbv zeta.
    unfold PayrollControllerMore.deletePayroll, Prisma.payroll_findUnique,
      PrismaMore.payroll_delete.
    destruct (find (fun q => String.eqb (Payroll.id q) id) (payrolls db)) as [p0|] eqn:Hfind.
    2:{ exfalso. pose proof (find_none _ _ Hfind p Hin) as H.
        simpl in H. rewrite Hid, String.eqb_refl in H. discriminate. }
    simpl. split; [reflexivity|]. split; [reflexivity|]. split; [reflexivity|].
    split; [|split].
    + intros q. rewrite filter_In, negb_true_iff, String.eqb_neq. reflexivity.
    + unfold PayrollControllerMore.getPayrollById, Prisma.payroll_findUnique. simpl.
      rewrite find_by_id_filter_out. reflexivity.
    + intros id' Hne.
      unfold PayrollControllerMore.getPayrollById, Prisma.payroll_findUnique,
        Prisma.include_employee, Prisma.employee_findUnique. simpl.
      assert (Hf : find (fun p1 => String.eqb (Payroll.id p1) id')
                     (filter (fun q => negb (String.eqb (Payroll.id q) id)) (payrolls db)) =
                   find (fun p1 => String.eqb (Payroll.id p1) id') (payrolls db)).
      { clear - Hne. induction (payrolls db) as [|a l IH]; [reflexivity|].
        simpl. destruct (String.eqb_spec (Payroll.id a) id) as [Ha|Ha]; simpl.
        - destruct (String.eqb_spec (Payroll.id a) id'); [congruence | exact IH].
        - destruct (String.eqb (Payroll.id a) id'); [reflexivity | exact IH]. }
      rewrite Hf. reflexivity.
Qed.

Lemma processPayroll_covers_selection newId db m y employeeIds e :
  m <> 0 -> y <> 0 ->
  Int4.fits m = true -> Int4.fits y = true ->
  In e (employees db) -> selected_by employeeIds e ->
  has_payroll (fst (PayrollController.processPayroll newId db
                      (ProcessBody.mk (Some m) (Some y) employeeIds))) m y e = true.
Proof.
  intros Hm Hy Hmf Hyf Hin Hsel.
  assert (He : In e (Prisma.employee_findMany db
                       (PayrollController.employees_where employeeIds))).
  { apply selection_In. split; assumption. }
  rewrite processPayroll_run; try assumption.
  2:{ intros Hempty. rewrite Hempty in He. destruct He. }
  cbv zeta. simpl fst.
  destruct (loop_spec newId m y Hmf Hyf
              (Prisma.employee_findMany db (PayrollController.employees_where employeeIds))
              (initial_state db)) as (_ & new & _ & _ & _ & Hall).
  { intros e' He'. apply selection_In in He'. apply He'. }
  unfold has_payroll. apply Hall. exact He.
Qed.

Lemma NoDup_map_In_eq {A B} (f : A -> B) (l : list A) (x y : A) :
  NoDup (map f l) -> In x l -> In y l -> f x = f y -> x = y.
Proof.
  induction l as [|a l IH]; intros Hnd Hx Hy Hf; [destruct Hx|].
  simpl in Hnd. inversion Hnd as [|b bs Hnotin Hnd']; subst.
  destruct Hx as [->|Hx], Hy as [->|Hy]; auto.
  - exfalso. apply Hnotin. rewrite Hf. apply in_map. exact Hy.
  - exfalso. apply Hnotin. rewrite <- Hf. apply in_map. exact Hx.
Qed.

Lemma deletePayroll_present db p :
  In p (payrolls db) ->
  fst (PayrollControllerMore.deletePayroll db (Payroll.id p)) =
  {| employees := employees db;
     payrolls := filter (fun q => negb (String.eqb (Payroll.id q) (Payroll.id p)))
                        (payrolls db) |}.
Proof.
  intros Hin. unfold PayrollControllerMore.deletePayroll, Prisma.payroll_findUnique,
    PrismaMore.payroll_delete.
  destruct (find (fun q => String.eqb (Payroll.id q) (Payroll.id p)) (payrolls db))
    as [p0|] eqn:Hfind; [reflexivity|].
  exfalso. pose proof (find_none _ _ Hfind p Hin) as H.
  simpl in H. rewrite String.eqb_refl in H. discriminate.
Qed.

(** X6.  Deletion re-opens a period.  When the payroll of a selected
    employee for a period is deleted, paid or not, a processing run for the
    period creates a new record for the employee, PENDING and without paid
    timestamp. *)
Theorem delete_then_process_recreates :
  forall (newId : list Payroll.t -> string) (db : Db) (p : Payroll.t)
         (e : Employee.t) (m y : Z) (employeeIds : option (list string)),
    unique_periods (payrolls db) ->
    In p (payrolls db) ->
    period_key p = (Employee.id e, m, y) ->
    In e (employees db) ->
    selected_by employeeIds e ->
    m <> 0 -> y <> 0 ->
    exists r,
      In r (processed_of
              (snd (PayrollController.processPayroll newId
                      (fst (PayrollControllerMore.deletePayroll db (Payroll.id p)))
                      (ProcessBody.mk (Some m) (Some y) employeeIds)))) /\
      Payroll.employeeId (payroll r) = Employee.id e /\
      Payroll.month (payroll r) = m /\ Payroll.year (payroll r) = y /\
      Payroll.status (payroll r) = PENDING /\
      Payroll.paidAt (payroll r) = None.
Proof.
  intros newId db p e m y ids Hu Hp Hkey He Hsel Hm Hy.
  pose proof (deletePayroll_present db p Hp) as Hdel.
  set (db1 := fst (PayrollControllerMore.deletePayroll db (Payroll.id p))) in *.
  assert (Hemp : employees db1 = employees db) by (rewrite Hdel; reflexivity).
  assert (Hmem : forall q, In q (payrolls db1) <->
                           In q (payrolls db) /\ Payroll.id q <> Payroll.id p).
  { intros q. rewrite Hdel. cbn [payrolls].
    rewrite filter_In, negb_true_iff, String.eqb_neq. reflexivity. }
  assert (Hnone : has_payroll db1 m y e = false).
  { unfold has_payroll. apply not_true_is_false. intros Hex.
    apply existsb_exists in Hex. destruct Hex as (q & Hq & Hsame).
    apply Hmem in Hq. destruct Hq as [Hq Hne]. apply Hne. f_equal.
    apply (NoDup_map_In_eq period_key (payrolls db)); try assumption.
    rewrite Hkey. unfold Prisma.same_period in Hsame.
    apply andb_true_iff in Hsame. destruct Hsame as [Hsame H3].
    apply andb_true_iff in Hsame. destruct Hsame as [H1 H2].
    apply String.eqb_eq in H1. apply Z.eqb_eq in H2, H3.
    unfold period_key. congruence. }
  assert (He1 : In e (employees db1)) by (rewrite Hemp; exact He).
  assert (Hmf : Int4.fits m = true).
  { unfold period_key in Hkey. injection Hkey as _ <- _. apply Payroll.month_fits. }
  assert (Hyf : Int4.fits y = true).
  { unfold period_key in Hkey. injection Hkey as _ _ <-. apply Payroll.year_fits. }
  pose proof (processPayroll_covers_selection newId db1 m y ids e Hm Hy Hmf Hyf He1 Hsel)
    as Hcov.
  destruct (processPayroll_effect newId db1 (ProcessBody.mk (Some m) (Some y) ids))
    as (Hpay2 & _ & Hall).
  unfold has_payroll in Hcov, Hnone. rewrite Hpay2, existsb_app, Hnone in Hcov.
  simpl in Hcov. apply existsb_exists in Hcov. destruct Hcov as (q & Hq & Hsame).
  apply in_map_iff in Hq. destruct Hq as (r & <- & Hr).
  exists r. split; [exact Hr|].
  unfold Prisma.same_period in Hsame.
  apply andb_true_iff in Hsame. destruct Hsame as [Hsame H3].
  apply andb_true_iff in Hsame. destruct Hsame as [H1 H2].
  apply String.eqb_eq in H1. apply Z.eqb_eq in H2, H3.
  rewrite Forall_forall in Hall. destruct (Hall r Hr) as (e' & m' & y' & H).
  repeat split; try assumption; apply H.
Qed.

(** X7.  Paid is final short of deletion: with unique ids, a row that is
    PAID is still in the table, as it was, after a processing run, after a
    single mark-as-paid of any id, and after a bulk mark-as-paid of any
    ids; in particular its paid timestamp is never set again. *)
Theorem paid_rows_are_kept :
  forall (db : Db) (p : Payroll.t),
    NoDup (map Payroll.id (payrolls db)) ->
    In p (payrolls db) ->
    Payroll.status p = PAID ->
    (forall newId body,
       In p (payrolls (fst (PayrollController.processPayroll newId db body)))) /\
    (forall now id,
       In p (payrolls (fst (PayrollController.markPayrollAsPaid now db id)))) /\
    (forall now payrollIds,
       In p (payrolls (fst (PayrollController.bulkMarkAsPaid now db payrollIds)))).
Proof.
  intros db p Hnd Hin Hpaid. split; [|split].
  - intros newId body. destruct (processPayroll_effect newId db body) as (-> & _).
    apply in_or_app. left. exact Hin.
  - intros now id.
    unfold PayrollController.markPayrollAsPaid, Prisma.payroll_findUnique,
      Prisma.payroll_update_paid.
    destruct (find (fun q => String.eqb (Payroll.id q) id) (payrolls db))
      as [p0|] eqn:Hfind; [|exact Hin].
    destruct (PayrollStatus_eqb (Payroll.status p0) PAID) eqn:Hst; [exact Hin|].
    simpl. apply in_map_iff. exists p. split; [|exact Hin].
    destruct (String.eqb_spec (Payroll.id p) id) as [Hid|]; [|reflexivity].
    exfalso. subst id. rewrite (find_by_id_NoDup _ _ Hnd Hin) in Hfind.
    injection Hfind as <-. rewrite Hpaid in Hst. discriminate.
  - intros now ids.
    destruct (bulkMarkAsPaid_store now db ids) as [-> | (l & _ & ->)]; [exact Hin|].
    simpl. apply in_map_iff. exists p. split; [|exact Hin].
    destruct (Prisma.payroll_matches _ p) eqn:Hmatch; [|reflexivity].
    apply bulk_matches_targeted in Hmatch. destruct Hmatch as [_ Hpending].
    congruence.
Qed.

Lemma map_no_match (c : Payroll.t -> bool) (f : Payroll.t -> Payroll.t) l :
  (forall p, In p l -> c p = false) ->
  map (fun p => if c p then f p else p) l = l /\ filter c l = [].
Proof.
  induction l as [|a l IH]; intros H; [split; reflexivity|].
  simpl. rewrite (H a (or_introl eq_refl)).
  destruct IH as [IH1 IH2]; [intros q Hq; apply H; right; exact Hq|].
  rewrite IH1, IH2. split; reflexivity.
Qed.

(** X8.  Bulk mark-as-paid is idempotent: a second call with the same
    non-empty id list, at whatever time, changes nothing and reports
    updatedCount 0; the rows paid by the first call keep its timestamp. *)
Theorem bulkMarkAsPaid_twice :
  forall (now now' : Z) (db : Db) (ids : list string),
    ids <> [] ->
    PayrollController.bulkMarkAsPaid now'
      (fst (PayrollController.bulkMarkAsPaid now db (Some ids))) (Some ids) =
    (fst (PayrollController.bulkMarkAsPaid now db (Some ids)),
     ok 200 (Some (bulk_message 0)) {| BulkResult.updatedCount := 0 |}).
Proof.
  intros now now' db ids Hne.
  destruct ids as [|i ids]; [congruence|].
  unfold PayrollController.bulkMarkAsPaid.
  cbn [List.length Z.of_nat Z.eqb]. unfold Prisma.payroll_updateMany_paid.
  cbn [fst employees payrolls].
  set (w := {| Prisma.pw_id_in := Some (i :: ids); Prisma.pw_month := None;
               Prisma.pw_year := None; Prisma.pw_status := Some PENDING |}).
  set (l1 := map (fun p => if Prisma.payroll_matches w p
                           then Prisma.set_paid now p else p) (payrolls db)).
  destruct (map_no_match (Prisma.payroll_matches w) (Prisma.set_paid now') l1)
    as [Hmap Hfilter].
  { intros q Hq. subst l1. apply in_map_iff in Hq. destruct Hq as (p & <- & _).
    destruct (Prisma.payroll_matches w p) eqn:E; [|exact E].
    apply not_true_is_false. intros Hm. apply bulk_matches_targeted in Hm.
    destruct Hm as [_ Hst]. discriminate Hst. }
  rewrite Hmap, Hfilter. reflexivity.
Qed.

(** * The payroll summary *)







(** * The yearly, university-wide and per-employee reports *)








(** * The employee reports by type and by designation *)

Lemma byEmployeeType_sets tm e :
  ReportsControllerMore.byEmployeeType tm e =
  inr (JsMap.set EmployeeType_eqb tm (Employee.employeeType e)
         (type_entry_after (JsMap.get EmployeeType_eqb tm (Employee.employeeType e)) e)).
Proof.
  unfold ReportsControllerMore.byEmployeeType. cbv zeta.
  destruct (JsMap.has EmployeeType_eqb tm (Employee.employeeType e)) eqn:E.
  - destruct (JsMap_has_get_some _ _ _ E) as [v ->]. reflexivity.
  - rewrite (JsMap_has_get_none _ _ _ E). reflexivity.
Qed.

Lemma byEmployeeDesignation_sets tm e :
  ReportsControllerMore.byEmployeeDesignation tm e =
  inr (JsMap.set String.eqb tm (Employee.designation e)
         (type_entry_after (JsMap.get String.eqb tm (Employee.designation e)) e)).
Proof.
  unfold ReportsControllerMore.byEmployeeDesignation. cbv zeta.
  destruct (JsMap.has String.eqb tm (Employee.designation e)) eqn:E.
  - destruct (JsMap_has_get_some _ _ _ E) as [v ->]. reflexivity.
  - rewrite (JsMap_has_get_none _ _ _ E). reflexivity.
Qed.

(** A running total that is set to the first value and grown by the
    others. *)
Lemma fold_left_from_first {A : Type} (d : A -> float) (l : list A) :
  l <> [] ->
  fold_left (fun r a => Some (match r with
                              | Some t => (t + d a)%float
                              | None => d a
                              end)) l None =
  Some (added_up (map d l)).
Proof.
  destruct l as [|x rest]; [congruence|]. intros _.
  cbn [fold_left map added_up].
  generalize (d x). induction rest as [|a rest IH]; intros t; [reflexivity|].
  cbn [fold_left map]. apply IH.
Qed.

Section EmployeeGroups.
Context {K : Type} (eqb : K -> K -> bool).
Hypothesis eqb_eq : forall a b, eqb a b = true <-> a = b.
Variable key : Employee.t -> K.
Variable body : JsMap.t K (Z * float) -> Employee.t -> string + JsMap.t K (Z * float).
Hypothesis body_sets : forall tm e,
  body tm e =
  inr (JsMap.set eqb tm (key e) (type_entry_after (JsMap.get eqb tm (key e)) e)).

(** The Map the two employee reports build: one entry per key in use,
    with the number of employees of the key and their current net salaries
    added up in the order of the table. *)
Lemma employee_groups (es : list Employee.t) :
  exists tm,
    forEach body es [] = inr tm /\
    NoDup (map fst tm) /\
    (forall k, In k (map fst tm) <-> exists e, In e es /\ key e = k) /\
    Forall (fun entry =>
              fst (snd entry) =
                Z.of_nat (List.length (filter (fun e => eqb (key e) (fst entry)) es)) /\
              1 <= fst (snd entry) /\
              snd (snd entry) =
                added_up (map ReportsControllerMore.currentNetSalary
                              (filter (fun e => eqb (key e) (fst entry)) es)))
           tm /\
    Zsum (map (fun entry => fst (snd entry)) tm) = Z.of_nat (List.length es).
Proof.
  destruct (group_by_run eqb eqb_eq key type_entry_after body (fun _ => True)
              (fun tm e _ => body_sets tm e) es []
              (proj2 (Forall_forall _ _) (fun _ _ => I)) (NoDup_nil _))
    as (tm & Hrun & Hnd & Hget & Hkeys & Hsum & _).
  exists tm. split; [exact Hrun|]. split; [exact Hnd|]. split; [|split].
  - intros k. rewrite Hkeys. cbn [map In]. rewrite in_map_iff.
    split.
    + intros [[] | (e & He & Hin)]. exists e. auto.
    + intros (e & Hin & He). right. exists e. auto.
  - apply Forall_forall. intros [k v] Hin. cbn [fst snd].
    pose proof (JsMap_In_get eqb eqb_eq tm k v Hnd Hin) as Hv.
    rewrite Hget in Hv. cbn [JsMap.get] in Hv.
    pose proof (grouped_from_none _ _ _ _ _ _ Hv) as Hne.
    assert (Hcount : fst v = Z.of_nat (List.length (filter (fun e => eqb (key e) k) es))).
    { rewrite (grouped_column eqb key type_entry_after fst (fun c _ => c + 1) 0
                 (fun v0 a => match v0 with Some _ => eq_refl | None => eq_refl end)
                 k es None v Hv).
      rewrite fold_left_count. lia. }
    split; [exact Hcount|].
    split; [rewrite Hcount; apply length_filter_pos; exact Hne|].
    pose proof (grouped_column eqb key type_entry_after
                  (fun v0 : Z * float => Some (snd v0))
                  (fun r a => Some (match r with
                                    | Some t => (t + ReportsControllerMore.currentNetSalary a)%float
                                    | None => ReportsControllerMore.currentNetSalary a
                                    end))
                  None
                  (fun v0 a => match v0 with Some _ => eq_refl | None => eq_refl end)
                  k es None v Hv) as Htotal.
    cbv beta in Htotal. rewrite (fold_left_from_first _ _ Hne) in Htotal.
    injection Htotal as Htotal. exact Htotal.
  - change (map (fun entry : K * (Z * float) => fst (snd entry)) tm)
      with (map (fun entry : K * (Z * float) => fst (snd entry)) tm).
    rewrite <- (map_map snd fst). fold (JsMap.values tm).
    rewrite (Hsum fst (fun _ => 1)).
    + simpl. apply Zsum_ones.
    + intros [v|] a; reflexivity.
Qed.

End EmployeeGroups.

(** X11.  The employee report by type always answers 200.  It has one group
    per employee type that some employee has, each type once; a group's
    count is the number of employees of its type, at least 1, and its
    totalSalary is their current net salaries added up in the order of the
    table, starting from the first, every sum rounded to binary64; the
    counts add up to the number of employees, whatever their status and
    whether or not a payroll was processed. *)
Theorem getEmployeeTypeReport_groups_all_employees :
  forall (db : Db),
    exists groups,
      ReportsControllerMore.getEmployeeTypeReport db = ok 200 None groups /\
      NoDup (map TypeGroup.employeeType groups) /\
      (forall type, In type (map TypeGroup.employeeType groups) <->
                    exists e, In e (employees db) /\ Employee.employeeType e = type) /\
      Forall (fun g =>
                TypeGroup.count g =
                  Z.of_nat (List.length (of_type db (TypeGroup.employeeType g))) /\
                1 <= TypeGroup.count g /\
                TypeGroup.totalSalary g =
                  added_up (map ReportsControllerMore.currentNetSalary
                                (of_type db (TypeGroup.employeeType g))))
             groups /\
      Zsum (map TypeGroup.count groups) = Z.of_nat (List.length (employees db)).
Proof.
  intros db. unfold ReportsControllerMore.getEmployeeTypeReport.
  destruct (employee_groups EmployeeType_eqb EmployeeType_eqb_eq Employee.employeeType
              ReportsControllerMore.byEmployeeType byEmployeeType_sets (employees db))
    as (tm & -> & Hnd & Hkeys & Hgroups & Hsum).
  eexists. split; [reflexivity|].
  rewrite !map_map. cbn [TypeGroup.employeeType TypeGroup.count].
  split; [exact Hnd|]. split; [exact Hkeys|]. split; [|exact Hsum].
  apply Forall_map. eapply Forall_impl; [|exact Hgroups].
  intros entry H. exact H.
Qed.

(** X12.  The employee report by designation always answers 200 with one
    group per designation that some employee has, each once; a group's
    count is the number of employees with the designation, at least 1, and
    its totalSalary is their current net salaries added up in the order of
    the table, starting from the first, every sum rounded to binary64.
    Its counts add up to the number of employees, as do the counts of the
    employee report by type. *)
Theorem getDesignationReport_groups_all_employees :
  forall (db : Db),
    exists groups byType,
      ReportsControllerMore.getDesignationReport db = ok 200 None groups /\
      ReportsControllerMore.getEmployeeTypeReport db = ok 200 None byType /\
      NoDup (map DesignationGroup.designation groups) /\
      (forall d, In d (map DesignationGroup.designation groups) <->
                 exists e, In e (employees db) /\ Employee.designation e = d) /\
      Forall (fun g =>
                DesignationGroup.count g =
                  Z.of_nat (List.length
                              (with_designation db (DesignationGroup.designation g))) /\
                1 <= DesignationGroup.count g /\
                DesignationGroup.totalSalary g =
                  added_up (map ReportsControllerMore.currentNetSalary
                                (with_designation db (DesignationGroup.designation g))))
             groups /\
      Zsum (map DesignationGroup.count groups) = Z.of_nat (List.length (employees db)) /\
      Zsum (map DesignationGroup.count groups) = Zsum (map TypeGroup.count byType).
Proof.
  intros db. unfold ReportsControllerMore.getDesignationReport,
    ReportsControllerMore.getEmployeeTypeReport.
  destruct (employee_groups String.eqb string_eqb_eq Employee.designation
              ReportsControllerMore.byEmployeeDesignation byEmployeeDesignation_sets
              (employees db))
    as (dm & -> & Hnd & Hkeys & Hgroups & Hsum).
  destruct (employee_groups EmployeeType_eqb EmployeeType_eqb_eq Employee.employeeType
              ReportsControllerMore.byEmployeeType byEmployeeType_sets (employees db))
    as (tm & -> & _ & _ & _ & Hsumt).
  eexists. eexists. split; [reflexivity|]. split; [reflexivity|].
  rewrite !map_map.
  cbn [DesignationGroup.designation DesignationGroup.count TypeGroup.count].
  split; [exact Hnd|]. split; [exact Hkeys|]. split; [|split].
  - apply Forall_map. eapply Forall_impl; [|exact Hgroups].
    intros entry H. exact H.
  - exact Hsum.
  - rewrite Hsum, Hsumt. reflexivity.
Qed.
(** * The designation-wise report *)

Lemma JsMap_set_set {K V : Type} (eqb : K -> K -> bool) (m : JsMap.t K V) k v v' :
  (forall a, eqb a a = true) ->
  JsMap.set eqb (JsMap.set eqb m k v) k v' = JsMap.set eqb m k v'.
Proof.
  intros Hrefl. induction m as [|[k0 v0] m IH]; simpl.
  - rewrite Hrefl. reflexivity.
  - destruct (eqb k0 k) eqn:E; simpl; rewrite E; [reflexivity|].
    rewrite IH. reflexivity.
Qed.

Lemma byDesignationWise_sets db tm e :
  ReportControllerMore.byDesignationWise db tm e =
  inr (JsMap.set String.eqb tm (Employee.designation e)
         (designation_entry_after db
            (JsMap.get String.eqb tm (Employee.designation e)) e)).
Proof.
  unfold ReportControllerMore.byDesignationWise, designation_entry_after. cbv zeta.
  destruct (JsMap.has String.eqb tm (Employee.designation e)) eqn:E; cbn [negb].
  - destruct (JsMap_has_get_some _ _ _ E) as [v ->]. reflexivity.
  - rewrite (JsMap_has_get_none _ _ _ E).
    rewrite (JsMap_get_set_same String.eqb string_eqb_eq).
    rewrite (JsMap_set_set String.eqb _ _ _ _ String.eqb_refl). reflexivity.
Qed.

(** The running total of a group of the designation-wise report: the net
    salaries of the latest payrolls of its employees, added up from 0. *)
Lemma fold_left_latest db (es : list Employee.t) : forall s,
  fold_left (fun sum e => match ReportControllerMore.latestPayroll db e with
                          | Some p => (sum + Payroll.netSalary p)%float
                          | None => sum
                          end) es s =
  fold_left (fun sum v => (sum + v)%float)
            (map Payroll.netSalary (latest_payrolls db es)) s.
Proof.
  induction es as [|e es IH]; intros s; [reflexivity|].
  cbn [fold_left latest_payrolls flat_map].
  fold (latest_payrolls db es).
  destruct (ReportControllerMore.latestPayroll db e) as [p|]; cbn [app map fold_left];
    apply IH.
Qed.

Lemma latest_period_first_spec p q :
  PrismaMore.latest_period_first p q = true <-> not_earlier p q.
Proof.
  unfold PrismaMore.latest_period_first, not_earlier.
  rewrite orb_true_iff, andb_true_iff, Z.ltb_lt, Z.eqb_eq, Z.leb_le. reflexivity.
Qed.

Lemma latest_period_first_total p q :
  PrismaMore.latest_period_first p q = true \/ PrismaMore.latest_period_first q p = true.
Proof. rewrite !latest_period_first_spec. unfold not_earlier. lia. Qed.

Lemma latest_period_first_trans p q r :
  PrismaMore.latest_period_first p q = true ->
  PrismaMore.latest_period_first q r = true ->
  PrismaMore.latest_period_first p r = true.
Proof. rewrite !latest_period_first_spec. unfold not_earlier. lia. Qed.

Lemma StronglySorted_app_inv {A} (R : A -> A -> Prop) (l1 l2 : list A) :
  StronglySorted R (l1 ++ l2) ->
  StronglySorted R l1 /\ forall a b, In a l1 -> In b l2 -> R a b.
Proof.
  induction l1 as [|x l1 IH]; simpl; intros H.
  - split; [constructor | intros a b []].
  - inversion H as [|? ? Hs Hall]; subst.
    destruct (IH Hs) as [Hs1 Hcross]. split.
    + constructor; [exact Hs1|].
      apply Forall_forall. intros b Hb.
      rewrite Forall_forall in Hall. apply Hall. apply in_or_app. left; exact Hb.
    + intros a b [<- | Ha] Hb.
      * rewrite Forall_forall in Hall. apply Hall. apply in_or_app. right; exact Hb.
      * apply Hcross; assumption.
Qed.

(** The rows of an employee, latest period first. *)
Lemma history_sorted db employeeId :
  let sorted := PrismaMore.order_by PrismaMore.latest_period_first
                  (payrolls_of db employeeId) in
  StronglySorted not_earlier sorted /\
  Permutation (payrolls_of db employeeId) sorted.
Proof.
  cbv zeta. split.
  - eapply StronglySorted_weaken;
      [| apply order_by_sorted;
         [exact latest_period_first_total | exact latest_period_first_trans]].
    intros a b. apply latest_period_first_spec.
  - apply order_by_perm.
Qed.

Lemma skip_take_from_start {A} (take : Z) (l : list A) :
  PrismaMore.skip_take 0 take l = firstn (Z.to_nat take) l.
Proof. reflexivity. Qed.

(** The first [n] rows of the history: they are rows of the employee, in
    order, and no row left out is of a later period than one of them. *)
Lemma history_prefix db employeeId (n : nat) :
  let history := firstn n (PrismaMore.order_by PrismaMore.latest_period_first
                             (payrolls_of db employeeId)) in
  (List.length history <= n)%nat /\
  Forall (fun p => In p (payrolls db) /\ Payroll.employeeId p = employeeId) history /\
  StronglySorted not_earlier history /\
  (forall p q, In p history -> In q (payrolls_of db employeeId) -> ~ In q history ->
               not_earlier p q) /\
  ((List.length (payrolls_of db employeeId) <= n)%nat ->
   Permutation (payrolls_of db employeeId) history).
Proof.
  cbv zeta.
  destruct (history_sorted db employeeId) as [Hsorted Hperm].
  set (sorted := PrismaMore.order_by PrismaMore.latest_period_first
                   (payrolls_of db employeeId)) in *.
  pose proof (firstn_skipn n sorted) as Hsplit.
  rewrite <- Hsplit in Hsorted.
  destruct (StronglySorted_app_inv _ _ _ Hsorted) as [Hfirst Hcross].
  split; [apply firstn_le_length|]. split; [|split; [exact Hfirst|split]].
  - apply Forall_forall. intros p Hp.
    assert (Hin : In p (payrolls_of db employeeId)).
    { eapply Permutation_in; [apply Permutation_sym; exact Hperm|].
      rewrite <- Hsplit. apply in_or_app. left; exact Hp. }
    unfold payrolls_of in Hin. apply filter_In in Hin. destruct Hin as [Hin E].
    apply String.eqb_eq in E. auto.
  - intros p q Hp Hq Hnot. apply Hcross; [exact Hp|].
    assert (Hin : In q sorted) by (eapply Permutation_in; [exact Hperm | exact Hq]).
    rewrite <- Hsplit in Hin. apply in_app_or in Hin. tauto.
  - intros Hlen. rewrite firstn_all2; [exact Hperm|].
    rewrite <- (Permutation_length Hperm). exact Hlen.
Qed.

Lemma latestPayroll_spec db e :
  match ReportControllerMore.latestPayroll db e with
  | Some p =>
      In p (payrolls db) /\ Payroll.employeeId p = Employee.id e /\
      forall q, In q (payrolls db) -> Payroll.employeeId q = Employee.id e ->
                not_earlier p q
  | None => forall q, In q (payrolls db) -> Payroll.employeeId q <> Employee.id e
  end.
Proof.
  unfold ReportControllerMore.latestPayroll. rewrite skip_take_from_start.
  fold (payrolls_of db (Employee.id e)).
  destruct (history_sorted db (Employee.id e)) as [Hsorted Hperm].
  set (sorted := PrismaMore.order_by PrismaMore.latest_period_first
                   (payrolls_of db (Employee.id e))) in *.
  assert (Hof : forall q, In q sorted <->
                          In q (payrolls db) /\ Payroll.employeeId q = Employee.id e).
  { intros q. split.
    - intros H. apply (Permutation_in _ (Permutation_sym Hperm)) in H.
      unfold payrolls_of in H. apply filter_In in H. rewrite String.eqb_eq in H. exact H.
    - intros [H1 H2]. apply (Permutation_in _ Hperm).
      unfold payrolls_of. apply filter_In. rewrite String.eqb_eq. auto. }
  destruct sorted as [|p rest]; simpl.
  - intros q Hq Heq. apply (proj2 (Hof q)). auto.
  - destruct (proj1 (Hof p) (or_introl eq_refl)) as [Hin Hid].
    split; [exact Hin|]. split; [exact Hid|].
    intros q Hq Heq. destruct (proj2 (Hof q) (conj Hq Heq)) as [<- | Hrest].
    + unfold not_earlier. lia.
    + inversion Hsorted as [|? ? _ Hall]; subst.
      rewrite Forall_forall in Hall. exact (Hall q Hrest).
Qed.

(** Under the unique index a payroll of an employee that no other payroll
    of the employee is later than is the latest one. *)
Lemma latestPayroll_unique db e p q :
  unique_periods (payrolls db) ->
  ReportControllerMore.latestPayroll db e = Some p ->
  In q (payrolls db) -> Payroll.employeeId q = Employee.id e ->
  (forall q', In q' (payrolls db) -> Payroll.employeeId q' = Employee.id e ->
              not_earlier q q') ->
  q = p.
Proof.
  intros Hu Hp Hq Hid Hmax.
  pose proof (latestPayroll_spec db e) as Hspec. rewrite Hp in Hspec.
  destruct Hspec as (Hin & Hpid & Hpmax).
  pose proof (Hmax p Hin Hpid) as H1. pose proof (Hpmax q Hq Hid) as H2.
  apply (NoDup_map_In_eq period_key (payrolls db)); try assumption.
  unfold period_key, not_earlier in *. f_equal; [f_equal; [congruence | lia] | lia].
Qed.

(** X13.  The designation-wise report, on a table with at most one payroll
    per employee, month and year.  It answers 200 with one group per
    designation that some employee has, each once.  A group's count is the
    number of employees with the designation, at least 1, and its
    totalSalary is the net salaries of the latest payrolls of these
    employees added up from 0 in the order of the table, every sum rounded
    to binary64, an employee without payroll adding nothing.  The latest
    payroll of an employee is one of that employee's, none of that
    employee's is of a later period, and it is the only one of which that
    is true. *)
Theorem getDesignationWiseReport_latest_payrolls :
  forall (db : Db),
    unique_periods (payrolls db) ->
    exists groups,
      ReportControllerMore.getDesignationWiseReport db = ok 200 None groups /\
      NoDup (map DesignationWise.designation groups) /\
      (forall d, In d (map DesignationWise.designation groups) <->
                 exists e, In e (employees db) /\ Employee.designation e = d) /\
      Forall (fun g =>
                DesignationWise.count g =
                  Z.of_nat (List.length
                              (with_designation db (DesignationWise.designation g))) /\
                1 <= DesignationWise.count g /\
                DesignationWise.totalSalary g =
                  running_sum
                    (map Payroll.netSalary
                         (latest_payrolls db
                            (with_designation db (DesignationWise.designation g)))))
             groups /\
      Zsum (map DesignationWise.count groups) = Z.of_nat (List.length (employees db)) /\
      forall e,
        match ReportControllerMore.latestPayroll db e with
        | Some p =>
            In p (payrolls db) /\ Payroll.employeeId p = Employee.id e /\
            (forall q, In q (payrolls db) -> Payroll.employeeId q = Employee.id e ->
                       not_earlier p q) /\
            (forall q, In q (payrolls db) -> Payroll.employeeId q = Employee.id e ->
               (forall q', In q' (payrolls db) -> Payroll.employeeId q' = Employee.id e ->
                           not_earlier q q') ->
               q = p)
        | None => forall q, In q (payrolls db) -> Payroll.employeeId q <> Employee.id e
        end.
Proof.
  intros db Hu. unfold ReportControllerMore.getDesignationWiseReport.
  destruct (group_by_run String.eqb string_eqb_eq
              Employee.designation (designation_entry_after db)
              (ReportControllerMore.byDesignationWise db) (fun _ => True)
              (fun tm e _ => byDesignationWise_sets db tm e)
              (employees db) []
              (proj2 (Forall_forall _ _) (fun _ _ => I)) (NoDup_nil _))
    as (tm & -> & Hnd & Hget & Hkeys & Hsum & Hinv).
  eexists. split; [reflexivity|].
  assert (Hkey : forall k v, In (k, v) tm -> DesignationWise.designation v = k).
  { apply (Hinv (fun k v => DesignationWise.designation v = k)).
    - intros [v0|] a H; simpl; [exact H | reflexivity].
    - intros k v []. }
  assert (Hk : map DesignationWise.designation (JsMap.values tm) = map fst tm).
  { unfold JsMap.values. rewrite map_map. apply map_ext_in. intros [k v] Hin.
    simpl. apply Hkey. exact Hin. }
  rewrite Hk. split; [exact Hnd|]. split; [|split; [|split]].
  - intros d. rewrite Hkeys. cbn [map In]. rewrite in_map_iff.
    split.
    + intros [[] | (e & He & Hin)]. exists e. auto.
    + intros (e & Hin & He). right. exists e. auto.
  - unfold JsMap.values. apply Forall_map. apply Forall_forall. intros [k v] Hin.
    cbn [snd]. rewrite (Hkey k v Hin).
    pose proof (JsMap_In_get String.eqb string_eqb_eq tm k v Hnd Hin) as Hv.
    rewrite Hget in Hv. cbn [JsMap.get] in Hv.
    pose proof (grouped_from_none _ _ _ _ _ _ Hv) as Hne.
    assert (Hcount : DesignationWise.count v =
                     Z.of_nat (List.length (with_designation db k))).
    { rewrite (grouped_column String.eqb Employee.designation (designation_entry_after db)
                 DesignationWise.count (fun c _ => c + 1) 0
                 (fun v0 a => match v0 with Some _ => eq_refl | None => eq_refl end)
                 k (employees db) None v Hv).
      rewrite fold_left_count. unfold with_designation. lia. }
    split; [exact Hcount|].
    split; [rewrite Hcount; apply length_filter_pos; exact Hne|].
    rewrite (grouped_column String.eqb Employee.designation (designation_entry_after db)
               DesignationWise.totalSalary
               (fun sum e => match ReportControllerMore.latestPayroll db e with
                             | Some p => (sum + Payroll.netSalary p)%float
                             | None => sum
                             end) 0%float
               (fun v0 a => match v0 with Some _ => eq_refl | None => eq_refl end)
               k (employees db) None v Hv).
    apply fold_left_latest.
  - rewrite (Hsum DesignationWise.count (fun _ => 1)).
    + simpl. apply Zsum_ones.
    + intros [v|] a; reflexivity.
  - intros e. pose proof (latestPayroll_spec db e) as Hspec.
    destruct (ReportControllerMore.latestPayroll db e) as [p|] eqn:Hp; [|exact Hspec].
    destruct Hspec as (Hin & Hid & Hmax).
    split; [exact Hin|]. split; [exact Hid|]. split; [exact Hmax|].
    intros q Hq Hqid Hqmax. exact (latestPayroll_unique db e p q Hu Hp Hq Hqid Hqmax).
Qed.

(** X14.  The salary history of an unknown employee is a 404.  For a known
    employee the answer is 200 with at most [limit] rows (12 when no limit
    is given), all of them payroll rows of that employee, latest period
    first; a row of the employee that is left out is of no later period
    than any row returned, and nothing is left out when the employee has no
    more rows than the limit. *)
Theorem getEmployeeSalaryHistory_latest_first :
  forall (db : Db) (employeeId : string) (limit : option positive),
    match Prisma.employee_findUnique db employeeId with
    | None =>
        ReportControllerMore.getEmployeeSalaryHistory db employeeId limit =
        failure 404 "Employee not found"
    | Some employee =>
        exists history,
          ReportControllerMore.getEmployeeSalaryHistory db employeeId limit =
          ok 200 None {| SalaryHistory.employee := employee;
                         SalaryHistory.salaryHistory := history |} /\
          (List.length history <=
           Pos.to_nat (match limit with Some n => n | None => 12%positive end))%nat /\
          Forall (fun p => In p (payrolls db) /\ Payroll.employeeId p = employeeId)
                 history /\
          StronglySorted not_earlier history /\
          (forall p q, In p history -> In q (payrolls_of db employeeId) ->
                       ~ In q history -> not_earlier p q) /\
          ((List.length (payrolls_of db employeeId) <=
            Pos.to_nat (match limit with Some n => n | None => 12%positive end))%nat ->
           Permutation (payrolls_of db employeeId) history)
    end.
Proof.
  intros db employeeId limit. unfold ReportControllerMore.getEmployeeSalaryHistory.
  destruct (Prisma.employee_findUnique db employeeId) as [employee|]; [|reflexivity].
  cbv zeta. rewrite skip_take_from_start. fold (payrolls_of db employeeId).
  eexists. split; [reflexivity|].
  replace (Z.to_nat (match limit with Some n => Z.pos n | None => 12 end))
    with (Pos.to_nat (match limit with Some n => n | None => 12%positive end))
    by (destruct limit; reflexivity).
  apply history_prefix.
Qed.

(** * The reports on the stores the endpoints reach *)

Lemma foreign_key_findUnique db :
  foreign_key_holds db ->
  forall p, In p (payrolls db) ->
            Prisma.employee_findUnique db (Payroll.employeeId p) <> None.
Proof.
  intros Hfk p Hp. destruct (Hfk p Hp) as (e & Hin & Hid).
  destruct (employee_findUnique_In db e Hin) as [e' He']. rewrite <- Hid, He'.
  discriminate.
Qed.

Lemma foreign_key_period db m y :
  foreign_key_holds db -> period_has_employees db m y.
Proof.
  intros Hfk p Hp. apply (foreign_key_findUnique db Hfk).
  unfold Prisma.payroll_rows in Hp. apply filter_In in Hp. apply Hp.
Qed.

(** X15.  The invariants of the Payroll table hold in every store the
    endpoints reach from a store without payrolls: at most one payroll per
    employee, month and year; every payroll satisfies the two salary
    equations, its sums grouped and rounded as processPayroll computes
    them; a payroll is PAID exactly when it has a paid timestamp; every
    payroll refers to an employee of the store.  On such a store the
    callbacks of the salary report by type and of the designation report
    never meet a record without employee: both answer 200 for every period
    whose month and year fit the INTEGER columns, and 500 with the message
    of the failed query for every other period. *)
Theorem reachable_store_invariant :
  forall db, reachable db ->
    store_invariant db /\
    forall m y,
      period_has_employees db m y /\
      (Int4.fits m = true -> Int4.fits y = true ->
       exists byType byDesignation,
         ReportController.getSalaryReportByType db (Some m) (Some y) =
           ok 200 None {| ReportController.Report.period := (m, y);
                          ReportController.Report.report := byType |} /\
         ReportController.getDesignationReport db (Some m) (Some y) =
           ok 200 None {| ReportController.Report.period := (m, y);
                          ReportController.Report.report := byDesignation |}) /\
      (forall err, Prisma.period_error (Some m) (Some y) = Some err ->
         ReportController.getSalaryReportByType db (Some m) (Some y) =
           server_error "Failed to generate salary report" err /\
         ReportController.getDesignationReport db (Some m) (Some y) =
           server_error "Failed to generate designation report" err).
Proof.
  intros db Hr. pose proof (reachable_invariant db Hr) as Hinv.
  split; [exact Hinv|]. intros m y.
  destruct Hinv as (_ & _ & _ & Hfk).
  pose proof (foreign_key_period db m y Hfk) as Hp.
  split; [exact Hp|]. split.
  - intros Hm Hy.
    unfold ReportController.getSalaryReportByType, ReportController.getDesignationReport.
    rewrite (findMany_with_employee_fits _ _ _ Hm Hy).
    pose proof (period_records_valid db m y Hp) as Hvalid.
    destruct (group_by_run EmployeeType_eqb EmployeeType_eqb_eq
                type_key type_data_after ReportController.byType
                (fun row => employee row <> None) byType_sets
                (period_records db m y) [] Hvalid (NoDup_nil _))
      as (tm & -> & _).
    destruct (group_by_run String.eqb string_eqb_eq
                designation_key desig_data_after ReportController.byDesignation
                (fun row => employee row <> None) byDesignation_sets
                (period_records db m y) [] Hvalid (NoDup_nil _))
      as (dm & -> & _).
    eexists. eexists. split; reflexivity.
  - intros err Herr.
    unfold ReportController.getSalaryReportByType, ReportController.getDesignationReport.
    rewrite (findMany_with_employee_overflow _ _ _ _ Herr). split; reflexivity.
Qed.
(** * The university total *)

(** X16.  Both university-total endpoints answer alike.  For a month and
    year that fit the INTEGER columns both answer 200 with the same six
    figures: totalEmployees is the number of payrolls of the period, and
    the basic, gross and net totals are the columns of these payrolls added
    up from 0 in the order they are read, every addition rounded to
    binary64.  When every payroll of the period refers to an employee, the
    salary report by type of the period answers 200 too and the counts of
    its groups add up to totalEmployees.  For any other month or year both
    endpoints answer 500 with the message of the failed query. *)
Theorem university_total_reconciles_with_type_report :
  forall (db : Db) (m y : Z),
    (Int4.fits m = true -> Int4.fits y = true ->
     exists u,
       ReportControllerMore.getUniversityTotal db (Some m) (Some y) = ok 200 None u /\
       ReportsControllerMore.getUniversityTotal db (Some m) (Some y) =
         ok 200 None
           {| UniversityStats.totalEmployees := UniversityTotal.totalEmployees u;
              UniversityStats.totalBasic := UniversityTotal.totalBasic u;
              UniversityStats.totalGross := UniversityTotal.totalGross u;
              UniversityStats.totalNet := UniversityTotal.totalNet u;
              UniversityStats.totalAllowances := UniversityTotal.totalAllowances u;
              UniversityStats.totalDeductions := UniversityTotal.totalDeductions u;
              UniversityStats.month := m;
              UniversityStats.year := y |} /\
       let rows := Prisma.payroll_rows db (ReportController.period_where m y) in
       UniversityTotal.totalEmployees u = Z.of_nat (List.length rows) /\
       UniversityTotal.totalBasic u = running_sum (map Payroll.basicSalary rows) /\
       UniversityTotal.totalGross u = running_sum (map Payroll.grossSalary rows) /\
       UniversityTotal.totalNet u = running_sum (map Payroll.netSalary rows) /\
       (period_has_employees db m y ->
        exists groups,
          ReportController.getSalaryReportByType db (Some m) (Some y) =
            ok 200 None {| ReportController.Report.period := (m, y);
                           ReportController.Report.report := groups |} /\
          Zsum (map ReportController.TypeData.count groups) =
            UniversityTotal.totalEmployees u)) /\
    (forall err, Prisma.period_error (Some m) (Some y) = Some err ->
       ReportControllerMore.getUniversityTotal db (Some m) (Some y) =
         server_error "Failed to fetch university total" err /\
       ReportsControllerMore.getUniversityTotal db (Some m) (Some y) =
         server_error "Failed to fetch university total" err).
Proof.
  intros db m y. split.
  - intros Hm Hy.
    unfold ReportControllerMore.getUniversityTotal, ReportsControllerMore.getUniversityTotal.
    rewrite (findMany_period_fits _ _ _ Hm Hy).
    eexists. split; [reflexivity|]. split; [reflexivity|].
    cbv zeta.
    cbn [UniversityTotal.totalEmployees UniversityTotal.totalBasic UniversityTotal.totalGross
         UniversityTotal.totalNet].
    split; [reflexivity|].
    split; [apply running_total|]. split; [apply running_total|].
    split; [apply running_total|].
    intros Hp. unfold ReportController.getSalaryReportByType.
    rewrite (findMany_with_employee_fits _ _ _ Hm Hy).
    pose proof (period_records_valid db m y Hp) as Hvalid.
    destruct (group_by_run EmployeeType_eqb EmployeeType_eqb_eq
                type_key type_data_after ReportController.byType
                (fun row => employee row <> None) byType_sets
                (period_records db m y) [] Hvalid (NoDup_nil _))
      as (tm & -> & _ & _ & _ & Hsum & _).
    eexists. split; [reflexivity|].
    rewrite (Hsum ReportController.TypeData.count (fun _ => 1)).
    + simpl. rewrite Zsum_ones. unfold period_records. rewrite length_map. reflexivity.
    + intros [v|] a; reflexivity.
  - intros err Herr.
    unfold ReportControllerMore.getUniversityTotal, ReportsControllerMore.getUniversityTotal,
      Prisma.payroll_findMany.
    cbn [ReportController.period_where Prisma.pw_month Prisma.pw_year].
    rewrite Herr. split; reflexivity.
Qed.
(** * Salary slips *)

Lemma findFirst_period_overflow (db : Db) (eid : string) (m y : Z) (err : string) :
  Prisma.period_error (Some m) (Some y) = Some err ->
  Prisma.payroll_findFirst_employeeId_month_year db eid m y = inl err.
Proof.
  intros H. unfold Prisma.payroll_findFirst_employeeId_month_year.
  rewrite H. reflexivity.
Qed.

(** * Deleting an employee *)

(** X18.  Deleting an unknown employee is a 404 that leaves the store alone.
    Deleting a known one answers 200, removes the employee and, with it,
    every payroll of that employee and nothing else; afterwards the salary
    history of the id is a 404, and so is its salary slip for any month
    and year that fit the INTEGER columns (for any other the slip query
    fails, a 500 with its message). *)
Theorem deleteEmployee_cascades :
  forall (db : Db) (id : string),
    match Prisma.employee_findUnique db id with
    | None =>
        EmployeeController.deleteEmployee db id = (db, failure 404 "Employee not found")
    | Some _ =>
        exists db',
          EmployeeController.deleteEmployee db id =
            (db', mkResponse 200 true (Some "Employee deleted successfully"%string)
                    None None) /\
          (forall e, In e (employees db') <-> In e (employees db) /\ Employee.id e <> id) /\
          (forall p, In p (payrolls db') <->
                     In p (payrolls db) /\ Payroll.employeeId p <> id) /\
          (forall limit,
             ReportControllerMore.getEmployeeSalaryHistory db' id limit =
             failure 404 "Employee not found") /\
          (forall m y,
             (Int4.fits m = true -> Int4.fits y = true ->
              ReportControllerMore.getSalarySlip db' (Some id) (Some m) (Some y) =
              failure 404 "Salary slip not found for the given period") /\
             (forall err, Prisma.period_error (Some m) (Some y) = Some err ->
                ReportControllerMore.getSalarySlip db' (Some id) (Some m) (Some y) =
                server_error "Failed to fetch salary slip" err))
    end.
Proof.
  intros db id. unfold EmployeeController.deleteEmployee, EmployeeController.employee_delete.
  destruct (Prisma.employee_findUnique db id) as [e|] eqn:E; [|reflexivity].
  eexists. split; [reflexivity|].
  assert (He : forall e0,
            In e0 (filter (fun e1 => negb (String.eqb (Employee.id e1) id)) (employees db))
            <-> In e0 (employees db) /\ Employee.id e0 <> id).
  { intros e0. rewrite filter_In, negb_true_iff, String.eqb_neq. reflexivity. }
  assert (Hp : forall p,
            In p (filter (fun q => negb (String.eqb (Payroll.employeeId q) id)) (payrolls db))
            <-> In p (payrolls db) /\ Payroll.employeeId p <> id).
  { intros p. rewrite filter_In, negb_true_iff, String.eqb_neq. reflexivity. }
  cbn [employees payrolls]. split; [exact He|]. split; [exact Hp|]. split.
  - intros limit. unfold ReportControllerMore.getEmployeeSalaryHistory,
      Prisma.employee_findUnique. cbn [employees].
    destruct (find _ (filter _ (employees db))) as [e0|] eqn:F; [|reflexivity].
    apply find_some in F. destruct F as [F1 F2].
    apply He in F1. apply String.eqb_eq in F2. tauto.
  - intros m y. unfold ReportControllerMore.getSalarySlip. split.
    + intros Hm Hy. rewrite (findFirst_period_fits _ _ _ _ Hm Hy). cbn [payrolls].
      destruct (find _ (filter _ (payrolls db))) as [p|] eqn:F; [|reflexivity].
      apply find_some in F. destruct F as [F1 F2].
      apply Hp in F1. unfold Prisma.same_period in F2.
      apply andb_true_iff in F2. destruct F2 as [F2 _].
      apply andb_true_iff in F2. destruct F2 as [F2 _].
      apply String.eqb_eq in F2. tauto.
    + intros err Herr. rewrite (findFirst_period_overflow _ _ _ _ _ Herr). reflexivity.
Qed.

(** * Employee statistics *)

Lemma employee_counts_by_type (l : list Employee.t) :
  List.length l =
  (List.length (filter (fun e => EmployeeType_eqb (Employee.employeeType e) TEACHER) l) +
   List.length (filter (fun e => EmployeeType_eqb (Employee.employeeType e) OFFICER) l) +
   List.length (filter (fun e => EmployeeType_eqb (Employee.employeeType e) STAFF) l))%nat.
Proof.
  induction l as [|e l IH]; [reflexivity|].
  cbn [filter List.length]. destruct (Employee.employeeType e); simpl; lia.
Qed.

Lemma employee_counts_by_status (l : list Employee.t) :
  List.length l =
  (List.length (filter (fun e => EmployeeStatus_eqb (Employee.status e) ACTIVE) l) +
   List.length (filter (fun e => EmployeeStatus_eqb (Employee.status e) INACTIVE) l))%nat.
Proof.
  induction l as [|e l IH]; [reflexivity|].
  cbn [filter List.length]. destruct (Employee.status e); simpl; lia.
Qed.

Lemma filter_all {A} (l : list A) : filter (fun _ => true) l = l.
Proof. induction l as [|a l IH]; simpl; [reflexivity | rewrite IH; reflexivity]. Qed.

(** X19.  The employee statistics answer 200 and their breakdowns add up:
    the total is the number of employees, it is teachers + officers + staff,
    and it is active + inactive; the active count is the number of
    employees a payroll run without employeeIds selects. *)
Theorem getEmployeeStats_breakdowns_add_up :
  forall (db : Db),
    exists s,
      EmployeeController.getEmployeeStats db = ok 200 None s /\
      EmployeeStats.total s = Z.of_nat (List.length (employees db)) /\
      EmployeeStats.total s =
        EmployeeStats.teachers s + EmployeeStats.officers s + EmployeeStats.staff s /\
      EmployeeStats.total s = EmployeeStats.active s + EmployeeStats.inactive s /\
      EmployeeStats.active s =
        Z.of_nat (List.length
                    (Prisma.employee_findMany db (PayrollController.employees_where None))).
Proof.
  intros db. eexists. split; [reflexivity|].
  cbn [EmployeeStats.total EmployeeStats.teachers EmployeeStats.officers
       EmployeeStats.staff EmployeeStats.active EmployeeStats.inactive].
  unfold EmployeeController.employee_count. rewrite filter_all.
  split; [reflexivity|]. split; [|split].
  - rewrite (employee_counts_by_type (employees db)) at 1. lia.
  - rewrite (employee_counts_by_status (employees db)) at 1. lia.
  - f_equal. f_equal. apply filter_ext. intros e.
    unfold Prisma.employee_matches. simpl. rewrite ?andb_true_r, ?andb_true_l. reflexivity.
Qed.

(** * The payroll service *)

Lemma findMany_active db :
  Prisma.employee_findMany db
    {| Prisma.ew_status := Some ACTIVE; Prisma.ew_id_in := None |} =
  active_employees db.
Proof.
  unfold Prisma.employee_findMany, active_employees. apply filter_ext.
  intros e. unfold Prisma.employee_matches. simpl.
  rewrite ?andb_true_r. reflexivity.
Qed.

(** X20.  The monthly run of the service, on the rows of the Employee
    table, creates nothing: it returns no result, leaves the store as it
    is, and returns one error per ACTIVE employee, in the order of the
    table, with the employee's id and name.  The error is the range error
    of the lookup when the month or year does not fit the INTEGER columns,
    the message for a processed period when the employee has a payroll of
    the period, and otherwise the TypeError of [Object.values] on the
    [allowances] that a row does not have.  A second run on the store the
    first one left returns the same. *)
Theorem processMonthlyPayroll_second_run_creates_nothing :
  forall (now now' : Z) (db : Db) (m y : Z),
    let first := PayrollService.processMonthlyPayroll now db m y in
    PayrollService.m_db first = db /\
    PayrollService.results first = [] /\
    PayrollService.errors first =
      map (fun e =>
             {| PayrollService.MonthlyError.employeeId := Employee.id e;
                PayrollService.MonthlyError.employeeName := Employee.name e;
                PayrollService.MonthlyError.error :=
                  match Prisma.period_error (Some m) (Some y) with
                  | Some err => err
                  | None =>
                      if has_payroll db m y e
                      then "Payroll already processed for this period"%string
                      else PayrollService.type_error
                  end |})
          (active_employees db) /\
    PayrollService.processMonthlyPayroll now' (PayrollService.m_db first) m y = first.
Proof.
  intros now now' db m y first.
  assert (Hfirst : forall t,
            PayrollService.processMonthlyPayroll t db m y =
            {| PayrollService.m_db := db;
               PayrollService.results := [];
               PayrollService.errors :=
                 map (fun e =>
                        {| PayrollService.MonthlyError.employeeId := Employee.id e;
                           PayrollService.MonthlyError.employeeName := Employee.name e;
                           PayrollService.MonthlyError.error :=
                             service_error db (Employee.id e) m y |})
                     (active_employees db) |}).
  { intros t. unfold PayrollService.processMonthlyPayroll. cbv zeta.
    rewrite service_processMonthly_loop, findMany_active. reflexivity. }
  unfold first. rewrite (Hfirst now). cbn [PayrollService.m_db PayrollService.results
                                          PayrollService.errors].
  split; [reflexivity|]. split; [reflexivity|]. split; [|apply Hfirst].
  apply map_ext_in. intros e He. f_equal.
  unfold service_error, has_payroll.
  destruct (Prisma.period_error (Some m) (Some y)); [reflexivity|].
  destruct (existsb _ (payrolls db)); [reflexivity|].
  unfold active_employees in He. apply filter_In in He. destruct He as [He _].
  destruct (employee_findUnique_In db e He) as [e' ->]. reflexivity.
Qed.
(** ** The summary of the service *)

(** X21.  The summary of the service reads [allowances], [deductions] and
    [employeeType] of the rows of the Payroll table, which have none of
    them.  For a month and year that fit the INTEGER columns it returns the
    summary of zeros when the period has no payroll, and throws the
    TypeError of [Object.values] as soon as the period has one; for any
    other month or year it throws the range error of the query. *)
Theorem service_summary_throws_on_records :
  forall (db : Db) (m y : Z),
    (Int4.fits m = true -> Int4.fits y = true ->
     PayrollServiceMore.getPayrollSummary db m y =
       match Prisma.payroll_rows db (ReportController.period_where m y) with
       | [] => inr (PayrollServiceMore.emptySummary 0)
       | _ :: _ => inl PayrollService.type_error
       end) /\
    (forall err, Prisma.period_error (Some m) (Some y) = Some err ->
       PayrollServiceMore.getPayrollSummary db m y = inl err).
Proof.
  intros db m y. unfold PayrollServiceMore.getPayrollSummary. split.
  - intros Hm Hy. rewrite (findMany_period_fits _ _ _ Hm Hy).
    destruct (Prisma.payroll_rows db (ReportController.period_where m y)); reflexivity.
  - intros err Herr. unfold Prisma.payroll_findMany.
    cbn [ReportController.period_where Prisma.pw_month Prisma.pw_year].
    rewrite Herr. reflexivity.
Qed.
(** * The settings routes *)

Lemma settings_object_lookup k rows : forall obj,
  k <> "__proto__"%string ->
  NoDup (map Setting.key rows) ->
  JsMap.get String.eqb
    (fold_left (fun settingsObj setting =>
                  SettingsRoutes.assign settingsObj (Setting.key setting)
                                        (Setting.value setting)) rows obj) k =
  match SettingsRoutes.findUnique rows k with
  | Some s => Some (Setting.value s)
  | None => JsMap.get String.eqb obj k
  end.
Proof.
  unfold SettingsRoutes.findUnique.
  induction rows as [|a rows IH]; intros obj Hk Hnd; [reflexivity|].
  inversion Hnd as [|? ? Hnotin Hnd']; subst.
  cbn [fold_left find]. rewrite (IH _ Hk Hnd').
  unfold SettingsRoutes.assign.
  destruct (String.eqb (Setting.key a) k) eqn:E.
  - apply String.eqb_eq in E. subst k.
    rewrite (proj2 (String.eqb_neq _ _) Hk).
    destruct (find _ rows) as [s|] eqn:F.
    + exfalso. apply find_some in F. destruct F as [Hin Hk'].
      apply String.eqb_eq in Hk'. apply Hnotin. rewrite <- Hk'.
      apply in_map. exact Hin.
    + apply (JsMap_get_set_same String.eqb string_eqb_eq).
  - destruct (find _ rows); [reflexivity|].
    destruct (String.eqb (Setting.key a) "__proto__"%string); [reflexivity|].
    apply (JsMap_get_set_other String.eqb string_eqb_eq).
    intros ->. rewrite String.eqb_refl in E. discriminate.
Qed.

(** No row makes '__proto__' a property of the object. *)
Lemma settings_object_proto rows : forall obj,
  JsMap.get String.eqb
    (fold_left (fun settingsObj setting =>
                  SettingsRoutes.assign settingsObj (Setting.key setting)
                                        (Setting.value setting)) rows obj) "__proto__"%string =
  JsMap.get String.eqb obj "__proto__"%string.
Proof.
  induction rows as [|a rows IH]; intros obj; [reflexivity|].
  cbn [fold_left]. rewrite IH. unfold SettingsRoutes.assign.
  destruct (String.eqb (Setting.key a) "__proto__"%string) eqn:E; [reflexivity|].
  apply (JsMap_get_set_other String.eqb string_eqb_eq).
  intros H. rewrite H, String.eqb_refl in E. discriminate.
Qed.

Lemma upsert_keys table key v :
  map Setting.key (fst (SettingsRoutes.upsert table key v)) =
  match SettingsRoutes.findUnique table key with
  | Some _ => map Setting.key table
  | None => map Setting.key table ++ [key]
  end.
Proof.
  unfold SettingsRoutes.upsert.
  destruct (SettingsRoutes.findUnique table key); cbn [fst].
  - rewrite map_map. apply map_ext. intros s.
    destruct (String.eqb (Setting.key s) key); reflexivity.
  - rewrite map_app. reflexivity.
Qed.

Lemma update_lookup table key v k :
  find (fun s => String.eqb (Setting.key s) k)
       (map (fun s => if String.eqb (Setting.key s) key
                      then {| Setting.key := Setting.key s; Setting.value := v |}
                      else s) table) =
  if String.eqb key k
  then match find (fun s => String.eqb (Setting.key s) key) table with
       | Some found => Some {| Setting.key := Setting.key found; Setting.value := v |}
       | None => None
       end
  else find (fun s => String.eqb (Setting.key s) k) table.
Proof.
  induction table as [|a table IH]; cbn [map find].
  - destruct (String.eqb key k); reflexivity.
  - destruct (String.eqb (Setting.key a) key) eqn:Ea; cbn [Setting.key].
    + apply String.eqb_eq in Ea. rewrite Ea in *.
      destruct (String.eqb key k) eqn:Ek; [reflexivity | exact IH].
    + destruct (String.eqb (Setting.key a) k) eqn:Eak.
      * apply String.eqb_eq in Eak. subst k.
        rewrite String.eqb_sym, Ea. reflexivity.
      * exact IH.
Qed.

Lemma upsert_lookup table key v k :
  SettingsRoutes.findUnique (fst (SettingsRoutes.upsert table key v)) k =
  if String.eqb key k
  then Some {| Setting.key := key; Setting.value := v |}
  else SettingsRoutes.findUnique table k.
Proof.
  unfold SettingsRoutes.upsert, SettingsRoutes.findUnique.
  destruct (find (fun s => String.eqb (Setting.key s) key) table) as [found|] eqn:F;
    cbn [fst].
  - rewrite update_lookup, F. apply find_some in F. destruct F as [_ F].
    apply String.eqb_eq in F. rewrite F. reflexivity.
  - induction table as [|a table IH]; cbn [app find Setting.key].
    + destruct (String.eqb key k); reflexivity.
    + cbn [find] in F. destruct (String.eqb (Setting.key a) key) eqn:Ea; [discriminate|].
      destruct (String.eqb (Setting.key a) k) eqn:Ek.
      * apply String.eqb_eq in Ek. subst k. rewrite String.eqb_sym, Ea. reflexivity.
      * exact (IH F).
Qed.

Lemma upsert_row table key v :
  snd (SettingsRoutes.upsert table key v) = {| Setting.key := key; Setting.value := v |}.
Proof.
  unfold SettingsRoutes.upsert, SettingsRoutes.findUnique.
  destruct (find _ table) as [found|] eqn:F; cbn [snd]; [|reflexivity].
  apply find_some in F. destruct F as [_ F]. apply String.eqb_eq in F.
  rewrite F. reflexivity.
Qed.

Lemma upsert_NoDup table key v :
  NoDup (map Setting.key table) ->
  NoDup (map Setting.key (fst (SettingsRoutes.upsert table key v))).
Proof.
  intros Hnd. rewrite upsert_keys.
  destruct (SettingsRoutes.findUnique table key) eqn:F; [exact Hnd|].
  apply NoDup_snoc; [exact Hnd|].
  intros Hin. apply in_map_iff in Hin. destruct Hin as (s & Hk & Hin).
  unfold SettingsRoutes.findUnique in F.
  pose proof (find_none _ _ F s Hin) as Hs. simpl in Hs.
  rewrite Hk, String.eqb_refl in Hs. discriminate.
Qed.

(** X22.  A PUT with a non-empty value answers 200 with the setting, and the
    value is then what GET by that key returns, whether the key was new or
    not; the settings of the other keys are as before.  On a table with
    distinct keys the keys stay distinct, and the object of GET / has the
    value as its property of that key and every other property as before;
    the one exception is the key '__proto__', which is stored in the table
    like any other but never becomes a property of that object.  A PUT
    without value, or with an empty one, is a 400 that changes nothing. *)
Theorem settings_put_then_get :
  forall (table : SettingsRoutes.Table) (key v : string),
    v <> EmptyString ->
    exists table',
      SettingsRoutes.put table key (Some v) =
        (table', ok 200 (Some "Setting updated successfully"%string)
                   {| Setting.key := key; Setting.value := v |}) /\
      SettingsRoutes.getByKey table' key =
        ok 200 None {| Setting.key := key; Setting.value := v |} /\
      (forall k, k <> key ->
                 SettingsRoutes.getByKey table' k = SettingsRoutes.getByKey table k) /\
      (NoDup (map Setting.key table) ->
       NoDup (map Setting.key table') /\
       JsMap.get String.eqb (settings_object (SettingsRoutes.getAll table')) key =
         (if String.eqb key "__proto__"%string then None else Some v) /\
       forall k, k <> key ->
                 JsMap.get String.eqb (settings_object (SettingsRoutes.getAll table')) k =
                 JsMap.get String.eqb (settings_object (SettingsRoutes.getAll table)) k) /\
      SettingsRoutes.put table key None = (table, failure 400 "Value is required") /\
      SettingsRoutes.put table key (Some EmptyString) =
        (table, failure 400 "Value is required").
Proof.
  intros table key v Hv.
  exists (fst (SettingsRoutes.upsert table key v)).
  pose proof (upsert_row table key v) as Hrow.
  pose proof (upsert_lookup table key v) as Hlook.
  split; [|split; [|split; [|split; [|split; reflexivity]]]].
  - unfold SettingsRoutes.put.
    rewrite (proj2 (String.eqb_neq v EmptyString) Hv).
    destruct (SettingsRoutes.upsert table key v) as [table' setting].
    cbn [fst snd] in *. rewrite Hrow. reflexivity.
  - unfold SettingsRoutes.getByKey. rewrite Hlook, String.eqb_refl. reflexivity.
  - intros k Hk. unfold SettingsRoutes.getByKey. rewrite Hlook.
    rewrite (proj2 (String.eqb_neq key k)) by congruence. reflexivity.
  - intros Hnd. pose proof (upsert_NoDup table key v Hnd) as Hnd'.
    split; [exact Hnd'|].
    unfold SettingsRoutes.getAll, settings_object. cbn [data ok].
    split.
    + destruct (String.eqb key "__proto__"%string) eqn:E.
      * apply String.eqb_eq in E. subst key. apply settings_object_proto.
      * apply String.eqb_neq in E.
        rewrite (settings_object_lookup _ _ _ E Hnd'), Hlook, String.eqb_refl.
        reflexivity.
    + intros k Hk.
      destruct (String.eqb k "__proto__"%string) eqn:E.
      * apply String.eqb_eq in E. subst k. rewrite !settings_object_proto. reflexivity.
      * apply String.eqb_neq in E.
        rewrite (settings_object_lookup _ _ _ E Hnd'),
          (settings_object_lookup _ _ _ E Hnd), Hlook.
        rewrite (proj2 (String.eqb_neq key k)) by congruence. reflexivity.
Qed.
(** * The dashboard *)







(** * Updating an employee *)

Lemma employee_update_ids db id b :
  map Employee.id (employees (EmployeeControllerMore.employee_update db id b)) =
  map Employee.id (employees db).
Proof.
  unfold EmployeeControllerMore.employee_update. cbn [employees].
  rewrite map_map. apply map_ext. intros e.
  destruct (String.eqb (Employee.id e) id); reflexivity.
Qed.

Lemma employee_update_lookup db id b k :
  Prisma.employee_findUnique (EmployeeControllerMore.employee_update db id b) k =
  match Prisma.employee_findUnique db k with
  | Some e => Some (if String.eqb (Employee.id e) id
                    then EmployeeControllerMore.updated e b else e)
  | None => None
  end.
Proof.
  unfold Prisma.employee_findUnique, EmployeeControllerMore.employee_update.
  cbn [employees].
  induction (employees db) as [|a l IH]; [reflexivity|].
  cbn [map find].
  assert (Hk : Employee.id (if String.eqb (Employee.id a) id
                            then EmployeeControllerMore.updated a b else a) =
               Employee.id a).
  { destruct (String.eqb (Employee.id a) id); reflexivity. }
  rewrite Hk. destruct (String.eqb (Employee.id a) k); [reflexivity | exact IH].
Qed.

Lemma updateEmployee_store db id b :
  fst (EmployeeControllerMore.updateEmployee db id b) = db \/
  fst (EmployeeControllerMore.updateEmployee db id b) =
  EmployeeControllerMore.employee_update db id b.
Proof.
  unfold EmployeeControllerMore.updateEmployee.
  destruct (Prisma.employee_findUnique db id); [right | left]; reflexivity.
Qed.

Lemma updateEmployee_payrolls db id b :
  payrolls (fst (EmployeeControllerMore.updateEmployee db id b)) = payrolls db.
Proof.
  destruct (updateEmployee_store db id b) as [-> | ->]; reflexivity.
Qed.

Lemma updateEmployee_ids db id b :
  map Employee.id (employees (fst (EmployeeControllerMore.updateEmployee db id b))) =
  map Employee.id (employees db).
Proof.
  destruct (updateEmployee_store db id b) as [-> | ->];
    [reflexivity | apply employee_update_ids].
Qed.

(** X25.  Updating an unknown employee is a 404 that changes nothing.
    Updating a known one answers 200 with the row as it then is: the id and
    the type are kept, an absent field is kept, and so are a name or
    designation given empty and a basicSalary given as 0, while an
    allowance or deduction given as 0 becomes 0.  No update touches the
    Payroll table: the records already processed keep the amounts they were
    processed with, also through a later payroll run, and the store stays
    one the endpoints reach. *)
Theorem updateEmployee_keeps_processed_payrolls :
  forall (db : Db) (id : string) (b : UpdateBody.t),
    match Prisma.employee_findUnique db id with
    | None =>
        EmployeeControllerMore.updateEmployee db id b =
        (db, failure 404 "Employee not found")
    | Some e =>
        exists db',
          EmployeeControllerMore.updateEmployee db id b =
            (db', mkResponse 200 true (Some "Employee updated successfully"%string)
                    (Some (EmployeeControllerMore.updated e b)) None) /\
          Prisma.employee_findUnique db' id = Some (EmployeeControllerMore.updated e b) /\
          Employee.id (EmployeeControllerMore.updated e b) = id /\
          Employee.employeeType (EmployeeControllerMore.updated e b) =
            Employee.employeeType e /\
          (UpdateBody.basicSalary b = Some 0%float ->
           Employee.basicSalary (EmployeeControllerMore.updated e b) =
           Employee.basicSalary e) /\
          (UpdateBody.houseRent b = Some 0%float ->
           Employee.houseRent (EmployeeControllerMore.updated e b) = 0%float) /\
          (UpdateBody.name b = Some EmptyString ->
           Employee.name (EmployeeControllerMore.updated e b) = Employee.name e)
    end /\
    payrolls (fst (EmployeeControllerMore.updateEmployee db id b)) = payrolls db /\
    map Employee.id (employees (fst (EmployeeControllerMore.updateEmployee db id b))) =
      map Employee.id (employees db) /\
    (forall newId body p,
       In p (payrolls db) ->
       In p (payrolls (fst (PayrollController.processPayroll newId
                              (fst (EmployeeControllerMore.updateEmployee db id b))
                              body)))) /\
    (reachable db -> reachable (fst (EmployeeControllerMore.updateEmployee db id b))).
Proof.
  intros db id b. split; [|split; [|split; [|split]]].
  - unfold EmployeeControllerMore.updateEmployee.
    destruct (Prisma.employee_findUnique db id) as [e|] eqn:E; [|reflexivity].
    assert (Hid : Employee.id e = id).
    { unfold Prisma.employee_findUnique in E. apply find_some in E.
      apply String.eqb_eq, E. }
    assert (Hlook : Prisma.employee_findUnique
                      (EmployeeControllerMore.employee_update db id b) id =
                    Some (EmployeeControllerMore.updated e b)).
    { rewrite employee_update_lookup, E, Hid, String.eqb_refl. reflexivity. }
    eexists. cbv zeta. rewrite Hlook. split; [reflexivity|].
    split; [exact Hlook|]. split; [exact Hid|]. split; [reflexivity|].
    unfold EmployeeControllerMore.updated.
    cbn [Employee.basicSalary Employee.houseRent Employee.name].
    split; [|split]; intros ->; reflexivity.
  - apply updateEmployee_payrolls.
  - apply updateEmployee_ids.
  - intros newId body p Hp.
    destruct (processPayroll_effect newId
                (fst (EmployeeControllerMore.updateEmployee db id b)) body) as (-> & _).
    apply in_or_app. left. rewrite updateEmployee_payrolls. exact Hp.
  - intros Hr.
    pose proof (updateEmployee_payrolls db id b) as Hp.
    pose proof (updateEmployee_ids db id b) as Hids.
    destruct (fst (EmployeeControllerMore.updateEmployee db id b)) as [es ps].
    cbn [employees payrolls] in Hp, Hids. subst ps.
    apply (reach_employees db es Hr).
    intros e He. apply (in_map Employee.id) in He. rewrite <- Hids in He.
    apply in_map_iff in He. destruct He as (e' & He' & Hin). exists e'. auto.
Qed.

(** * Sample runs of the further properties *)

Lemma sample_db_march_unique : unique_periods (payrolls sample_db_march).
Proof.
  unfold unique_periods. vm_compute.
  repeat constructor; simpl; intuition discriminate.
Qed.

Lemma getAllPayrolls_pages_cover_witness :
  let first :=
    listed_pagination
      (PayrollControllerMore.getAllPayrolls sample_createdAt sample_db_march every_row) in
  (Pagination.totalPages first - 1) * Pagination.limit first
    < Pagination.total first
    <= Pagination.totalPages first * Pagination.limit first.
Proof.
  apply (getAllPayrolls_pages_cover sample_createdAt sample_db_march every_row).
  - reflexivity.
  - intros p p' Hp Hp' _ _ _ _.
    vm_compute in Hp, Hp'.
    destruct Hp as [<- | [<- | []]]; destruct Hp' as [<- | [<- | []]];
      intros H; try reflexivity; vm_compute in H; discriminate H.
Defined.


Lemma processed_records_can_be_fetched_witness :
  Forall (fun r =>
            exists found,
              PayrollControllerMore.getPayrollById
                (fst (PayrollController.processPayroll long_newId sample_db march_2025))
                (Payroll.id (payroll r)) = ok 200 None found /\
              payroll found = payroll r /\
              In (payroll r)
                 (payrolls (fst (PayrollController.processPayroll long_newId sample_db
                                   march_2025))) /\
              employee found =
                Prisma.employee_findUnique
                  (fst (PayrollController.processPayroll long_newId sample_db march_2025))
                  (Payroll.employeeId (payroll r)))
    (processed_of (snd (PayrollController.processPayroll long_newId sample_db march_2025))).
Proof.
  apply (processed_records_can_be_fetched long_newId sample_db march_2025).
  - exact long_newId_fresh.
  - simpl. constructor.
Defined.

Lemma delete_then_process_recreates_witness :
  exists r,
    In r (processed_of
            (snd (PayrollController.processPayroll sample_newId
                    (fst (PayrollControllerMore.deletePayroll sample_db_march
                            (Payroll.id sarah_march)))
                    (ProcessBody.mk (Some 3) (Some 2025) None)))) /\
    Payroll.employeeId (payroll r) = Employee.id sarah /\
    Payroll.month (payroll r) = 3 /\ Payroll.year (payroll r) = 2025 /\
    Payroll.status (payroll r) = PENDING /\
    Payroll.paidAt (payroll r) = None.
Proof.
  apply (delete_then_process_recreates sample_newId sample_db_march sarah_march sarah
           3 2025 None).
  - exact sample_db_march_unique.
  - vm_compute. left. reflexivity.
  - reflexivity.
  - vm_compute. left. reflexivity.
  - split; [reflexivity | exact I].
  - discriminate.
  - discriminate.
Defined.

Lemma paid_rows_are_kept_witness :
  (forall newId body,
     In (Prisma.set_paid noon sarah_march)
        (payrolls (fst (PayrollController.processPayroll newId sample_db_paid body)))) /\
  (forall now id,
     In (Prisma.set_paid noon sarah_march)
        (payrolls (fst (PayrollController.markPayrollAsPaid now sample_db_paid id)))) /\
  (forall now payrollIds,
     In (Prisma.set_paid noon sarah_march)
        (payrolls (fst (PayrollController.bulkMarkAsPaid now sample_db_paid payrollIds)))).
Proof.
  apply (paid_rows_are_kept sample_db_paid (Prisma.set_paid noon sarah_march)).
  - vm_compute. repeat constructor; simpl; intuition discriminate.
  - vm_compute. left. reflexivity.
  - reflexivity.
Defined.

Lemma bulkMarkAsPaid_twice_witness :
  PayrollController.bulkMarkAsPaid (noon + 1)
    (fst (PayrollController.bulkMarkAsPaid noon sample_db_march (Some ["pay-0"%string])))
    (Some ["pay-0"%string]) =
  (fst (PayrollController.bulkMarkAsPaid noon sample_db_march (Some ["pay-0"%string])),
   ok 200 (Some (bulk_message 0)) {| BulkResult.updatedCount := 0 |}).
Proof.
  apply (bulkMarkAsPaid_twice noon (noon + 1) sample_db_march ["pay-0"%string]).
  discriminate.
Defined.


Lemma getDesignationWiseReport_latest_payrolls_witness :
  exists groups,
    ReportControllerMore.getDesignationWiseReport sample_db_march = ok 200 None groups /\
    NoDup (map DesignationWise.designation groups) /\
    (forall d, In d (map DesignationWise.designation groups) <->
               exists e, In e (employees sample_db_march) /\ Employee.designation e = d) /\
    Forall (fun g =>
              DesignationWise.count g =
                Z.of_nat (List.length
                            (with_designation sample_db_march
                               (DesignationWise.designation g))) /\
              1 <= DesignationWise.count g /\
              DesignationWise.totalSalary g =
                running_sum
                  (map Payroll.netSalary
                       (latest_payrolls sample_db_march
                          (with_designation sample_db_march
                             (DesignationWise.designation g)))))
           groups /\
    Zsum (map DesignationWise.count groups) =
      Z.of_nat (List.length (employees sample_db_march)) /\
    forall e,
      match ReportControllerMore.latestPayroll sample_db_march e with
      | Some p =>
          In p (payrolls sample_db_march) /\ Payroll.employeeId p = Employee.id e /\
          (forall q, In q (payrolls sample_db_march) ->
                     Payroll.employeeId q = Employee.id e -> not_earlier p q) /\
          (forall q, In q (payrolls sample_db_march) ->
                     Payroll.employeeId q = Employee.id e ->
             (forall q', In q' (payrolls sample_db_march) ->
                         Payroll.employeeId q' = Employee.id e -> not_earlier q q') ->
             q = p)
      | None =>
          forall q, In q (payrolls sample_db_march) ->
                    Payroll.employeeId q <> Employee.id e
      end.
Proof.
  apply (getDesignationWiseReport_latest_payrolls sample_db_march).
  exact sample_db_march_unique.
Defined.

Lemma reachable_store_invariant_witness : store_invariant sample_db_march.
Proof.
  apply (reachable_store_invariant sample_db_march).
  exact (reach_process sample_newId sample_db march_2025
           (reach_init [sarah; indebted; retired])).
Defined.


Lemma settings_put_then_get_witness :
  exists table',
    SettingsRoutes.put sample_settings "currency" (Some "BDT"%string) =
      (table', ok 200 (Some "Setting updated successfully"%string)
                 {| Setting.key := "currency"; Setting.value := "BDT" |}) /\
    SettingsRoutes.getByKey table' "currency" =
      ok 200 None {| Setting.key := "currency"; Setting.value := "BDT" |} /\
    (forall k, k <> "currency"%string ->
               SettingsRoutes.getByKey table' k = SettingsRoutes.getByKey sample_settings k) /\
    (NoDup (map Setting.key sample_settings) ->
     NoDup (map Setting.key table') /\
     JsMap.get String.eqb (settings_object (SettingsRoutes.getAll table'))
       "currency"%string =
       Some "BDT"%string /\
     forall k, k <> "currency"%string ->
               JsMap.get String.eqb (settings_object (SettingsRoutes.getAll table')) k =
               JsMap.get String.eqb
                 (settings_object (SettingsRoutes.getAll sample_settings)) k) /\
    SettingsRoutes.put sample_settings "currency" None =
      (sample_settings, failure 400 "Value is required") /\
    SettingsRoutes.put sample_settings "currency" (Some EmptyString) =
      (sample_settings, failure 400 "Value is required").
Proof.
  apply (settings_put_then_get sample_settings "currency" "BDT").
  discriminate.
Defined.

